(** * Diagnostic evaluation engine: DTC rule matching and response checks

    A shallow embedding of [diagnostic_utils.py] (with the parts of
    [dtcinfo.py], [test_report_context.py] and [test_report.py] it calls),
    followed by the properties of the value codec, the DTC rule matcher and
    the response classifier.

    Conventions of the embedding:
    - a Python [str] is a list of characters ([list ascii]); a character is
      a code point below 256;
    - a Python [int] is a [Z];
    - a raised exception is the left summand of [result];
    - [print] calls and time stamps are not modelled. *)

From Stdlib Require Import ZArith List Ascii Bool Lia Permutation Sorted.
From Stdlib Require String.
Import ListNotations String.StringSyntax.

Local Open Scope string_scope.
Local Open Scope list_scope.
Local Open Scope Z_scope.

(** ** Python strings *)

Definition str := list ascii.

Definition lit (s : String.string) : str := String.list_ascii_of_string s.
Coercion lit : String.string >-> str.

Definition empty_str : str := [].

Definition str_eqb (a b : str) : bool :=
  if list_eq_dec ascii_dec a b then true else false.

(** ** Exceptions *)

Inductive exn :=
| ValueError (msg : str)
| TypeError (msg : str)
| RuntimeError (msg : str)
| IndexError (msg : str).

Definition result (A : Type) : Type := (exn + A)%type.
Definition Ok {A} (a : A) : result A := inr a.
Definition Err {A} (e : exn) : result A := inl e.

Definition rbind {A B} (m : result A) (k : A -> result B) : result B :=
  match m with
  | inl e => inl e
  | inr a => k a
  end.

Notation "'do' x <- m ; k" := (rbind m (fun x => k))
  (at level 10, x name, m at level 100, k at level 200).

Definition is_ok {A} (m : result A) : bool :=
  match m with inr _ => true | inl _ => false end.

(** ** The built-ins the source relies on *)

Module Py.

Definition ord (c : ascii) : Z := Z.of_N (N_of_ascii c).

Definition in_range (lo hi : Z) (c : ascii) : bool :=
  (lo <=? ord c) && (ord c <=? hi).

(** [str.isspace] on one character: what [strip] and [split] remove. *)
Definition isspace (c : ascii) : bool :=
  in_range 9 13 c || in_range 28 32 c || (ord c =? 133) || (ord c =? 160).

(** The white space [int()] skips: the C locale's, plus the two Latin-1
    spaces that the conversion of a [str] maps to a blank first. *)
Definition isspace_int (c : ascii) : bool :=
  in_range 9 13 c || (ord c =? 32) || (ord c =? 133) || (ord c =? 160).

Definition lower_char (c : ascii) : ascii :=
  if in_range 65 90 c || (in_range 192 222 c && negb (ord c =? 215))
  then ascii_of_N (N_of_ascii c + 32)
  else c.

Definition lower (s : str) : str := map lower_char s.

Fixpoint lstrip (s : str) : str :=
  match s with
  | c :: r => if isspace c then lstrip r else s
  | [] => []
  end.

Definition strip (s : str) : str := rev (lstrip (rev (lstrip s))).

Fixpoint startswith (s p : str) {struct p} : bool :=
  match p, s with
  | [], _ => true
  | a :: p', b :: s' => Ascii.eqb a b && startswith s' p'
  | _ :: _, [] => false
  end.

Definition endswith (s p : str) : bool := startswith (rev s) (rev p).

(** [s.replace] of every underscore by nothing *)
Definition drop_underscores (s : str) : str :=
  filter (fun c => negb (Ascii.eqb c "_")) s.

(** [ch in chars] *)
Definition char_in (chars : str) (c : ascii) : bool :=
  existsb (Ascii.eqb c) chars.

(** [set(s) <= set(chars)] *)
Definition chars_subset (s chars : str) : bool := forallb (char_in chars) s.

(** [s.zfill(width)]: zeros go after a leading sign. *)
Definition zfill (width : nat) (s : str) : str :=
  let fill := repeat "0"%char (width - length s) in
  match s with
  | c :: r =>
      if Ascii.eqb c "+" || Ascii.eqb c "-" then c :: fill ++ r
      else fill ++ s
  | [] => fill
  end.

(** *** Parsing integers: [int(s, base)] *)

Definition digit_value (c : ascii) : option Z :=
  if in_range 48 57 c then Some (ord c - 48)
  else if in_range 97 122 c then Some (ord c - 87)
  else if in_range 65 90 c then Some (ord c - 55)
  else None.

Definition is_digit (base : Z) (c : ascii) : bool :=
  match digit_value c with
  | Some d => d <? base
  | None => false
  end.

(** The digit loop: single underscores may separate digits, none may end
    the literal.  Returns the value and the unread rest. *)
Fixpoint scan_digits (base : Z) (prev_us : bool) (acc : Z) (s : str)
  : option (Z * str) :=
  match s with
  | [] => if prev_us then None else Some (acc, [])
  | c :: r =>
      if Ascii.eqb c "_" then
        if prev_us then None else scan_digits base true acc r
      else
        match digit_value c with
        | Some d =>
            if d <? base then scan_digits base false (acc * base + d) r
            else if prev_us then None else Some (acc, s)
        | None => if prev_us then None else Some (acc, s)
        end
  end.

Definition split_sign (s : str) : bool * str :=
  match s with
  | c :: r =>
      if Ascii.eqb c "-" then (true, r)
      else if Ascii.eqb c "+" then (false, r)
      else (false, s)
  | [] => (false, [])
  end.

(** A base prefix ([0x] for 16, [0b] for 2) and one underscore after it. *)
Definition skip_prefix (base : Z) (s : str) : str :=
  match s with
  | z :: m :: r =>
      if Ascii.eqb z "0" &&
         (((base =? 16) && (Ascii.eqb m "x" || Ascii.eqb m "X")) ||
          ((base =? 2) && (Ascii.eqb m "b" || Ascii.eqb m "B")))
      then match r with
           | u :: r' => if Ascii.eqb u "_" then r' else r
           | [] => r
           end
      else s
  | _ => s
  end.

Fixpoint lstrip_int (s : str) : str :=
  match s with
  | c :: r => if isspace_int c then lstrip_int r else s
  | [] => []
  end.

(** The literal after its sign: prefix, digits, trailing white space. *)
Definition parse_unsigned (base : Z) (s : str) : option Z :=
  match skip_prefix base s with
  | c :: r =>
      if is_digit base c then
        match scan_digits base false 0 (c :: r) with
        | Some (v, rest) => if forallb isspace_int rest then Some v else None
        | None => None
        end
      else None
  | [] => None
  end.

Definition parse_int (base : Z) (s : str) : option Z :=
  let (neg, s1) := split_sign (lstrip_int s) in
  option_map (fun v => if neg then - v else v) (parse_unsigned base s1).

Definition invalid_literal : str := "invalid literal for int()".

(** [int(s, base)] on a [str] *)
Definition int_of_str (base : Z) (s : str) : result Z :=
  match parse_int base s with
  | Some n => Ok n
  | None => Err (ValueError invalid_literal)
  end.

(** *** Printing integers *)

Definition digit_char (d : Z) : ascii :=
  nth (Z.to_nat d) (lit "0123456789abcdefghijklmnopqrstuvwxyz") "0"%char.

Fixpoint digits_rev (base : Z) (fuel : nat) (n : Z) : str :=
  match fuel with
  | O => []
  | S f =>
      digit_char (n mod base) ::
      (if n / base =? 0 then [] else digits_rev base f (n / base))
  end.

(** The digits of [n >= 0] in [base], most significant first. *)
Definition to_base (base : Z) (n : Z) : str :=
  rev (digits_rev base (S (Z.to_nat (Z.log2 n))) n).

Definition zpad (width : nat) (s : str) : str :=
  repeat "0"%char (width - length s) ++ s.

(** [f"{n:0{width}x}"]: the sign counts in the width. *)
Definition format_x (width : nat) (n : Z) : str :=
  if n <? 0 then "-"%char :: zpad (width - 1) (to_base 16 (- n))
  else zpad width (to_base 16 n).

(** [bin(n)[2:]] *)
Definition bin_tail (n : Z) : str :=
  if n <? 0 then "b"%char :: to_base 2 (- n) else to_base 2 n.

(** [str(n)] *)
Definition str_of_int (n : Z) : str :=
  if n <? 0 then "-"%char :: to_base 10 (- n) else to_base 10 n.

End Py.

(** ** Values reaching the DTC functions: [None], an [int] or a [str] *)

Inductive pyval :=
| VNone
| VInt (n : Z)
| VStr (s : str).

Definition int_type_error : str :=
  "int() argument must be a string, a bytes-like object or a real number".
Definition int_base_type_error : str :=
  "int() can't convert non-string with explicit base".

(** [int(value)] *)
Definition py_int (v : pyval) : result Z :=
  match v with
  | VNone => Err (TypeError int_type_error)
  | VInt n => Ok n
  | VStr s => Py.int_of_str 10 s
  end.

(** [int(value, base)] *)
Definition py_int_base (v : pyval) (base : Z) : result Z :=
  match v with
  | VStr s => Py.int_of_str base s
  | _ => Err (TypeError int_base_type_error)
  end.

(** ** diagnostic_utils.py: the value codec *)

Definition STATUS_ALLOWED : str := "Allowed".
Definition STATUS_MUTED : str := "Muted".
Definition STATUS_EXPECTED : str := "Expected".
Definition STATUS_ANY : str := "any".

Definition hex_chars : str := "0123456789abcdef".
Definition bit_chars : str := "01*".

Definition _to_int (value : pyval) : result (option Z) :=
  match value with
  | VNone => Ok None
  | VStr v =>
      let s := Py.lower (Py.strip v) in
      if str_eqb s STATUS_ANY then Ok None
      else if Py.chars_subset s bit_chars then Ok None
      else if Py.startswith s "0x" then
        do n <- Py.int_of_str 16 (Py.drop_underscores (skipn 2 s)); Ok (Some n)
      else if Py.startswith s "0b" then
        do n <- Py.int_of_str 2 (Py.drop_underscores (skipn 2 s)); Ok (Some n)
      else do n <- Py.int_of_str 10 s; Ok (Some n)
  | VInt n => Ok (Some n)
  end.

Definition dtc_width (n : Z) : nat :=
  if n <=? 1048575 then 5%nat else length (Py.format_x 0 n).

Definition format_number (n : Z) : str :=
  lit "0x" ++ Py.format_x (dtc_width n) n.

Definition format_dtc_code (value : pyval) : result str :=
  match value with
  | VStr v =>
      let s := Py.lower (Py.strip v) in
      if str_eqb s STATUS_ANY then Ok STATUS_ANY
      else if Py.startswith s "0x" then
        let hex_digits := filter (Py.char_in hex_chars) (skipn 2 s) in
        Ok (lit "0x" ++ match hex_digits with [] => lit "00" | _ => hex_digits end)
      else
        do n <-
          (if Py.startswith s "0b"
           then Py.int_of_str 2 (Py.drop_underscores (skipn 2 s))
           else match Py.int_of_str 10 s with
                | inr n => Ok n
                | inl (ValueError _) => Py.int_of_str 16 s
                | inl e => Err e
                end);
        Ok (format_number n)
  | _ =>
      do n <- py_int value;
      Ok (format_number n)
  end.

Definition hex2 (n : Z) : str := lit "0x" ++ Py.format_x 2 n.

Definition parse_to_int_or_hex (value : pyval) : result str :=
  match value with
  | VStr v =>
      if str_eqb (Py.lower v) STATUS_ANY then Ok STATUS_ANY
      else if Py.startswith (Py.lower v) "0x" then
        let digits :=
          filter (Py.char_in hex_chars) (Py.lower (Py.strip (skipn 2 v))) in
        let digits :=
          if (length digits =? 1)%nat then Py.zfill 2 digits else digits in
        Ok (lit "0x" ++ match digits with [] => lit "00" | _ => digits end)
      else if Py.startswith (Py.lower v) "0b" then
        do n <- Py.int_of_str 2 (Py.drop_underscores (skipn 2 v));
        Ok (hex2 n)
      else if Py.chars_subset v bit_chars then Ok v
      else do n <- Py.int_of_str 10 v; Ok (hex2 n)
  | _ => do n <- py_int value; Ok (hex2 n)
  end.

(** ** dtcinfo.py *)

Record DTCInfo := mkDTCInfo { DTC : str; status : pyval }.

(** [str(value)] *)
Definition py_str (v : pyval) : str :=
  match v with
  | VNone => "None"
  | VInt n => Py.str_of_int n
  | VStr s => s
  end.

(** [DTCInfo(DTC, status)] *)
Definition DTCInfo_init (code status : pyval) : DTCInfo :=
  mkDTCInfo (Py.lower (py_str code)) status.

(** ** diagnostic_utils.py: status bit field and DTC objects *)

Record DTCStatus := mkDTCStatus {
  value : option Z;            (* [None] stands for the value "any" *)
  bits : list (option Z)       (* the eight named flags, bit 0 first *)
}.

(** [DTCStatus(value)] for the [str] values [evaluate_dtc_block] builds. *)
Definition DTCStatus_init (v : str) : result DTCStatus :=
  if str_eqb (Py.lower v) "any" then
    Ok (mkDTCStatus None (repeat None 8))
  else
    do n <- (if Py.startswith v "0x" then Py.int_of_str 16 v
             else Py.int_of_str 10 v);
    Ok (mkDTCStatus (Some n)
          (map (fun i => Some (Z.land (Z.shiftr n (Z.of_nat i)) 1)) (seq 0 8))).

Record DTC_obj := mkDTC { dtc : str; dtc_status : DTCStatus }.

(** [DTC(code, status)] *)
Definition DTC_init (code status : str) : result DTC_obj :=
  do c <- format_dtc_code (VStr code);
  do s <- DTCStatus_init status;
  Ok (mkDTC c s).

(** ** diagnostic_utils.py: the DTC rule matcher *)

(** Every exception of the two conversions is caught and means "no match". *)
Definition dtc_matches_code (dtc rule : DTCInfo) : bool :=
  match _to_int (VStr (DTC dtc)), _to_int (VStr (DTC rule)) with
  | inr (Some dtc_code), inr (Some rule_code) => dtc_code =? rule_code
  | _, _ => false
  end.

(** [isinstance(v, str) and "*" in v] *)
Definition has_star (v : pyval) : bool :=
  match v with
  | VStr s => Py.char_in s "*"
  | _ => false
  end.

(** [v == STATUS_ANY] *)
Definition is_any (v : pyval) : bool :=
  match v with
  | VStr s => str_eqb s STATUS_ANY
  | _ => false
  end.

(** The comparison loop of the wildcard branch, after both operands were
    brought to the same length. *)
Definition bits_agree (dut_bin rule_pattern : str) : bool :=
  forallb (fun '(db, rp) =>
             negb (negb (Ascii.eqb rp "*") && negb (Ascii.eqb db rp)))
          (combine dut_bin rule_pattern).

Definition wildcard_match (dut_bin rule_pattern : str) : bool :=
  let maxlen := Nat.max (length rule_pattern) (length dut_bin) in
  bits_agree (Py.zfill maxlen dut_bin) (Py.zfill maxlen rule_pattern).

Definition status_matches (dut_status rule_status : pyval) : bool :=
  if is_any rule_status then true
  else if has_star rule_status then
    match rule_status, py_int_base dut_status 16 with
    | VStr rule_pattern, inr n => wildcard_match (Py.bin_tail n) rule_pattern
    | _, _ => false
    end
  else
    match _to_int dut_status, _to_int rule_status with
    | inr (Some dut_status_int), inr (Some rule_status_int) =>
        dut_status_int =? rule_status_int
    | _, _ => false
    end.

Inductive rule_type := Allowed | Muted | Expected.

Definition type_name (t : rule_type) : str :=
  match t with
  | Allowed => STATUS_ALLOWED
  | Muted => STATUS_MUTED
  | Expected => STATUS_EXPECTED
  end.

(** One line of the comprehensive table, columns in the source's order. *)
Record row := mkRow {
  row_dtc : str;
  row_status : str;
  row_presence : str;
  row_type : str;
  row_dtc_plus_status : str;
  row_result : str
}.

(** The result of a matched rule: the three status branches of the scan. *)
Definition rule_result (t : rule_type) (dut rule : DTCInfo) : str :=
  let matched : str :=
    match t with Expected => lit "pass" | _ => lit "none" end in
  if has_star (status rule) then
    if status_matches (status dut) (status rule) then matched else "fail"
  else if is_any (status rule) then matched
  else
    if status_matches (status dut) (status rule) then matched else "fail".

(** [f"{format_dtc_code(rule.DTC)}+{parse_to_int_or_hex(rule.status)}"] *)
Definition dtc_plus_status (rule : DTCInfo) : result str :=
  do c <- format_dtc_code (VStr (DTC rule));
  do s <- parse_to_int_or_hex (status rule);
  Ok (c ++ lit "+" ++ s).

(** The two nested loops over [rule_sets]: the first rule of the first
    category whose code matches. *)
Fixpoint first_match (dut : DTCInfo) (rule_sets : list (rule_type * list DTCInfo))
  : option (rule_type * DTCInfo) :=
  match rule_sets with
  | [] => None
  | (t, rules) :: rest =>
      match find (dtc_matches_code dut) rules with
      | Some rule => Some (t, rule)
      | None => first_match dut rest
      end
  end.

(** The marking loop run after an [Expected] match. *)
Definition mark_found (dut : DTCInfo) (expected_dtcs : list DTCInfo)
  (expected_found : list bool) : list bool :=
  map (fun '(ex, f) => if dtc_matches_code dut ex then true else f)
      (combine expected_dtcs expected_found).

(** The body of the loop over the observed DTCs. *)
Definition scan_dut (rule_sets : list (rule_type * list DTCInfo))
  (expected_dtcs : list DTCInfo) (dut : DTCInfo) (expected_found : list bool)
  : result (row * list bool) :=
  do dtc_code <- format_dtc_code (VStr (DTC dut));
  do dtc_status <- parse_to_int_or_hex (status dut);
  match first_match dut rule_sets with
  | Some (t, rule) =>
      do dps <- dtc_plus_status rule;
      let r := mkRow dtc_code dtc_status "Present" (type_name t) dps
                     (rule_result t dut rule) in
      Ok (r, match t with
             | Expected => mark_found dut expected_dtcs expected_found
             | _ => expected_found
             end)
  | None =>
      Ok (mkRow dtc_code dtc_status "Present" "Unexpected" empty_str "fail",
          expected_found)
  end.

Fixpoint scan_duts (rule_sets : list (rule_type * list DTCInfo))
  (expected_dtcs : list DTCInfo) (dut_dtcs : list DTCInfo)
  (table_data : list row) (expected_found : list bool)
  : result (list row * list bool) :=
  match dut_dtcs with
  | [] => Ok (table_data, expected_found)
  | dut :: rest =>
      do rf <- scan_dut rule_sets expected_dtcs dut expected_found;
      scan_duts rule_sets expected_dtcs rest (table_data ++ [fst rf]) (snd rf)
  end.

Definition missing_row (ex : DTCInfo) : result row :=
  do c <- format_dtc_code (VStr (DTC ex));
  do s <- parse_to_int_or_hex (status ex);
  do c' <- format_dtc_code (VStr (DTC ex));
  do s' <- parse_to_int_or_hex (status ex);
  Ok (mkRow c s "Not Present" STATUS_EXPECTED (c' ++ lit "+" ++ s') "fail").

(** The loop over the expected rules that were never marked. *)
Fixpoint missing_rows (expected : list (DTCInfo * bool)) (table_data : list row)
  : result (list row) :=
  match expected with
  | [] => Ok table_data
  | (ex, found) :: rest =>
      if found then missing_rows rest table_data
      else do r <- missing_row ex; missing_rows rest (table_data ++ [r])
  end.

Record table := mkTable {
  name : str;
  column_header : list str;
  data : list (list str);
  expanded : bool
}.

Definition comprehensive_header : list str :=
  [lit "DTC"; lit "Status"; lit "Present/Not present"; lit "Type";
   lit "DTC+Status"; lit "Result"].

Definition comprehensive_name : str := "DTC Comprehensive Evaluation".

Definition rule_sets_of (allowed muted expected : list DTCInfo)
  : list (rule_type * list DTCInfo) :=
  [(Allowed, allowed); (Muted, muted); (Expected, expected)].

(** The rows of the table [build_comprehensive_dtc_results_table] returns. *)
Definition comprehensive_rows
  (dut_dtcs allowed_dtcs muted_dtcs expected_dtcs : list DTCInfo)
  : result (list row) :=
  let rule_sets := rule_sets_of allowed_dtcs muted_dtcs expected_dtcs in
  let expected_found := repeat false (length expected_dtcs) in
  do tf <- scan_duts rule_sets expected_dtcs dut_dtcs [] expected_found;
  missing_rows (combine expected_dtcs (snd tf)) (fst tf).

Definition cells (r : row) : list str :=
  [row_dtc r; row_status r; row_presence r; row_type r;
   row_dtc_plus_status r; row_result r].

Definition build_comprehensive_dtc_results_table
  (dut_dtcs allowed_dtcs muted_dtcs expected_dtcs : list DTCInfo)
  : result table :=
  do rows <- comprehensive_rows dut_dtcs allowed_dtcs muted_dtcs expected_dtcs;
  Ok (mkTable comprehensive_name comprehensive_header (map cells rows) true).

Definition summary_line (t : rule_type) (rule : DTCInfo) : result (list str) :=
  do c <- format_dtc_code (VStr (DTC rule));
  do s <- parse_to_int_or_hex (status rule);
  Ok [type_name t; c; s].

Fixpoint summary_lines (t : rule_type) (rules : list DTCInfo)
  (table_data : list (list str)) : result (list (list str)) :=
  match rules with
  | [] => Ok table_data
  | rule :: rest =>
      do l <- summary_line t rule;
      summary_lines t rest (table_data ++ [l])
  end.

Definition build_dtc_rule_summary_table
  (allowed_dtcs expected_dtcs muted_dtcs : list DTCInfo) : result table :=
  do d1 <- summary_lines Allowed allowed_dtcs [];
  do d2 <- summary_lines Expected expected_dtcs d1;
  do d3 <- summary_lines Muted muted_dtcs d2;
  Ok (mkTable "DTC Rule Summary" [lit "Type"; lit "DTC"; lit "Status"] d3 true).

(** [get_muted_dtcs()].  The configuration manager is not part of this
    module: the list it holds under [muted_troubles.DTC] is the argument. *)
Fixpoint get_muted_dtcs (muted : list pyval) : result (list DTCInfo) :=
  match muted with
  | [] => Ok []
  | x :: rest =>
      do c <- format_dtc_code x;
      do l <- get_muted_dtcs rest;
      Ok (DTCInfo_init (VStr c) (VStr STATUS_ANY) :: l)
  end.

(** ** The report sink: test_report_context.py over test_report.py

    The report is kept as the sequence of calls it received.  What
    [TestReport] derives from them (group nesting, statuses) is left out,
    the in-place sort [add_table] performs on the rows it is handed is not:
    the rows are the caller's list. *)

Module Sink.

Inductive call :=
| Table (name : str) (data : list (list str)) (column_header : list str)
| Step (status comment : str)
| Diagnostic (name tx_bytes rx_bytes expected status : str).

Definition report := list call.

(** [_current_report]: [None] until [set_report] is called. *)
Definition sink := option report.

Definition no_report : exn := RuntimeError "No active report has been set.".

Definition index_error : exn := IndexError "list index out of range".

(** [v.upper()]; the capitals of U+00B5 and U+00FF lie above U+00FF and
    are no ASCII letters: both stay as they are. *)
Definition upper_char (c : ascii) : str :=
  if Py.in_range 97 122 c || (Py.in_range 224 254 c && negb (Py.ord c =? 247))
  then [ascii_of_N (N_of_ascii c - 32)]
  else if Py.ord c =? 223 then lit "SS"
  else [c].

Definition upper (s : str) : str := flat_map upper_char s.

(** [priority.get(str(cell).strip().upper(), 3)] *)
Definition priority (cell : str) : Z :=
  let v := upper (Py.strip cell) in
  if str_eqb v "FAIL" then 0
  else if str_eqb v "PASS" then 1
  else if str_eqb v "NONE" then 2
  else 3.

(** The index of the first header that reads "result". *)
Fixpoint result_idx (headers : list str) : option nat :=
  match headers with
  | [] => None
  | h :: rest =>
      if str_eqb (Py.lower (Py.strip h)) "result" then Some O
      else option_map S (result_idx rest)
  end.

Fixpoint keys (idx : nat) (data : list (list str)) : option (list (Z * list str)) :=
  match data with
  | [] => Some []
  | r :: rest =>
      match nth_error r idx, keys idx rest with
      | Some cell, Some ks => Some ((priority cell, r) :: ks)
      | _, _ => None
      end
  end.

(** [list.sort] is stable. *)
Fixpoint insert (x : Z * list str) (l : list (Z * list str)) : list (Z * list str) :=
  match l with
  | [] => [x]
  | y :: ys => if fst x <=? fst y then x :: l else y :: insert x ys
  end.

Definition sort (l : list (Z * list str)) : list (Z * list str) :=
  fold_right insert [] l.

(** What [get_table_status] leaves in [data]. *)
Definition sorted_data (headers : list str) (data : list (list str))
  : result (list (list str)) :=
  match result_idx headers with
  | None => Ok data
  | Some idx =>
      match keys idx data with
      | Some ks => Ok (map snd (sort ks))
      | None => Err index_error
      end
  end.

(** Calls change the report and may raise. *)
Definition M (A : Type) : Type := sink -> sink * result A.

Definition ret {A} (a : A) : M A := fun s => (s, Ok a).

Definition bind {A B} (m : M A) (k : A -> M B) : M B :=
  fun s => match m s with
           | (s', inr a) => k a s'
           | (s', inl e) => (s', inl e)
           end.

Definition lift {A} (r : result A) : M A := fun s => (s, r).

(** [try: m  except Exception: h] *)
Definition try_except {A} (m : M A) (h : M A) : M A :=
  fun s => match m s with
           | (s', inl _) => h s'
           | done => done
           end.

Definition emit (c : call) : M unit :=
  fun s => match s with
           | None => (None, Err no_report)
           | Some r => (Some (r ++ [c]), Ok tt)
           end.

Definition add_table (t : table) : M unit :=
  fun s => match s with
           | None => (None, Err no_report)
           | Some r =>
               match sorted_data (column_header t) (data t) with
               | inr d => (Some (r ++ [Table (name t) d (column_header t)]), Ok tt)
               | inl e => (Some r, Err e)
               end
           end.

Definition add_step (status comment : str) : M unit :=
  emit (Step status comment).

Definition add_diagnostic_tx_rx_group (name tx_bytes rx_bytes expected status : str)
  : M unit :=
  emit (Diagnostic name tx_bytes rx_bytes expected status).

End Sink.

Notation "x <- m ;; k" := (Sink.bind m (fun x => k))
  (at level 61, m at next level, right associativity).

(** ** diagnostic_utils.py: evaluate_dtc_block *)

Fixpoint dtc_objects (dut_dtcs : list DTCInfo) (dtc_objs : list DTC_obj)
  : result (list DTC_obj) :=
  match dut_dtcs with
  | [] => Ok dtc_objs
  | d :: rest =>
      do c <- format_dtc_code (VStr (DTC d));
      do s <- parse_to_int_or_hex (status d);
      do o <- DTC_init c s;
      dtc_objects rest (dtc_objs ++ [o])
  end.

(** [row[5]], the rows of the comprehensive table having six cells *)
Definition result_cell (r : list str) : str := nth 5 r [].

Definition overall_status (t : table) : str :=
  let results := filter (fun c => negb (str_eqb c empty_str)) (map result_cell (data t)) in
  if existsb (fun r => str_eqb r "fail") results then "FAIL" else "PASS".

Definition evaluate_dtc_block (muted_config : list pyval)
  (dut_dtcs allowed_dtcs expected_dtcs : list DTCInfo) : Sink.M (list DTC_obj) :=
  muted_dtcs <- Sink.lift (get_muted_dtcs muted_config) ;;
  summary_table <-
    Sink.lift (build_dtc_rule_summary_table allowed_dtcs expected_dtcs muted_dtcs) ;;
  _ <- Sink.add_table summary_table ;;
  match dut_dtcs with
  | [] =>
      _ <- Sink.add_table (mkTable comprehensive_name comprehensive_header [] true) ;;
      _ <- Sink.add_step "PASS" "DTC evaluation overall status: PASS" ;;
      Sink.ret []
  | _ =>
      t <- Sink.lift (build_comprehensive_dtc_results_table
                        dut_dtcs allowed_dtcs muted_dtcs expected_dtcs) ;;
      let status := overall_status t in
      _ <- Sink.add_table t ;;
      _ <- Sink.add_step status (lit "DTC evaluation overall status: " ++ status) ;;
      Sink.lift (dtc_objects dut_dtcs [])
  end.

(** ** diagnostic_utils.py: the response classifier *)

(** An element of a list response: an [int] or a [str]. *)
Inductive item :=
| IInt (n : Z)
| IStr (s : str).

(** What is passed as [did], [actual_response] and [expected_response]. *)
Inductive resp :=
| RNone
| RInt (n : Z)
| RStr (s : str)
| RBytes (bs : list Z)
| RList (xs : list item).

Record DiagResponse := mkDiagResponse {
  dr_name : str;
  request_did : str;
  response_did : str;
  expected_did : str;
  responsetype : str;
  dr_result : str;
  reason : str
}.

Module Classifier.

(** [s.split()] *)
Fixpoint split_from (cur : str) (s : str) : list str :=
  match s with
  | [] => match cur with [] => [] | _ => [rev cur] end
  | c :: r =>
      if Py.isspace c then
        match cur with
        | [] => split_from [] r
        | _ => rev cur :: split_from [] r
        end
      else split_from (c :: cur) r
  end.

Definition split (s : str) : list str := split_from [] s.

(** [s.replace(",", " ")] *)
Definition commas_to_blanks (s : str) : str :=
  map (fun c => if Ascii.eqb c "," then " "%char else c) s.

(** [bool(resp)] *)
Definition truthy (r : resp) : bool :=
  match r with
  | RNone => false
  | RInt n => negb (n =? 0)
  | RStr s => match s with [] => false | _ => true end
  | RBytes bs => match bs with [] => false | _ => true end
  | RList xs => match xs with [] => false | _ => true end
  end.

(** [int(p, 16) if p.startswith("0x") else int(p)] *)
Definition token_int (p : str) : result Z :=
  if Py.startswith p "0x" then Py.int_of_str 16 p else Py.int_of_str 10 p.

Definition item_int (x : item) : result Z :=
  match x with
  | IStr s => token_int s
  | IInt n => Ok n
  end.

Fixpoint map_result {A B} (f : A -> result B) (l : list A) : result (list B) :=
  match l with
  | [] => Ok []
  | a :: r => do b <- f a; do bs <- map_result f r; Ok (b :: bs)
  end.

Definition response_to_bytes (r : resp) : result (list Z) :=
  match r with
  | RBytes bs => Ok bs
  | RStr s => map_result token_int (split (commas_to_blanks s))
  | RList xs => map_result item_int xs
  | RInt n => Ok [n]
  | RNone => Ok []
  end.

Definition upper_hex (c : ascii) : ascii :=
  if Py.in_range 97 102 c then ascii_of_N (N_of_ascii c - 32) else c.

(** [f"{n:0{width}X}"] *)
Definition format_X (width : nat) (n : Z) : str :=
  map upper_hex (Py.format_x width n).

(** [f"0x{n:02X}"] *)
Definition hex2X (n : Z) : str := lit "0x" ++ format_X 2 n.

(** [" ".join(parts)] *)
Fixpoint join_blank (parts : list str) : str :=
  match parts with
  | [] => []
  | [p] => p
  | p :: rest => p ++ " "%char :: join_blank rest
  end.

Definition to_hex_str (val : resp) : result str :=
  match val with
  | RBytes bs => Ok (Py.lower (join_blank (map hex2X bs)))
  | RList xs =>
      do ns <- map_result item_int xs;
      Ok (Py.lower (join_blank (map hex2X ns)))
  | RInt n => Ok (Py.lower (hex2X n))
  | RStr s =>
      match token_int s with
      | inr v => Ok (Py.lower (hex2X v))
      | inl (ValueError _) => Ok s
      | inl e => Err e
      end
  | RNone => Err (TypeError int_type_error)
  end.

(** [repr] of a [bytes] object *)
Definition repr_byte (quote : ascii) (b : Z) : str :=
  let c := ascii_of_N (Z.to_N b) in
  if Ascii.eqb c quote || Ascii.eqb c "\" then ["\"%char; c]
  else if b =? 9 then lit "\t"
  else if b =? 10 then lit "\n"
  else if b =? 13 then lit "\r"
  else if (b <? 32) || (127 <=? b) then lit "\x" ++ Py.format_x 2 b
  else [c].

Definition repr_bytes (bs : list Z) : str :=
  let quote :=
    if existsb (Z.eqb 39) bs && negb (existsb (Z.eqb 34) bs)
    then "034"%char else "039"%char in
  "b"%char :: quote :: flat_map (repr_byte quote) bs ++ [quote].

(** [f"{expected_response}"] where the source formats it: never a list. *)
Definition show (r : resp) : str :=
  match r with
  | RNone => "None"
  | RInt n => Py.str_of_int n
  | RStr s => s
  | RBytes bs => repr_bytes bs
  | RList _ => []
  end.

Definition is_list (r : resp) : bool :=
  match r with RList _ => true | _ => false end.

(** [expected_response == word] *)
Definition is_word (r : resp) (word : str) : bool :=
  match r with RStr s => str_eqb s word | _ => false end.

(** The [ln(N)] test; gives the text between the brackets. *)
Definition ln_argument (r : resp) : option str :=
  match r with
  | RStr s =>
      if Py.startswith s "ln(" && Py.endswith s ")"
      then Some (skipn 3 (removelast s))
      else None
  | _ => None
  end.

(** Response type, result and reason of the classification. *)
Definition verdict : Type := (str * str * str)%type.

(** The body of the [try] of the length check. *)
Definition classify_ln_body (main_did : option Z) (actual_response : resp)
  (actual_bytes : list Z) (arg : str) : result verdict :=
  do N <- Py.int_of_str 10 arg;
  if match main_did with Some d => d =? 34 | None => false end then
    if match actual_bytes with
       | b0 :: _ => (b0 =? 98) && (Z.of_nat (length (skipn 3 actual_bytes)) =? N)
       | [] => false
       end
    then Ok (lit "ln", lit "PASS", empty_str)
    else
      do got <- to_hex_str actual_response;
      Ok (lit "ln", lit "FAIL",
          lit "For DID 0x22, expected response[0]==0x62 and len(response[3:])=="
          ++ Py.str_of_int N ++ lit ", got " ++ got)
  else Ok (lit "ln", lit "FAIL",
           lit "ln(N) length check applies only to DID 0x22").

Definition classify_ln (main_did : option Z) (actual_response : resp)
  (actual_bytes : list Z) (expected : str) (arg : str) : result verdict :=
  match classify_ln_body main_did actual_response actual_bytes arg with
  | inl (ValueError _) =>
      Ok (lit "ln", lit "FAIL", lit "Invalid ln(N) format: " ++ expected)
  | r => r
  end.

Definition classify (main_did : option Z) (actual_response expected_response : resp)
  (actual_bytes : list Z) (expected_bytes : option (list Z)) : result verdict :=
  if is_word expected_response "none" then
    if truthy actual_response then
      do got <- to_hex_str actual_response;
      Ok (lit "none", lit "NONE", lit "Expected no response, received: " ++ got)
    else Ok (lit "none", lit "NONE", lit "Expected no response and none was received")
  else if negb (truthy actual_response) then
    do want <- to_hex_str expected_response;
    Err (ValueError (lit "Expected response " ++ want
                     ++ lit ", but received no response."))
  else
    match ln_argument expected_response, expected_response with
    | Some arg, _ =>
        classify_ln main_did actual_response actual_bytes (show expected_response) arg
    | None, RList _ =>
        if match expected_bytes with
           | Some bs => if list_eq_dec Z.eq_dec actual_bytes bs then true else false
           | None => false
           end
        then Ok (lit "explicit", lit "PASS", empty_str)
        else
          do want <- to_hex_str expected_response;
          do got <- to_hex_str actual_response;
          Ok (lit "explicit", lit "FAIL",
              lit "Expected " ++ want ++ lit " got " ++ got)
    | None, _ =>
        if is_word expected_response "positive" then
          let expected_first := option_map (fun d => d + 64) main_did in
          if match actual_bytes, expected_first with
             | b0 :: _, Some e => b0 =? e
             | _, _ => false
             end
          then Ok (lit "positive", lit "PASS", empty_str)
          else
            do got <- to_hex_str actual_response;
            Ok (lit "positive", lit "FAIL",
                lit "Expected positive response (DID[0] + 0x40 == 0x"
                ++ format_X 2 (match expected_first with Some e => e | None => 0 end)
                ++ lit "), got " ++ got)
        else if is_word expected_response "negative" then
          if match actual_bytes with b0 :: _ => b0 =? 127 | [] => false end
          then Ok (lit "negative", lit "PASS", empty_str)
          else
            do got <- to_hex_str actual_response;
            Ok (lit "negative", lit "FAIL",
                lit "Expected negative response (0x7F), got " ++ got)
        else
          Ok (lit "unknown", lit "FAIL",
              lit "Unknown expected_response format: " ++ show expected_response)
    end.

(** [response_to_bytes(expected_response)
     if isinstance(expected_response, list) else None] *)
Definition expected_bytes_of (expected_response : resp) : result (option (list Z)) :=
  if is_list expected_response
  then do bs <- response_to_bytes expected_response; Ok (Some bs)
  else Ok None.

(** [to_hex_str(expected_bytes) if expected_bytes is not None
     else to_hex_str(expected_response)] *)
Definition expected_text (expected_response : resp) (expected_bytes : option (list Z))
  : result str :=
  match expected_bytes with
  | Some bs => to_hex_str (RList (map IInt bs))
  | None => to_hex_str expected_response
  end.

(** [name if name is not None else to_hex_str(did)] *)
Definition name_or_did (name : option str) (did : resp) : result str :=
  match name with
  | Some n => Ok n
  | None => to_hex_str did
  end.

Definition bytes_text (bs : list Z) : result str := to_hex_str (RList (map IInt bs)).

Definition report_group (did expected_response : resp) (name : option str)
  (did_bytes actual_bytes : list Z) (expected_bytes : option (list Z))
  (result : str) : Sink.M unit :=
  name_val <- Sink.lift (name_or_did name did) ;;
  tx <- Sink.lift (bytes_text did_bytes) ;;
  rx <- Sink.lift (bytes_text actual_bytes) ;;
  expected <- Sink.lift (expected_text expected_response expected_bytes) ;;
  Sink.add_diagnostic_tx_rx_group name_val tx rx expected result.

Definition report_fallback (did actual_response expected_response : resp)
  (result reason : str) : Sink.M unit :=
  d <- Sink.lift (to_hex_str did) ;;
  e <- Sink.lift (to_hex_str expected_response) ;;
  a <- Sink.lift (to_hex_str actual_response) ;;
  _ <- Sink.add_table
         (mkTable (lit "Diagnostic Response Check for DID " ++ d)
            [lit "DID"; lit "Expected"; lit "Actual"; lit "Result"; lit "Reason"]
            [[d; e; a; result; reason]] false) ;;
  Sink.add_step result
    (lit "Diagnostic response check for " ++ d ++ lit ": " ++ result).

End Classifier.

Definition evaluate_diagnostic_expected_response
  (did actual_response expected_response : resp) (name : option str)
  : Sink.M DiagResponse :=
  did_bytes <- Sink.lift (Classifier.response_to_bytes did) ;;
  actual_bytes <- Sink.lift (Classifier.response_to_bytes actual_response) ;;
  expected_bytes <- Sink.lift (Classifier.expected_bytes_of expected_response) ;;
  let main_did := hd_error did_bytes in
  v <- Sink.lift (Classifier.classify main_did actual_response expected_response
                    actual_bytes expected_bytes) ;;
  let '(responsetype, result, reason) := v in
  _ <- Sink.try_except
         (Classifier.report_group did expected_response name did_bytes actual_bytes
            expected_bytes result)
         (Classifier.report_fallback did actual_response expected_response
            result reason) ;;
  n <- Sink.lift (Classifier.name_or_did name did) ;;
  tx <- Sink.lift (Classifier.bytes_text did_bytes) ;;
  rx <- Sink.lift (Classifier.bytes_text actual_bytes) ;;
  e <- Sink.lift (Classifier.expected_text expected_response expected_bytes) ;;
  Sink.ret (mkDiagResponse n tx rx e responsetype result reason).

(** ** status.py, test_report.py: the statuses of a report

    An entry of a report is a dictionary; of its keys the status functions
    read "category", "status" and "children" only, and these are kept. *)

Module Report.

(** What [dict.get] finds under a key: nothing, [None] or a string. *)
Inductive field :=
| Absent
| FNone
| FStr (s : str).

#[warnings="-register-all"]
Inductive entry :=
| Entry (category : field) (status : field) (children : option (list entry)).

(** [f == word] *)
Definition field_is (f : field) (word : str) : bool :=
  match f with
  | FStr s => str_eqb s word
  | _ => false
  end.

(** [entry.get("status", "NONE")] *)
Definition status_or_none (status : field) : field :=
  match status with
  | Absent => FStr "NONE"
  | f => f
  end.

(** [status not in ("NONE", None)], after the default *)
Definition counts (status : field) : bool :=
  match status_or_none status with
  | FStr s => negb (str_eqb s "NONE")
  | _ => false
  end.

(** status.py: what [collect_statuses] gathers from one entry. *)
Fixpoint collect_entry (e : entry) : list field :=
  match e with
  | Entry category status children =>
      if field_is category "GROUP" && counts status then
        status :: match children with
                  | Some l => flat_map collect_entry l
                  | None => []
                  end
      else if field_is category "STEP" || field_is category "TABLE"
              || field_is category "CHART" then
        [status_or_none status]
      else []
  end.

Definition collect_statuses (entries : list entry) : list field :=
  flat_map collect_entry entries.

(** [word in all_statuses] *)
Definition has (all_statuses : list field) (word : str) : bool :=
  existsb (fun f => field_is f word) all_statuses.

(** status.py: [get_case_status(lines)] *)
Definition get_case_status (lines : list entry) : str :=
  let all_statuses := collect_statuses lines in
  if has all_statuses "ERROR" then "ERROR"
  else if has all_statuses "FAIL" then "FAIL"
  else if has all_statuses "PASS" then "PASS"
  else "NONE".

(** [priority.get(status, 0)] of [get_group_status] *)
Definition priority (status : field) : Z :=
  if field_is status "ERROR" then 3
  else if field_is status "FAIL" then 2
  else if field_is status "PASS" then 1
  else 0.

(** The loop of [get_group_status]; [visit] gives, for a child, the status
    the loop compares and the child as the loop leaves it. *)
Definition group_loop (visit : entry -> field * entry) :=
  fix loop (children : list entry) (group_status : field) : field * list entry :=
    match children with
    | [] => (group_status, [])
    | child :: rest =>
        let (status, child') := visit child in
        let (final, rest') :=
          loop rest (if priority status >? priority group_status
                     then status else group_status) in
        (final, child' :: rest')
    end.

(** One child of the loop: a group is given the status of its children,
    which is stored in it. *)
Fixpoint visit (child : entry) : field * entry :=
  match child with
  | Entry category status children =>
      if field_is category "GROUP" then
        match children with
        | Some l =>
            let (s, l') := group_loop visit l (FStr "NONE") in
            (s, Entry category s (Some l'))
        | None => (FStr "NONE", Entry category (FStr "NONE") None)
        end
      else (status_or_none status, child)
  end.

(** test_report.py: [get_group_status(children)], with the children as the
    call leaves them. *)
Definition get_group_status (children : list entry) : field * list entry :=
  group_loop visit children (FStr "NONE").

(** The status loop of [get_table_status] over the cells it reads. *)
Fixpoint scan_cells (cells : list str) (has_pass : bool) : str :=
  match cells with
  | [] => if has_pass then "PASS" else "NONE"
  | cell :: rest =>
      let v := Sink.upper (Py.strip cell) in
      if str_eqb v "FAIL" then "FAIL"
      else scan_cells rest (has_pass || str_eqb v "PASS")
  end.

(** The cells of the result column, of the rows that reach it. *)
Fixpoint result_cells (idx : nat) (data : list (list str)) : list str :=
  match data with
  | [] => []
  | r :: rest =>
      match nth_error r idx with
      | Some cell => cell :: result_cells idx rest
      | None => result_cells idx rest
      end
  end.

(** The status [get_table_status] computes once the rows are sorted. *)
Definition table_status (column_header : list str) (sorted : list (list str)) : str :=
  match Sink.result_idx column_header with
  | Some idx => scan_cells (result_cells idx sorted) false
  | None => scan_cells (concat sorted) false
  end.

(** test_report.py: [get_table_status(table)], on cells that are strings:
    the status, and the data as the call leaves them. *)
Definition get_table_status (column_header : list str) (data : list (list str))
  : result (str * list (list str)) :=
  do sorted <- Sink.sorted_data column_header data;
  Ok (table_status column_header sorted, sorted).

(** The entries [add_step], [add_table] and [add_diagnostic_tx_rx_group]
    build. *)
Definition step_entry (status : field) : entry :=
  Entry (FStr "STEP") status None.

Definition table_entry (table_status : str) : entry :=
  Entry (FStr "TABLE") (FStr table_status) None.

Definition diagnostic_group (status : field) : entry :=
  Entry (FStr "GROUP") status (Some [Entry (FStr "DIAGNOSTIC") status None]).

(** The entry a recorded call stands for; the data of a recorded table
    are sorted already. *)
Definition entry_of (c : Sink.call) : entry :=
  match c with
  | Sink.Table _ data column_header => table_entry (table_status column_header data)
  | Sink.Step status _ => step_entry (FStr status)
  | Sink.Diagnostic _ _ _ _ status => diagnostic_group (FStr status)
  end.

(** The lines of a report that received these calls with no group open:
    each call appends its entry to the lines. *)
Definition lines_of (r : Sink.report) : list entry := map entry_of r.

End Report.

(** ** exporter.py, reporting_manager.py: the status of a suite

    A completed test is a dictionary, of which the name and the status are
    read; [None] stands for a missing key. *)

Record test_case := mkTestCase {
  tc_name : option str;
  tc_status : option str
}.

Module Suite.

(** [t.get("status", default).upper()] *)
Definition status_upper (default : str) (t : test_case) : str :=
  Sink.upper (match tc_status t with Some s => s | None => default end).

Definition count (word : str) (test_cases : list test_case) : nat :=
  length (filter (fun t => str_eqb (status_upper empty_str t) word) test_cases).

(** exporter.py: the entry "overall" of what [fill_stats] returns. *)
Definition fill_stats_overall (test_cases : list test_case) : str :=
  let pass_count := count "PASS" test_cases in
  let fail_count := count "FAIL" test_cases in
  let error_count := count "ERROR" test_cases in
  let none_count := count "NONE" test_cases in
  let total := length test_cases in
  let runnable := (pass_count + fail_count + error_count)%nat in
  if (0 <? error_count)%nat then "ERROR"
  else if (0 <? fail_count)%nat then "FAIL"
  else if (0 <? pass_count)%nat && (pass_count =? runnable)%nat then "PASS"
  else if (none_count =? total)%nat then "NONE"
  else "PARTIAL".

(** reporting_manager.py: [get_overall_report_status()], the completed
    tests being the argument. *)
Definition get_overall_report_status (completed_tests : list test_case) : str :=
  let statuses := map (status_upper "NONE") completed_tests in
  if existsb (fun s => str_eqb s "ERROR") statuses then "ERROR"
  else if existsb (fun s => str_eqb s "FAIL") statuses then "FAIL"
  else if forallb (fun s => str_eqb s "PASS")
            (filter (fun s => negb (str_eqb s "NONE")) statuses) then "PASS"
  else if forallb (fun s => str_eqb s "NONE") statuses then "NONE"
  else "PARTIAL".

(** [tc.get("name", "").lower()] *)
Definition name_lower (t : test_case) : str :=
  Py.lower (match tc_name t with Some n => n | None => empty_str end).

Definition is_prep (t : test_case) : bool := str_eqb (name_lower t) "testpreparation".
Definition is_deinit (t : test_case) : bool := str_eqb (name_lower t) "testdeinitialization".

(** exporter.py: [reorder_cases(test_cases)] of [export_report_with_assets] *)
Definition reorder_cases (test_cases : list test_case) : list test_case :=
  let prep := filter is_prep test_cases in
  let deinit := filter is_deinit test_cases in
  let main := filter (fun t => negb (is_prep t || is_deinit t)) test_cases in
  prep ++ main ++ deinit.

End Suite.

(** * The vocabulary of the properties *)

(** A lower-case hexadecimal digit. *)
Definition hexlow (c : ascii) : bool := Py.char_in hex_chars c.

(** The value of a digit, and of a numeral read from the left. *)
Definition dv (c : ascii) : Z :=
  match Py.digit_value c with Some d => d | None => 0 end.

Definition numeral_value (base : Z) (ds : str) : Z :=
  fold_left (fun a c => a * base + dv c) ds 0.

(** A signed lower-case hexadecimal numeral. *)
Definition signed (neg : bool) (body : str) : str :=
  if neg then "-"%char :: body else body.

Definition bit_char (b : bool) : ascii := if b then "1"%char else "0"%char.

(** One step of the comparison loop. *)
Definition agreeb (db rp : ascii) : bool :=
  negb (negb (Ascii.eqb rp "*") && negb (Ascii.eqb db rp)).

(** No sign in front: [zfill] pads on the left. *)
Definition unsigned (s : str) : Prop :=
  match s with
  | c :: _ => Ascii.eqb c "+" || Ascii.eqb c "-" = false
  | [] => True
  end.

(** An observed DTC reaches the [Expected] rules when no [Allowed] and no
    [Muted] rule carries its code. *)
Definition reaches_expected (allowed muted : list DTCInfo) (dut : DTCInfo) : bool :=
  negb (existsb (dtc_matches_code dut) allowed) &&
  negb (existsb (dtc_matches_code dut) muted).

(** An expected rule is marked when an observed DTC of its code reaches the
    [Expected] rules. *)
Definition expected_seen (dut_dtcs allowed muted : list DTCInfo) (ex : DTCInfo) : bool :=
  existsb (fun dut => reaches_expected allowed muted dut && dtc_matches_code dut ex)
          dut_dtcs.

(** What the scan decides for one observed DTC: the first matching rule of
    the first category that has one, in the order Allowed, Muted, Expected. *)
Definition classified (allowed muted expected : list DTCInfo)
  (dut : DTCInfo) (r : row) : Prop :=
  row_presence r = lit "Present" /\
  format_dtc_code (VStr (DTC dut)) = Ok (row_dtc r) /\
  parse_to_int_or_hex (status dut) = Ok (row_status r) /\
  match find (dtc_matches_code dut) allowed with
  | Some rule =>
      row_type r = STATUS_ALLOWED /\
      dtc_plus_status rule = Ok (row_dtc_plus_status r) /\
      row_result r =
        (if status_matches (status dut) (status rule) then lit "none" else lit "fail")
  | None =>
      match find (dtc_matches_code dut) muted with
      | Some rule =>
          row_type r = STATUS_MUTED /\
          dtc_plus_status rule = Ok (row_dtc_plus_status r) /\
          row_result r =
            (if status_matches (status dut) (status rule) then lit "none" else lit "fail")
      | None =>
          match find (dtc_matches_code dut) expected with
          | Some rule =>
              row_type r = STATUS_EXPECTED /\
              dtc_plus_status rule = Ok (row_dtc_plus_status r) /\
              row_result r =
                (if status_matches (status dut) (status rule)
                 then lit "pass" else lit "fail")
          | None =>
              row_type r = lit "Unexpected" /\
              row_dtc_plus_status r = empty_str /\
              row_result r = lit "fail"
          end
      end
  end.

(** The row added for an expected rule that was never marked. *)
Definition missing (ex : DTCInfo) (r : row) : Prop :=
  row_presence r = lit "Not Present" /\
  row_type r = STATUS_EXPECTED /\
  row_result r = lit "fail" /\
  format_dtc_code (VStr (DTC ex)) = Ok (row_dtc r) /\
  parse_to_int_or_hex (status ex) = Ok (row_status r) /\
  dtc_plus_status ex = Ok (row_dtc_plus_status r).

Definition marks (dut_dtcs allowed muted expected : list DTCInfo) : list bool :=
  map (expected_seen dut_dtcs allowed muted) expected.

(** A record whose code and status the two formatters accept. *)
Definition well_formed (d : DTCInfo) : Prop :=
  (exists c, format_dtc_code (VStr (DTC d)) = Ok c) /\
  (exists s, parse_to_int_or_hex (status d) = Ok s).

(** The codes [_to_int] gives no number for. *)
Definition wildcard_code (code : str) : Prop :=
  Py.lower (Py.strip code) = STATUS_ANY \/
  Py.chars_subset (Py.lower (Py.strip code)) bit_chars = true.

(** An observed DTC is covered when the first rule that carries its code, in
    the order of the scan, also accepts its status. *)
Definition covered (allowed muted expected : list DTCInfo) (dut : DTCInfo) : bool :=
  match find (dtc_matches_code dut) allowed with
  | Some rule => status_matches (status dut) (status rule)
  | None =>
      match find (dtc_matches_code dut) muted with
      | Some rule => status_matches (status dut) (status rule)
      | None =>
          match find (dtc_matches_code dut) expected with
          | Some rule => status_matches (status dut) (status rule)
          | None => false
          end
      end
  end.


(** What a returned DTC object says about the observed DTC it stands for. *)
Definition describes (d : DTCInfo) (o : DTC_obj) : Prop :=
  (forall c, format_dtc_code (VStr (DTC d)) = Ok c -> Py.char_in c "-" = false ->
             dtc o = c) /\
  (forall n, status d = VInt n -> 0 <= n ->
             value (dtc_status o) = Some n /\
             bits (dtc_status o) =
               map (fun i => Some (Z.b2z (Z.testbit n (Z.of_nat i)))) (seq 0 8)).

(** A word: not empty, and free of white space. *)
Definition word (t : str) : Prop :=
  t <> [] /\ Forall (fun c => Py.isspace c = false) t.

(** The order of the case statuses, and the worse of two. *)
Definition rank (s : str) : Z :=
  if str_eqb s "ERROR" then 3
  else if str_eqb s "FAIL" then 2
  else if str_eqb s "PASS" then 1
  else 0.

Definition worst (a b : str) : str := if rank a <? rank b then b else a.

(** No status gathered from a child, as the loop of [get_group_status]
    leaves it, outranks the status the loop compares for it. *)
Definition bounded (x : Report.entry) : Prop :=
  forall f, In f (Report.collect_entry (snd (Report.visit x))) ->
            Report.priority f <= Report.priority (fst (Report.visit x)).

(** How the status loop of a table reads a cell. *)
Definition is_fail (cell : str) : bool := str_eqb (Sink.upper (Py.strip cell)) "FAIL".
Definition is_pass (cell : str) : bool := str_eqb (Sink.upper (Py.strip cell)) "PASS".

(** The cells the status loop of a table reads. *)
Definition cells_read (column_header : list str) (data : list (list str)) : list str :=
  match Sink.result_idx column_header with
  | Some idx => Report.result_cells idx data
  | None => concat data
  end.

(** [l1] holds elements of [l2] in the order they have in [l2]. *)
Inductive subseq {A : Type} : list A -> list A -> Prop :=
| subseq_nil : subseq [] []
| subseq_skip (x : A) (l1 l2 : list A) : subseq l1 l2 -> subseq l1 (x :: l2)
| subseq_take (x : A) (l1 l2 : list A) : subseq l1 l2 -> subseq (x :: l1) (x :: l2).

(** * Properties *)

Lemma str_eqb_eq (a b : str) : str_eqb a b = true <-> a = b.
Proof.
  unfold str_eqb. destruct (list_eq_dec ascii_dec a b); split; congruence.
Qed.

Lemma str_eqb_refl (a : str) : str_eqb a a = true.
Proof. apply str_eqb_eq. reflexivity. Qed.

Example format_dtc_code_257 : format_dtc_code (VInt 257) = Ok (lit "0x00101").
Proof. reflexivity. Qed.

Example format_dtc_code_big : format_dtc_code (VInt 1193046) = Ok (lit "0x123456").
Proof. reflexivity. Qed.

Example format_dtc_code_0A : format_dtc_code (VStr "0x0A") = Ok (lit "0x0a").
Proof. reflexivity. Qed.

Example format_dtc_code_neg : format_dtc_code (VInt (-1)) = Ok (lit "0x-0001").
Proof. reflexivity. Qed.

Example to_int_roundtrip_neg : _to_int (VStr "0x-0001") = Ok (Some (-1)).
Proof. reflexivity. Qed.

Example status_matches_d4 : status_matches (VStr "0xd4") (VStr "11**01**") = true.
Proof. reflexivity. Qed.

Example status_matches_d5 : status_matches (VStr "0xd5") (VStr "11**01**") = true.
Proof. reflexivity. Qed.

(** ** Characters *)

Ltac each_char c :=
  destruct c as [[] [] [] [] [] [] [] []].

Lemma hexlow_facts (c : ascii) :
  hexlow c = true ->
  Py.is_digit 16 c = true /\ Py.isspace c = false /\ Py.isspace_int c = false /\
  Py.lower_char c = c /\ Ascii.eqb c "_" = false /\ Ascii.eqb c "x" = false /\
  Ascii.eqb c "X" = false /\ Ascii.eqb c "+" = false /\ Ascii.eqb c "-" = false.
Proof.
  each_char c; intros H; try discriminate H; repeat split; reflexivity.
Qed.

Lemma is_digit_facts (base : Z) (c : ascii) :
  base <= 16 -> Py.is_digit base c = true ->
  Py.isspace_int c = false /\ Ascii.eqb c "_" = false /\ Ascii.eqb c "x" = false /\
  Ascii.eqb c "X" = false /\ Ascii.eqb c "+" = false /\ Ascii.eqb c "-" = false.
Proof.
  intros Hb. unfold Py.is_digit.
  destruct (Py.digit_value c) as [d|] eqn:E; [|discriminate].
  intros Hd. apply Z.ltb_lt in Hd. assert (Hd' : d < 16) by lia. clear Hd Hb.
  revert E Hd'.
  each_char c; cbv [Py.digit_value Py.in_range Py.ord]; simpl; intros E Hd';
    try discriminate E; injection E as <-; try lia; repeat split; reflexivity.
Qed.

Lemma is_digit_2_not_b (c : ascii) :
  Py.is_digit 2 c = true -> Ascii.eqb c "b" = false /\ Ascii.eqb c "B" = false.
Proof.
  each_char c; intros H; try discriminate H; split; reflexivity.
Qed.

Lemma digit_value_char (d : Z) :
  0 <= d < 36 -> Py.digit_value (Py.digit_char d) = Some d.
Proof.
  intros H. rewrite <- (Z2Nat.id d) by lia.
  assert (Hk : (Z.to_nat d < 36)%nat) by lia.
  generalize dependent (Z.to_nat d). intros k Hk.
  do 36 (destruct k as [|k]; [reflexivity|]). lia.
Qed.

Lemma hexlow_digit_char (d : Z) : 0 <= d < 16 -> hexlow (Py.digit_char d) = true.
Proof.
  intros H. rewrite <- (Z2Nat.id d) by lia.
  assert (Hk : (Z.to_nat d < 16)%nat) by lia.
  generalize dependent (Z.to_nat d). intros k Hk.
  do 16 (destruct k as [|k]; [reflexivity|]). lia.
Qed.

Lemma digit_char_zero (d : Z) :
  0 <= d < 36 -> Py.digit_char d = "0"%char -> d = 0.
Proof.
  intros H E. apply (f_equal Py.digit_value) in E.
  rewrite digit_value_char in E by assumption. cbv in E. congruence.
Qed.

(** ** Numerals *)

Lemma dv_digit_char (d : Z) : 0 <= d < 36 -> dv (Py.digit_char d) = d.
Proof. intros H. unfold dv. rewrite digit_value_char by assumption. reflexivity. Qed.

Section Numerals.

Variable base : Z.
Hypothesis base_range : 2 <= base <= 36.

Lemma digits_rev_value (fuel : nat) :
  forall n, 0 <= n < 2 ^ Z.of_nat fuel ->
  fold_right (fun c a => a * base + dv c) 0 (Py.digits_rev base fuel n) = n.
Proof.
  induction fuel as [|f IH]; intros n Hn.
  - simpl in *. lia.
  - cbn [Py.digits_rev fold_right].
    assert (Hm : 0 <= n mod base < base) by (apply Z.mod_pos_bound; lia).
    assert (Hd : 0 <= n / base) by (apply Z.div_pos; lia).
    rewrite dv_digit_char by lia.
    pose proof (Z.div_mod n base ltac:(lia)) as Hdm.
    destruct (Z.eqb_spec (n / base) 0) as [E|E].
    + simpl. rewrite E in Hdm. lia.
    + rewrite IH; [lia|]. split; [assumption|].
      rewrite Nat2Z.inj_succ, Z.pow_succ_r in Hn by lia.
      apply Z.div_lt_upper_bound; nia.
Qed.

Lemma digits_rev_digits (fuel : nat) :
  forall n, 0 <= n -> Forall (fun c => Py.is_digit base c = true) (Py.digits_rev base fuel n).
Proof.
  induction fuel as [|f IH]; intros n Hn; [constructor|].
  cbn [Py.digits_rev].
  assert (Hm : 0 <= n mod base < base) by (apply Z.mod_pos_bound; lia).
  constructor.
  - unfold Py.is_digit. rewrite digit_value_char by lia. apply Z.ltb_lt. lia.
  - destruct (n / base =? 0); [constructor|]. apply IH. apply Z.div_pos; lia.
Qed.

Lemma digits_rev_nonempty (fuel : nat) (n : Z) :
  Py.digits_rev base (S fuel) n <> [].
Proof. discriminate. Qed.

(** The most significant digit of a positive number is not zero. *)
Lemma digits_rev_last (fuel : nat) :
  forall n, 0 < n < 2 ^ Z.of_nat fuel ->
  last (Py.digits_rev base fuel n) "0"%char <> "0"%char.
Proof.
  induction fuel as [|f IH]; intros n Hn.
  - simpl in Hn. lia.
  - cbn [Py.digits_rev].
    assert (Hm : 0 <= n mod base < base) by (apply Z.mod_pos_bound; lia).
    pose proof (Z.div_mod n base ltac:(lia)) as Hdm.
    assert (Hd : 0 <= n / base) by (apply Z.div_pos; lia).
    destruct (Z.eqb_spec (n / base) 0) as [E|E].
    + simpl. intros C. apply digit_char_zero in C; [|lia]. rewrite E in Hdm. lia.
    + assert (Hlt : 0 < n / base < 2 ^ Z.of_nat f).
      { split; [lia|]. rewrite Nat2Z.inj_succ, Z.pow_succ_r in Hn by lia.
        apply Z.div_lt_upper_bound; nia. }
      specialize (IH _ Hlt).
      destruct (Py.digits_rev base f (n / base)) as [|c r] eqn:Er.
      * destruct f; [simpl in Hlt; lia | discriminate Er].
      * exact IH.
Qed.

Lemma digits_rev_length (fuel : nat) :
  forall n k, 0 <= n < base ^ Z.of_nat (S k) ->
  (length (Py.digits_rev base fuel n) <= S k)%nat.
Proof.
  induction fuel as [|f IH]; intros n k Hn; [simpl; lia|].
  cbn [Py.digits_rev length].
  destruct (Z.eqb_spec (n / base) 0) as [E|E]; [simpl; lia|].
  apply le_n_S.
  destruct k as [|k].
  - exfalso. apply E. apply Z.div_small. simpl in Hn. lia.
  - apply IH. split; [apply Z.div_pos; lia|].
    rewrite (Nat2Z.inj_succ (S k)), Z.pow_succ_r in Hn by lia.
    apply Z.div_lt_upper_bound; lia.
Qed.

Lemma fuel_enough (n : Z) : 0 <= n -> n < 2 ^ Z.of_nat (S (Z.to_nat (Z.log2 n))).
Proof.
  intros Hn. rewrite Nat2Z.inj_succ, Z2Nat.id by apply Z.log2_nonneg.
  destruct (Z.eq_dec n 0) as [->|Hz]; [reflexivity|].
  apply Z.log2_spec. lia.
Qed.

Lemma fold_digits_rev (l : str) (a : Z) :
  fold_left (fun a c => a * base + dv c) (rev l) a =
  fold_right (fun c a => a * base + dv c) a l.
Proof.
  pose proof (fold_left_rev_right (fun c a => a * base + dv c) (rev l) a) as H.
  rewrite rev_involutive in H. symmetry. exact H.
Qed.

(** Printing is right: the numeral of [n] has value [n]. *)
Lemma to_base_value (n : Z) : 0 <= n -> numeral_value base (Py.to_base base n) = n.
Proof.
  intros Hn. unfold numeral_value, Py.to_base.
  rewrite fold_digits_rev. apply digits_rev_value.
  split; [assumption | apply fuel_enough; assumption].
Qed.

Lemma to_base_digits (n : Z) :
  0 <= n -> Forall (fun c => Py.is_digit base c = true) (Py.to_base base n).
Proof.
  intros Hn. unfold Py.to_base. apply Forall_rev. apply digits_rev_digits. assumption.
Qed.

Lemma to_base_nonempty (n : Z) : Py.to_base base n <> [].
Proof.
  unfold Py.to_base. intros E. apply (f_equal (@rev ascii)) in E.
  rewrite rev_involutive in E. discriminate E.
Qed.

Lemma to_base_head (n : Z) : 0 < n -> hd "0"%char (Py.to_base base n) <> "0"%char.
Proof.
  intros Hn. unfold Py.to_base.
  pose proof (digits_rev_last (S (Z.to_nat (Z.log2 n))) n
                (conj Hn (fuel_enough n ltac:(lia)))) as H.
  destruct (Py.digits_rev base (S (Z.to_nat (Z.log2 n))) n) as [|c r] eqn:E using rev_ind.
  - discriminate E.
  - rewrite last_last in H. rewrite rev_app_distr. exact H.
Qed.

Lemma to_base_length (n : Z) (k : nat) :
  0 <= n < base ^ Z.of_nat (S k) -> (length (Py.to_base base n) <= S k)%nat.
Proof.
  intros Hn. unfold Py.to_base. rewrite length_rev. apply digits_rev_length. assumption.
Qed.

Lemma numeral_value_zeros (k : nat) (ds : str) :
  numeral_value base (repeat "0"%char k ++ ds) = numeral_value base ds.
Proof.
  unfold numeral_value. rewrite fold_left_app. f_equal.
  induction k as [|k IH]; [reflexivity|]. simpl. exact IH.
Qed.

(** Reading is right on a plain run of digits. *)
Lemma scan_digits_all (ds : str) :
  base <= 16 ->
  Forall (fun c => Py.is_digit base c = true) ds ->
  forall acc, Py.scan_digits base false acc ds =
              Some (fold_left (fun a c => a * base + dv c) ds acc, []).
Proof.
  intros Hb H. induction H as [|c r Hc Hr IH]; intros acc; [reflexivity|].
  cbn [Py.scan_digits fold_left].
  destruct (is_digit_facts base c Hb Hc) as (_ & -> & _).
  unfold Py.is_digit in Hc. unfold dv.
  destruct (Py.digit_value c) as [d|]; [|discriminate].
  rewrite Hc. apply IH.
Qed.

Lemma skip_prefix_digits (ds : str) :
  base <= 16 ->
  Forall (fun c => Py.is_digit base c = true) ds -> Py.skip_prefix base ds = ds.
Proof.
  intros Hb H. destruct H as [|z r Hz Hr]; [reflexivity|].
  destruct Hr as [|m r Hm Hr]; [reflexivity|].
  unfold Py.skip_prefix.
  destruct (is_digit_facts base m Hb Hm) as (_ & _ & -> & -> & _).
  destruct (Z.eqb_spec base 2) as [E|E].
  - subst base. destruct (is_digit_2_not_b m Hm) as [-> ->].
    rewrite !andb_false_r. reflexivity.
  - rewrite !andb_false_r. reflexivity.
Qed.

Lemma parse_unsigned_digits (ds : str) :
  base <= 16 -> ds <> [] ->
  Forall (fun c => Py.is_digit base c = true) ds ->
  Py.parse_unsigned base ds = Some (numeral_value base ds).
Proof.
  intros Hb Hne H. unfold Py.parse_unsigned.
  rewrite skip_prefix_digits by assumption.
  destruct ds as [|c r]; [congruence|].
  rewrite (Forall_inv H). rewrite scan_digits_all by assumption. reflexivity.
Qed.

Lemma parse_int_digits (ds : str) :
  base <= 16 -> ds <> [] ->
  Forall (fun c => Py.is_digit base c = true) ds ->
  Py.parse_int base ds = Some (numeral_value base ds) /\
  Py.parse_int base ("-"%char :: ds) = Some (- numeral_value base ds).
Proof.
  intros Hb Hne H.
  pose proof (parse_unsigned_digits ds Hb Hne H) as Hbody.
  destruct ds as [|c r]; [congruence|].
  pose proof (Forall_inv H) as Hc.
  destruct (is_digit_facts base c Hb Hc) as (Hs & _ & _ & _ & Hp & Hm).
  split.
  - unfold Py.parse_int. cbn [Py.lstrip_int]. rewrite Hs.
    unfold Py.split_sign. rewrite Hm, Hp. cbv beta iota.
    rewrite Hbody. reflexivity.
  - unfold Py.parse_int. cbn [Py.lstrip_int].
    change (Py.isspace_int "-") with false. cbv iota.
    change (Py.split_sign ("-"%char :: c :: r)) with (true, c :: r).
    cbv beta iota. rewrite Hbody. reflexivity.
Qed.

End Numerals.

(** ** Strings *)

Lemma strip_fixed (c0 c : ascii) (m : str) :
  Py.isspace c0 = false -> Py.isspace c = false ->
  Py.strip ((c0 :: m) ++ [c]) = (c0 :: m) ++ [c].
Proof.
  intros H0 H. unfold Py.strip.
  change ((c0 :: m) ++ [c]) with (c0 :: (m ++ [c])).
  cbn [Py.lstrip]. rewrite H0.
  change (c0 :: (m ++ [c])) with ((c0 :: m) ++ [c]).
  rewrite rev_unit. cbn [Py.lstrip]. rewrite H.
  change (c :: rev (c0 :: m)) with ([c] ++ rev (c0 :: m)).
  rewrite rev_app_distr, rev_involutive. reflexivity.
Qed.

Lemma lower_fixed (s : str) :
  Forall (fun c => Py.lower_char c = c) s -> Py.lower s = s.
Proof.
  induction 1 as [|c r Hc Hr IH]; [reflexivity|].
  unfold Py.lower in *. simpl. rewrite Hc, IH. reflexivity.
Qed.

Lemma filter_all {A} (f : A -> bool) (l : list A) :
  Forall (fun a => f a = true) l -> filter f l = l.
Proof.
  induction 1 as [|a r Ha Hr IH]; [reflexivity|]. simpl. rewrite Ha, IH. reflexivity.
Qed.

Lemma hexlow_is_digit (ds : str) :
  Forall (fun c => hexlow c = true) ds ->
  Forall (fun c => Py.is_digit 16 c = true) ds.
Proof. apply Forall_impl. intros c H. apply (hexlow_facts c H). Qed.

Lemma digits_rev_hexlow (fuel : nat) :
  forall n, 0 <= n -> Forall (fun c => hexlow c = true) (Py.digits_rev 16 fuel n).
Proof.
  induction fuel as [|f IH]; intros n Hn; [constructor|].
  cbn [Py.digits_rev]. constructor.
  - apply hexlow_digit_char. apply Z.mod_pos_bound. lia.
  - destruct (n / 16 =? 0); [constructor|]. apply IH. apply Z.div_pos; lia.
Qed.

Lemma to_base_hexlow (n : Z) :
  0 <= n -> Forall (fun c => hexlow c = true) (Py.to_base 16 n).
Proof. intros Hn. apply Forall_rev. apply digits_rev_hexlow. assumption. Qed.

Lemma zpad_hexlow (w : nat) (ds : str) :
  Forall (fun c => hexlow c = true) ds ->
  Forall (fun c => hexlow c = true) (Py.zpad w ds).
Proof.
  intros H. unfold Py.zpad. apply Forall_app. split; [|assumption].
  induction (w - length ds)%nat; simpl; constructor; [reflexivity | assumption].
Qed.

Lemma zpad_nonempty (w : nat) (ds : str) : ds <> [] -> Py.zpad w ds <> [].
Proof.
  intros H E. unfold Py.zpad in E. apply app_eq_nil in E. tauto.
Qed.

Lemma zpad_value (w : nat) (ds : str) :
  numeral_value 16 (Py.zpad w ds) = numeral_value 16 ds.
Proof. apply numeral_value_zeros. Qed.

(** What [f"{n:0{width}x}"] prints: the sign of [n] and a numeral of [|n|]. *)
Lemma format_x_shape (w : nat) (n : Z) :
  exists body,
    Py.format_x w n = signed (n <? 0) body /\ body <> [] /\
    Forall (fun c => hexlow c = true) body /\ numeral_value 16 body = Z.abs n.
Proof.
  unfold Py.format_x. destruct (Z.ltb_spec n 0) as [Hn|Hn].
  - exists (Py.zpad (w - 1) (Py.to_base 16 (- n))). repeat split.
    + apply zpad_nonempty, to_base_nonempty.
    + apply zpad_hexlow, to_base_hexlow. lia.
    + rewrite zpad_value, to_base_value by lia. lia.
  - exists (Py.zpad w (Py.to_base 16 n)). repeat split.
    + apply zpad_nonempty, to_base_nonempty.
    + apply zpad_hexlow, to_base_hexlow. lia.
    + rewrite zpad_value, to_base_value by lia. lia.
Qed.

Lemma signed_fixed_lower (neg : bool) (body : str) :
  Forall (fun c => hexlow c = true) body ->
  Forall (fun c => Py.lower_char c = c) (signed neg body).
Proof.
  intros H.
  assert (Hb : Forall (fun c => Py.lower_char c = c) body).
  { revert H. apply Forall_impl. intros c Hc. apply (hexlow_facts c Hc). }
  destruct neg; simpl; [constructor; [reflexivity | assumption] | assumption].
Qed.

Lemma signed_no_underscore (neg : bool) (body : str) :
  Forall (fun c => hexlow c = true) body ->
  Py.drop_underscores (signed neg body) = signed neg body.
Proof.
  intros H. unfold Py.drop_underscores. apply filter_all.
  assert (Hb : Forall (fun c => negb (Ascii.eqb c "_") = true) body).
  { revert H. apply Forall_impl. intros c Hc.
    destruct (hexlow_facts c Hc) as (_ & _ & _ & _ & -> & _). reflexivity. }
  destruct neg; simpl; [constructor; [reflexivity | assumption] | assumption].
Qed.

Lemma int_of_str_signed (neg : bool) (body : str) :
  body <> [] -> Forall (fun c => hexlow c = true) body ->
  Py.int_of_str 16 (signed neg body) =
  Ok (if neg then - numeral_value 16 body else numeral_value 16 body).
Proof.
  intros Hne H. unfold Py.int_of_str.
  destruct (parse_int_digits 16 ltac:(lia) body ltac:(lia) Hne (hexlow_is_digit _ H))
    as [Hp Hm].
  destruct neg; simpl; [rewrite Hm | rewrite Hp]; reflexivity.
Qed.

(** Decoding ["0x"] followed by a signed numeral gives its value. *)
Lemma to_int_hex_numeral (neg : bool) (body : str) :
  body <> [] -> Forall (fun c => hexlow c = true) body ->
  _to_int (VStr (lit "0x" ++ signed neg body)) =
  Ok (Some (if neg then - numeral_value 16 body else numeral_value 16 body)).
Proof.
  intros Hne H.
  destruct (exists_last Hne) as (b' & c & ->).
  assert (Hc : hexlow c = true).
  { apply Forall_app in H. destruct H as [_ H]. exact (Forall_inv H). }
  destruct (hexlow_facts c Hc) as (_ & Hsp & _).
  assert (Hstrip : Py.strip (lit "0x" ++ signed neg (b' ++ [c])) =
                   lit "0x" ++ signed neg (b' ++ [c])).
  { destruct neg; simpl signed.
    - change (lit "0x" ++ "-"%char :: b' ++ [c])
        with (("0"%char :: "x"%char :: "-"%char :: b') ++ [c]).
      apply strip_fixed; [reflexivity | assumption].
    - change (lit "0x" ++ b' ++ [c]) with (("0"%char :: "x"%char :: b') ++ [c]).
      apply strip_fixed; [reflexivity | assumption]. }
  assert (Hlower : Py.lower (lit "0x" ++ signed neg (b' ++ [c])) =
                   lit "0x" ++ signed neg (b' ++ [c])).
  { apply lower_fixed. simpl. constructor; [reflexivity|].
    constructor; [reflexivity|]. apply signed_fixed_lower. assumption. }
  unfold _to_int. rewrite Hstrip, Hlower.
  change (lit "0x" ++ signed neg (b' ++ [c]))
    with ("0"%char :: "x"%char :: signed neg (b' ++ [c])).
  replace (str_eqb _ STATUS_ANY) with false
    by (unfold str_eqb; destruct list_eq_dec as [E|E]; [discriminate E | reflexivity]).
  change (Py.chars_subset ("0"%char :: "x"%char :: signed neg (b' ++ [c])) bit_chars)
    with false.
  change (Py.startswith ("0"%char :: "x"%char :: signed neg (b' ++ [c])) "0x") with true.
  cbv iota. cbn [skipn].
  rewrite signed_no_underscore by assumption.
  rewrite int_of_str_signed by assumption. reflexivity.
Qed.

(** ** The value codec *)

Lemma format_dtc_code_int (n : Z) : format_dtc_code (VInt n) = Ok (format_number n).
Proof. reflexivity. Qed.

Lemma zpad_exact (ds : str) : Py.zpad (length ds) ds = ds.
Proof. unfold Py.zpad. rewrite Nat.sub_diag. reflexivity. Qed.

Lemma zpad_length (w : nat) (ds : str) :
  (length ds <= w)%nat -> length (Py.zpad w ds) = w.
Proof. intros H. unfold Py.zpad. rewrite length_app, repeat_length. lia. Qed.

(** The digits [format_dtc_code] prints for a number that is not negative. *)
Lemma format_number_digits (n : Z) :
  0 <= n ->
  exists ds,
    format_number n = lit "0x" ++ ds /\
    Forall (fun c => hexlow c = true) ds /\
    numeral_value 16 ds = n /\
    (n <= 1048575 -> length ds = 5%nat) /\
    (1048575 < n -> hd "0"%char ds <> "0"%char).
Proof.
  intros Hn. unfold format_number, dtc_width, Py.format_x.
  destruct (Z.ltb_spec n 0) as [Hneg|_]; [lia|].
  destruct (Z.leb_spec n 1048575) as [Hs|Hl].
  - exists (Py.zpad 5 (Py.to_base 16 n)). repeat split.
    + apply zpad_hexlow, to_base_hexlow. assumption.
    + rewrite zpad_value. apply to_base_value; lia.
    + intros _. apply zpad_length. apply (to_base_length 16 ltac:(lia) n 4).
      change (16 ^ Z.of_nat 5) with 1048576. lia.
    + lia.
  - change (Py.zpad 0 (Py.to_base 16 n)) with (Py.to_base 16 n).
    rewrite zpad_exact.
    exists (Py.to_base 16 n). repeat split.
    + apply to_base_hexlow. assumption.
    + apply to_base_value; lia.
    + lia.
    + intros _. apply to_base_head; lia.
Qed.

(** C7: [format_dtc_code] keeps the digits of an explicit "0x" string (an
    empty digit string becomes "00"); every number that is not negative is
    printed as "0x" and its lower-case hexadecimal numeral, five digits
    wide up to 0xFFFFF and without leading zero above; a decimal or binary
    string is printed as the number it denotes; and 0x101, 0x123456 and
    "0x0A" give "0x00101", "0x123456" and "0x0a".  A negative number is
    printed with its sign after the prefix: -1 gives "0x-0001", which is
    not "0x" and hexadecimal digits, has four digits, and is itself
    formatted as "0x0001". *)
Theorem format_dtc_code_rules :
  (forall v,
      Py.startswith (Py.lower (Py.strip v)) "0x" = true ->
      format_dtc_code (VStr v) =
      Ok (lit "0x" ++
          match filter hexlow (skipn 2 (Py.lower (Py.strip v))) with
          | [] => lit "00"
          | digits => digits
          end)) /\
  (forall n,
      0 <= n ->
      exists ds,
        format_dtc_code (VInt n) = Ok (lit "0x" ++ ds) /\
        Forall (fun c => hexlow c = true) ds /\
        numeral_value 16 ds = n /\
        (n <= 1048575 -> length ds = 5%nat) /\
        (1048575 < n -> hd "0"%char ds <> "0"%char)) /\
  (forall v n,
      str_eqb (Py.lower (Py.strip v)) STATUS_ANY = false ->
      Py.startswith (Py.lower (Py.strip v)) "0x" = false ->
      (if Py.startswith (Py.lower (Py.strip v)) "0b"
       then Py.int_of_str 2 (Py.drop_underscores (skipn 2 (Py.lower (Py.strip v))))
       else Py.int_of_str 10 (Py.lower (Py.strip v))) = Ok n ->
      format_dtc_code (VStr v) = format_dtc_code (VInt n)) /\
  format_dtc_code (VInt 257) = Ok (lit "0x00101") /\
  format_dtc_code (VInt 1193046) = Ok (lit "0x123456") /\
  format_dtc_code (VStr "0x0A") = Ok (lit "0x0a") /\
  format_dtc_code (VInt (-1)) = Ok (lit "0x-0001") /\
  format_dtc_code (VStr "-1") = Ok (lit "0x-0001") /\
  (forall ds, Forall (fun c => hexlow c = true) ds ->
              format_dtc_code (VInt (-1)) <> Ok (lit "0x" ++ ds)) /\
  format_dtc_code (VStr "0x-0001") = Ok (lit "0x0001").
Proof.
  split; [|split; [|split; [|repeat split; try reflexivity]]].
  - intros v H. unfold format_dtc_code. rewrite H.
    destruct (str_eqb (Py.lower (Py.strip v)) STATUS_ANY) eqn:E.
    + apply str_eqb_eq in E. rewrite E in H. discriminate H.
    + destruct (filter _ _); reflexivity.
  - intros n Hn. destruct (format_number_digits n Hn) as (ds & E & H).
    exists ds. rewrite format_dtc_code_int, E. split; [reflexivity | exact H].
  - intros v n Hany Hx Hv. unfold format_dtc_code. rewrite Hany, Hx.
    destruct (Py.startswith (Py.lower (Py.strip v)) "0b").
    + rewrite Hv. reflexivity.
    + rewrite Hv. reflexivity.
  - intros ds Hd E.
    change (format_dtc_code (VInt (-1))) with (Ok ("0"%char :: "x"%char :: lit "-0001")) in E.
    change (lit "0x" ++ ds) with ("0"%char :: "x"%char :: ds) in E.
    injection E as E. subst ds. apply Forall_inv in Hd. discriminate Hd.
Qed.

Lemma format_dtc_code_rules_witness :
  exists ds,
    format_dtc_code (VInt 257) = Ok (lit "0x" ++ ds) /\
    Forall (fun c => hexlow c = true) ds /\
    numeral_value 16 ds = 257 /\
    (257 <= 1048575 -> length ds = 5%nat) /\
    (1048575 < 257 -> hd "0"%char ds <> "0"%char).
Proof.
  destruct format_dtc_code_rules as (_ & H & _). apply (H 257). lia.
Defined.

(** C8: for every integer [n], [format_dtc_code n] succeeds and [_to_int]
    of the string it returns is [n]. *)
Theorem format_dtc_code_roundtrip (n : Z) :
  exists s, format_dtc_code (VInt n) = Ok s /\ _to_int (VStr s) = Ok (Some n).
Proof.
  exists (format_number n). split; [reflexivity|].
  unfold format_number.
  destruct (format_x_shape (dtc_width n) n) as (body & E & Hne & Hh & Hv).
  rewrite E, to_int_hex_numeral by assumption.
  destruct (Z.ltb_spec n 0); do 2 f_equal; lia.
Qed.

(** C10: a string that reads "any" once trimmed and lower-cased is
    returned as the word "any", which carries no "0x" prefix. *)
Theorem format_dtc_code_any (v : str) :
  Py.lower (Py.strip v) = STATUS_ANY ->
  format_dtc_code (VStr v) = Ok STATUS_ANY /\ Py.startswith STATUS_ANY "0x" = false.
Proof.
  intros H. split; [|reflexivity].
  unfold format_dtc_code. rewrite H, str_eqb_refl. reflexivity.
Qed.

Lemma format_dtc_code_any_witness :
  format_dtc_code (VStr " ANY ") = Ok STATUS_ANY /\ Py.startswith STATUS_ANY "0x" = false.
Proof. apply (format_dtc_code_any " ANY "). reflexivity. Defined.

(** ** Wildcard status patterns *)

Lemma agreeb_spec (db rp : ascii) :
  agreeb db rp = true <-> rp = "*"%char \/ rp = db.
Proof.
  unfold agreeb.
  destruct (Ascii.eqb_spec rp "*"), (Ascii.eqb_spec db rp); simpl; split; intros H;
    try tauto; try discriminate; try (destruct H; congruence); auto.
Qed.

Lemma zfill_unsigned (m : nat) (s : str) :
  unsigned s -> Py.zfill m s = repeat "0"%char (m - length s) ++ s.
Proof.
  destruct s as [|c r]; simpl; intros H.
  - rewrite app_nil_r. reflexivity.
  - unfold Py.zfill. rewrite H. reflexivity.
Qed.

Lemma bits_agree_nth (a : str) :
  forall b, length a = length b ->
  (bits_agree a b = true <->
   forall j, agreeb (nth j a "0"%char) (nth j b "0"%char) = true).
Proof.
  unfold bits_agree. induction a as [|x a IH]; intros [|y b] Hl; try discriminate Hl.
  - simpl. split; [intros _ [|j]; reflexivity | reflexivity].
  - simpl in Hl. injection Hl as Hl. specialize (IH b Hl).
    cbn [combine forallb]. fold (agreeb x y). rewrite andb_true_iff, IH. split.
    + intros [H0 H] [|j]; [exact H0 | apply H].
    + intros H. split; [apply (H O) | intros j; apply (H (S j))].
Qed.

(** Counting from the right, the padding is invisible. *)
Lemma nth_padded (m : nat) (s : str) (i : nat) :
  (length s <= m)%nat -> (i < m)%nat ->
  nth (m - 1 - i) (repeat "0"%char (m - length s) ++ s) "0"%char =
  nth i (rev s) "0"%char.
Proof.
  intros Hm Hi. destruct (Nat.lt_ge_cases i (length s)) as [Hs|Hs].
  - rewrite app_nth2 by (rewrite repeat_length; lia).
    rewrite repeat_length, rev_nth by assumption. f_equal. lia.
  - rewrite app_nth1 by (rewrite repeat_length; lia).
    rewrite (nth_overflow (rev s)) by (rewrite length_rev; lia).
    apply nth_repeat.
Qed.

Lemma wildcard_match_bits (db p : str) :
  unsigned db -> unsigned p ->
  (wildcard_match db p = true <->
   forall i, agreeb (nth i (rev db) "0"%char) (nth i (rev p) "0"%char) = true).
Proof.
  intros Hd Hp. unfold wildcard_match.
  set (m := Nat.max (length p) (length db)).
  assert (Hmd : (length db <= m)%nat) by lia.
  assert (Hmp : (length p <= m)%nat) by lia.
  rewrite !zfill_unsigned by assumption.
  rewrite bits_agree_nth by (rewrite !length_app, !repeat_length; lia).
  split; intros H i.
  - destruct (Nat.lt_ge_cases i m) as [Hi|Hi].
    + specialize (H (m - 1 - i)%nat). rewrite !nth_padded in H by lia. exact H.
    + rewrite !nth_overflow by (rewrite length_rev; lia). reflexivity.
  - destruct (Nat.lt_ge_cases i m) as [Hi|Hi].
    + specialize (H (m - 1 - i)%nat).
      replace i with (m - 1 - (m - 1 - i))%nat by lia.
      rewrite !nth_padded by lia. exact H.
    + rewrite !nth_overflow by (rewrite length_app, repeat_length; lia). reflexivity.
Qed.

(** The binary numeral of [n], read from the right, lists the bits of [n]. *)
Lemma digits_rev_bits (fuel : nat) :
  forall n i, 0 <= n < 2 ^ Z.of_nat fuel ->
  nth i (Py.digits_rev 2 fuel n) "0"%char = bit_char (Z.testbit n (Z.of_nat i)).
Proof.
  induction fuel as [|f IH]; intros n i Hn.
  - simpl in Hn. assert (n = 0) by lia. subst n.
    rewrite Z.bits_0. destruct i; reflexivity.
  - cbn [Py.digits_rev]. destruct i as [|i].
    + cbn [nth]. change (Z.of_nat 0) with 0. rewrite <- Z.bit0_mod.
      destruct (Z.testbit n 0); reflexivity.
    + cbn [nth]. rewrite Nat2Z.inj_succ, <- Z.div2_bits by lia.
      destruct (Z.eqb_spec (n / 2) 0) as [E|E].
      * rewrite E, Z.bits_0. destruct i; reflexivity.
      * apply IH. split; [apply Z.div_pos; lia|].
        rewrite (Nat2Z.inj_succ f), Z.pow_succ_r in Hn by lia.
        apply Z.div_lt_upper_bound; lia.
Qed.

Lemma bin_tail_bits (n : Z) (i : nat) :
  0 <= n -> nth i (rev (Py.bin_tail n)) "0"%char = bit_char (Z.testbit n (Z.of_nat i)).
Proof.
  intros Hn. unfold Py.bin_tail. destruct (Z.ltb_spec n 0); [lia|].
  unfold Py.to_base. rewrite rev_involutive. apply digits_rev_bits.
  split; [assumption | apply (fuel_enough n Hn)].
Qed.

Lemma bin_tail_unsigned (n : Z) : 0 <= n -> unsigned (Py.bin_tail n).
Proof.
  intros Hn. unfold Py.bin_tail. destruct (Z.ltb_spec n 0); [lia|].
  pose proof (to_base_digits 2 ltac:(lia) n Hn) as Hd.
  destruct (Py.to_base 2 n) as [|c r]; [exact I|].
  destruct (is_digit_facts 2 c ltac:(lia) (Forall_inv Hd)) as (_ & _ & _ & _ & Hp & Hm).
  unfold unsigned. rewrite Hp, Hm. reflexivity.
Qed.

Lemma bit_pattern_unsigned (p : str) : Py.chars_subset p bit_chars = true -> unsigned p.
Proof.
  destruct p as [|c r]; [intros; exact I|]. unfold Py.chars_subset. cbn [forallb].
  intros H. apply andb_true_iff in H. destruct H as [H _]. revert H.
  each_char c; intros H; try discriminate H; reflexivity.
Qed.

Lemma star_not_any (p : str) : Py.char_in p "*" = true -> str_eqb p STATUS_ANY = false.
Proof.
  intros H. destruct (str_eqb p STATUS_ANY) eqn:E; [|reflexivity].
  apply str_eqb_eq in E. subst p. discriminate H.
Qed.

(** The wildcard branch of [status_matches] on an observed status that
    reads as the hexadecimal number [n]. *)
Lemma status_matches_wildcard (s p : str) (n : Z) :
  Py.char_in p "*" = true -> Py.parse_int 16 s = Some n ->
  status_matches (VStr s) (VStr p) = wildcard_match (Py.bin_tail n) p.
Proof.
  intros Hstar Hs. unfold status_matches, is_any, has_star.
  rewrite star_not_any, Hstar by assumption.
  unfold py_int_base, Py.int_of_str. rewrite Hs. reflexivity.
Qed.

Lemma parse_int_0x (body : str) :
  body <> [] -> Forall (fun c => hexlow c = true) body ->
  Py.parse_int 16 (lit "0x" ++ body) = Some (numeral_value 16 body).
Proof.
  intros Hne H. pose proof (hexlow_is_digit _ H) as Hd.
  unfold Py.parse_int.
  change (Py.lstrip_int (lit "0x" ++ body)) with ("0"%char :: "x"%char :: body).
  change (Py.split_sign ("0"%char :: "x"%char :: body))
    with (false, "0"%char :: "x"%char :: body).
  cbv beta iota. unfold Py.parse_unsigned.
  destruct body as [|c r]; [congruence|].
  destruct (hexlow_facts c (Forall_inv H)) as (Hc & _ & _ & _ & Hu & _).
  replace (Py.skip_prefix 16 ("0"%char :: "x"%char :: c :: r)) with (c :: r)
    by (unfold Py.skip_prefix; cbn [Ascii.eqb Bool.eqb Z.eqb andb orb];
        rewrite Hu; reflexivity).
  rewrite Hc, scan_digits_all by (assumption || lia). reflexivity.
Qed.

Lemma dv_nonneg (c : ascii) : 0 <= dv c.
Proof. each_char c; cbv; discriminate. Qed.

Lemma numeral_value_nonneg (ds : str) : 0 <= numeral_value 16 ds.
Proof.
  unfold numeral_value.
  assert (H : forall acc, 0 <= acc -> 0 <= fold_left (fun a c => a * 16 + dv c) ds acc).
  { induction ds as [|c r IH]; intros acc Hacc; [exact Hacc|].
    cbn [fold_left]. apply IH. pose proof (dv_nonneg c). lia. }
  apply H. lia.
Qed.

Lemma status_matches_bits (s p : str) (n : Z) :
  Py.char_in p "*" = true -> Py.chars_subset p bit_chars = true ->
  Py.parse_int 16 s = Some n -> 0 <= n ->
  (status_matches (VStr s) (VStr p) = true <->
   forall i, nth i (rev p) "0"%char = "*"%char \/
             nth i (rev p) "0"%char = bit_char (Z.testbit n (Z.of_nat i))).
Proof.
  intros Hstar Hp Hs Hn.
  rewrite (status_matches_wildcard s p n Hstar Hs).
  rewrite wildcard_match_bits
    by (try apply bin_tail_unsigned; try apply bit_pattern_unsigned; assumption).
  split; intros H i; specialize (H i); rewrite bin_tail_bits in * by assumption;
    apply agreeb_spec; exact H.
Qed.

(** C3 (amended): on an observed status written as "0x" and lower-case
    hexadecimal digits, of value [n], a bit pattern [p] with a star matches
    exactly when every position of [p], counted from the right and padded
    with zeros, is a star or the bit of [n] at that position; two statuses
    that differ only under stars are matched alike.  So "11**01**" matches
    0b11010100 and 0b11010101 alike (both do match), and does not match
    0b11010000. *)
Theorem wildcard_status_rules (ds ds' p : str) :
  Py.char_in p "*" = true -> Py.chars_subset p bit_chars = true ->
  ds <> [] -> Forall (fun c => hexlow c = true) ds ->
  ds' <> [] -> Forall (fun c => hexlow c = true) ds' ->
  _to_int (VStr (lit "0x" ++ ds)) = Ok (Some (numeral_value 16 ds)) /\
  (status_matches (VStr (lit "0x" ++ ds)) (VStr p) = true <->
   forall i, nth i (rev p) "0"%char = "*"%char \/
             nth i (rev p) "0"%char =
             bit_char (Z.testbit (numeral_value 16 ds) (Z.of_nat i))) /\
  ((forall i, nth i (rev p) "0"%char <> "*"%char ->
              Z.testbit (numeral_value 16 ds) (Z.of_nat i) =
              Z.testbit (numeral_value 16 ds') (Z.of_nat i)) ->
   status_matches (VStr (lit "0x" ++ ds)) (VStr p) =
   status_matches (VStr (lit "0x" ++ ds')) (VStr p)) /\
  status_matches (VStr "0xd4") (VStr "11**01**") = true /\
  status_matches (VStr "0xd5") (VStr "11**01**") = true /\
  status_matches (VStr "0xd0") (VStr "11**01**") = false.
Proof.
  intros Hstar Hp Hne Hd Hne' Hd'.
  pose proof (status_matches_bits _ p _ Hstar Hp (parse_int_0x ds Hne Hd)
                (numeral_value_nonneg ds)) as B.
  pose proof (status_matches_bits _ p _ Hstar Hp (parse_int_0x ds' Hne' Hd')
                (numeral_value_nonneg ds')) as B'.
  split; [exact (to_int_hex_numeral false ds Hne Hd)|].
  split; [exact B|]. split; [|repeat split; reflexivity].
  intros Hsame.
  assert (E : status_matches (VStr (lit "0x" ++ ds)) (VStr p) = true <->
              status_matches (VStr (lit "0x" ++ ds')) (VStr p) = true).
  { rewrite B, B'. split; intros H i; specialize (H i);
      (destruct H as [H|H]; [left; exact H|]);
      destruct (ascii_dec (nth i (rev p) "0"%char) "*"%char) as [Hc|Hc];
      try (left; exact Hc); right.
    - rewrite <- (Hsame i Hc). exact H.
    - rewrite (Hsame i Hc). exact H. }
  destruct (status_matches (VStr (lit "0x" ++ ds)) (VStr p)),
    (status_matches (VStr (lit "0x" ++ ds')) (VStr p));
    try reflexivity; [symmetry|]; apply E; reflexivity.
Qed.

Lemma wildcard_status_rules_witness :
  status_matches (VStr "0xd4") (VStr "11**01**") =
  status_matches (VStr "0xd5") (VStr "11**01**").
Proof.
  refine (proj1 (proj2 (proj2 (wildcard_status_rules "d4" "d5" "11**01**"
                                 _ _ _ _ _ _))) _);
    try reflexivity; try discriminate; try (repeat constructor).
  intros [|i] H.
  - exfalso. apply H. reflexivity.
  - change (numeral_value 16 "d4") with 212. change (numeral_value 16 "d5") with 213.
    rewrite Nat2Z.inj_succ, <- !Z.div2_bits by lia. reflexivity.
Defined.

(** The claim's own instance fails: the last two positions of "11**01**"
    are stars, so 0b11010101 is matched as 0b11010100 is. *)
Lemma wildcard_example_counterexample :
  status_matches (VStr "0xd5") (VStr "11**01**") = true.
Proof. reflexivity. Qed.

(** ** The DTC rule matcher *)

Lemma rbind_ok {A B} (m : result A) (k : A -> result B) (b : B) :
  rbind m k = Ok b -> exists a, m = Ok a /\ k a = Ok b.
Proof.
  destruct m as [e|a]; simpl; intros H; [discriminate H|]. exists a. auto.
Qed.

Ltac bind_ok H :=
  let a := fresh "a" in
  let E := fresh "E" in
  apply rbind_ok in H; destruct H as (a & E & H).

(** The three status branches of the scan agree with [status_matches]. *)
Lemma rule_result_status (t : rule_type) (dut rule : DTCInfo) :
  rule_result t dut rule =
  if status_matches (status dut) (status rule)
  then match t with Expected => lit "pass" | _ => lit "none" end
  else lit "fail".
Proof.
  unfold rule_result. destruct (has_star (status rule)); [reflexivity|].
  destruct (is_any (status rule)) eqn:E; [|reflexivity].
  unfold status_matches. rewrite E. reflexivity.
Qed.

Lemma find_existsb {A} (f : A -> bool) (l : list A) :
  existsb f l = match find f l with Some _ => true | None => false end.
Proof.
  induction l as [|a l IH]; [reflexivity|]. simpl. destruct (f a); [reflexivity | exact IH].
Qed.

Lemma mark_found_map (dut : DTCInfo) (expected : list DTCInfo) (g : DTCInfo -> bool) :
  mark_found dut expected (map g expected) =
  map (fun ex => if dtc_matches_code dut ex then true else g ex) expected.
Proof.
  unfold mark_found. induction expected as [|e l IH]; [reflexivity|].
  simpl. rewrite IH. reflexivity.
Qed.

Section Scan.

Variables allowed muted expected : list DTCInfo.

Lemma scan_dut_spec (dut : DTCInfo) (seen : list DTCInfo) (r : row) (found : list bool) :
  scan_dut (rule_sets_of allowed muted expected) expected dut
    (marks seen allowed muted expected) = Ok (r, found) ->
  classified allowed muted expected dut r /\
  found = marks (seen ++ [dut]) allowed muted expected.
Proof.
  unfold scan_dut, classified, rule_sets_of. intros H.
  bind_ok H. rename a into c, E into Ec.
  bind_ok H. rename a into s, E into Es.
  assert (Hmarks : forall hit : bool,
    hit = reaches_expected allowed muted dut ->
    map (fun ex => if hit && dtc_matches_code dut ex then true
                   else expected_seen seen allowed muted ex) expected =
    marks (seen ++ [dut]) allowed muted expected).
  { intros hit ->. unfold marks. apply map_ext. intros ex.
    unfold expected_seen. rewrite existsb_app. simpl. rewrite orb_false_r.
    destruct (reaches_expected allowed muted dut && dtc_matches_code dut ex);
      [rewrite orb_true_r | rewrite orb_false_r]; reflexivity. }
  unfold reaches_expected in Hmarks. rewrite !find_existsb in Hmarks.
  cbn [first_match] in H.
  destruct (find (dtc_matches_code dut) allowed) as [a|] eqn:Ea.
  { bind_ok H. injection H as <- <-. rewrite rule_result_status.
    simpl. rewrite <- (Hmarks false eq_refl). simpl.
    repeat split; try assumption. }
  destruct (find (dtc_matches_code dut) muted) as [m|] eqn:Em.
  { bind_ok H. injection H as <- <-. rewrite rule_result_status.
    simpl. rewrite <- (Hmarks false eq_refl). simpl.
    repeat split; try assumption. }
  destruct (find (dtc_matches_code dut) expected) as [e|] eqn:Ee.
  { bind_ok H. injection H as <- <-. rewrite rule_result_status.
    simpl. rewrite <- (Hmarks true eq_refl). simpl.
    repeat split; try assumption. apply mark_found_map. }
  injection H as <- <-. simpl.
  repeat split; try assumption.
  rewrite <- (Hmarks true eq_refl). simpl.
  unfold marks. apply map_ext_in. intros ex Hin.
  destruct (dtc_matches_code dut ex) eqn:Ex; [|reflexivity].
  exfalso. apply find_none with (x := ex) in Ee; [congruence | assumption].
Qed.

Lemma scan_duts_spec (dut_dtcs : list DTCInfo) :
  forall seen table_data rows found,
  scan_duts (rule_sets_of allowed muted expected) expected dut_dtcs table_data
    (marks seen allowed muted expected) = Ok (rows, found) ->
  exists present,
    rows = table_data ++ present /\
    Forall2 (classified allowed muted expected) dut_dtcs present /\
    found = marks (seen ++ dut_dtcs) allowed muted expected.
Proof.
  induction dut_dtcs as [|dut rest IH]; intros seen table_data rows found H.
  - injection H as <- <-. exists []. rewrite !app_nil_r. repeat split. constructor.
  - cbn [scan_duts] in H. bind_ok H. destruct a as [r f].
    apply scan_dut_spec in E. destruct E as [Hr ->]. cbn [fst snd] in H.
    apply IH in H. destruct H as (present & -> & Hp & ->).
    exists (r :: present). rewrite <- !app_assoc. repeat split.
    constructor; assumption.
Qed.

Lemma missing_row_spec (ex : DTCInfo) (r : row) :
  missing_row ex = Ok r -> missing ex r.
Proof.
  unfold missing_row, missing. intros H.
  bind_ok H. bind_ok H. bind_ok H. bind_ok H. injection H as <-.
  rewrite E in E1. injection E1 as <-. rewrite E0 in E2. injection E2 as <-.
  cbn [row_presence row_type row_result row_dtc row_status row_dtc_plus_status].
  repeat split; try assumption.
  unfold dtc_plus_status. rewrite E, E0. reflexivity.
Qed.

Lemma missing_rows_spec (g : DTCInfo -> bool) (rules : list DTCInfo) :
  forall table_data rows,
  missing_rows (combine rules (map g rules)) table_data = Ok rows ->
  exists absent,
    rows = table_data ++ absent /\
    Forall2 missing (filter (fun ex => negb (g ex)) rules) absent.
Proof.
  induction rules as [|ex rest IH]; intros table_data rows H.
  - injection H as <-. exists []. rewrite app_nil_r. split; constructor.
  - cbn [map combine missing_rows] in H. cbn [filter].
    destruct (g ex); cbn [negb].
    + apply IH. exact H.
    + bind_ok H. apply missing_row_spec in E. apply IH in H.
      destruct H as (absent & -> & Ha). exists (a :: absent).
      rewrite <- app_assoc. split; [reflexivity | constructor; assumption].
Qed.

(** The rows of the comprehensive table: one per observed DTC, then one
    per expected rule left unmarked. *)
Lemma comprehensive_rows_spec (dut_dtcs : list DTCInfo) (rows : list row) :
  comprehensive_rows dut_dtcs allowed muted expected = Ok rows ->
  exists present absent,
    rows = present ++ absent /\
    Forall2 (classified allowed muted expected) dut_dtcs present /\
    Forall2 missing
      (filter (fun ex => negb (expected_seen dut_dtcs allowed muted ex)) expected)
      absent.
Proof.
  unfold comprehensive_rows. intros H. bind_ok H. destruct a as [t f].
  assert (E0 : repeat false (length expected) = marks [] allowed muted expected).
  { unfold marks. clear. induction expected; simpl; congruence. }
  rewrite E0 in E. apply scan_duts_spec in E.
  destruct E as (present & -> & Hp & ->). cbn [fst snd app] in H.
  unfold marks in H. apply missing_rows_spec in H.
  destruct H as (absent & -> & Ha). exists present, absent. auto.
Qed.

End Scan.

(** *** The scan returns on well-formed records *)

Section Total.

Variables allowed muted expected : list DTCInfo.
Hypothesis allowed_wf : Forall well_formed allowed.
Hypothesis muted_wf : Forall well_formed muted.
Hypothesis expected_wf : Forall well_formed expected.

Lemma first_match_wf (dut : DTCInfo) (t : rule_type) (rule : DTCInfo) :
  first_match dut (rule_sets_of allowed muted expected) = Some (t, rule) ->
  well_formed rule.
Proof.
  unfold rule_sets_of. cbn [first_match].
  destruct (find _ allowed) eqn:Ea.
  { intros H. injection H as <- <-. apply find_some in Ea.
    eapply Forall_forall in allowed_wf; [eassumption | tauto]. }
  destruct (find _ muted) eqn:Em.
  { intros H. injection H as <- <-. apply find_some in Em.
    eapply Forall_forall in muted_wf; [eassumption | tauto]. }
  destruct (find _ expected) eqn:Ee; [|discriminate].
  intros H. injection H as <- <-. apply find_some in Ee.
  eapply Forall_forall in expected_wf; [eassumption | tauto].
Qed.

Lemma scan_dut_total (dut : DTCInfo) (found : list bool) :
  well_formed dut ->
  exists rf, scan_dut (rule_sets_of allowed muted expected) expected dut found = Ok rf.
Proof.
  intros [[c Hc] [s Hs]]. unfold scan_dut. rewrite Hc, Hs. cbn [rbind Ok].
  destruct (first_match dut _) as [[t rule]|] eqn:E; [|eexists; reflexivity].
  destruct (first_match_wf _ _ _ E) as [[c' Hc'] [s' Hs']].
  unfold dtc_plus_status. rewrite Hc', Hs'. cbn [rbind Ok]. eexists; reflexivity.
Qed.

Lemma scan_duts_total (dut_dtcs : list DTCInfo) :
  Forall well_formed dut_dtcs ->
  forall table_data found,
  exists tf, scan_duts (rule_sets_of allowed muted expected) expected dut_dtcs
               table_data found = Ok tf.
Proof.
  induction 1 as [|dut rest Hd Hr IH]; intros table_data found.
  - eexists; reflexivity.
  - cbn [scan_duts]. destruct (scan_dut_total dut found Hd) as [rf ->].
    cbn [rbind]. apply IH.
Qed.

Lemma missing_rows_total (l : list (DTCInfo * bool)) :
  Forall (fun p => well_formed (fst p)) l ->
  forall table_data, exists rows, missing_rows l table_data = Ok rows.
Proof.
  induction 1 as [|[ex f] rest He Hr IH]; intros table_data.
  - eexists; reflexivity.
  - cbn [missing_rows]. destruct f; [apply IH|].
    destruct He as [[c Hc] [s Hs]]. cbn [fst] in *.
    unfold missing_row. rewrite Hc, Hs. cbn [rbind Ok]. apply IH.
Qed.

(** On well-formed records the comprehensive table is built. *)
Lemma comprehensive_rows_total (dut_dtcs : list DTCInfo) :
  Forall well_formed dut_dtcs ->
  exists rows, comprehensive_rows dut_dtcs allowed muted expected = Ok rows.
Proof.
  intros Hd. unfold comprehensive_rows.
  destruct (scan_duts_total dut_dtcs Hd [] (repeat false (length expected)))
    as [tf E].
  fold (rule_sets_of allowed muted expected). rewrite E. cbn [rbind].
  apply missing_rows_total. apply Forall_forall. intros [ex f] Hin.
  apply in_combine_l in Hin. eapply Forall_forall in expected_wf; eassumption.
Qed.

End Total.

Lemma build_comprehensive_rows (dut_dtcs allowed muted expected : list DTCInfo) (t : table) :
  build_comprehensive_dtc_results_table dut_dtcs allowed muted expected = Ok t ->
  exists rows,
    comprehensive_rows dut_dtcs allowed muted expected = Ok rows /\
    t = mkTable "DTC Comprehensive Evaluation" comprehensive_header (map cells rows) true.
Proof.
  unfold build_comprehensive_dtc_results_table. intros H. bind_ok H.
  injection H as <-. exists a. auto.
Qed.

Lemma classified_present (allowed muted expected : list DTCInfo) (d : DTCInfo) (r : row) :
  classified allowed muted expected d r -> row_presence r = lit "Present".
Proof. intros H. apply H. Qed.

(** C1: in the table [build_comprehensive_dtc_results_table] returns, the
    rows of the observed DTCs come first, one each and in order, classified
    by the first rule of the first category (Allowed, then Muted, then
    Expected) whose code matches; an observed DTC that matches an Allowed
    and an Expected rule has the Allowed row, with result "none" when the
    Allowed rule's status matches, and every other row is a "Not Present"
    row. *)
Theorem rule_precedence (dut_dtcs allowed muted expected : list DTCInfo) (t : table) :
  build_comprehensive_dtc_results_table dut_dtcs allowed muted expected = Ok t ->
  exists present absent,
    data t = map cells (present ++ absent) /\
    Forall2 (classified allowed muted expected) dut_dtcs present /\
    Forall (fun r => row_presence r = lit "Not Present") absent /\
    (forall d r a e,
        In (d, r) (combine dut_dtcs present) ->
        find (dtc_matches_code d) allowed = Some a ->
        find (dtc_matches_code d) expected = Some e ->
        row_presence r = lit "Present" /\
        row_type r = STATUS_ALLOWED /\
        dtc_plus_status a = Ok (row_dtc_plus_status r) /\
        (status_matches (status d) (status a) = true -> row_result r = lit "none")).
Proof.
  intros H. apply build_comprehensive_rows in H. destruct H as (rows & H & ->).
  apply comprehensive_rows_spec in H. destruct H as (present & absent & -> & Hp & Ha).
  exists present, absent. split; [reflexivity|]. split; [exact Hp|]. split.
  - clear Hp. induction Ha as [|ex r l l' Hr Hl IH]; constructor; [apply Hr | exact IH].
  - intros d r a e Hin Ea Ee.
    assert (Hc : classified allowed muted expected d r).
    { clear Ha. induction Hp as [|d' r' l l' Hr Hl IH]; [destruct Hin|].
      destruct Hin as [Hin|Hin]; [injection Hin as <- <-; exact Hr | auto]. }
    destruct Hc as (Hpres & _ & _ & Hc). rewrite Ea in Hc.
    destruct Hc as (Ht & Hd & Hres). repeat split; try assumption.
    intros Hs. rewrite Hs in Hres. exact Hres.
Qed.

Lemma rule_precedence_witness :
  exists present absent,
    map cells
      [mkRow "0x101" "0x2f" "Present" "Allowed" "0x101+any" "none";
       mkRow "0x00101" "0x2f" "Not Present" "Expected" "0x00101+0x2f" "fail"] =
    map cells (present ++ absent) /\
    Forall2 (classified [mkDTCInfo "0x101" (VStr "any")] []
               [mkDTCInfo "257" (VStr "0x2f")])
      [mkDTCInfo "0x101" (VStr "0x2f")] present /\
    Forall (fun r => row_presence r = lit "Not Present") absent.
Proof.
  destruct (rule_precedence
              [mkDTCInfo "0x101" (VStr "0x2f")] [mkDTCInfo "0x101" (VStr "any")] []
              [mkDTCInfo "257" (VStr "0x2f")]
              (mkTable "DTC Comprehensive Evaluation" comprehensive_header
                 (map cells
                    [mkRow "0x101" "0x2f" "Present" "Allowed" "0x101+any" "none";
                     mkRow "0x00101" "0x2f" "Not Present" "Expected"
                       "0x00101+0x2f" "fail"]) true)
              eq_refl) as (present & absent & H1 & H2 & H3 & _).
  exists present, absent. auto.
Defined.

(** *** What [evaluate_dtc_block] hands to the report *)

Lemma insert_perm (x : Z * list str) (l : list (Z * list str)) :
  Permutation (Sink.insert x l) (x :: l).
Proof.
  induction l as [|y l IH]; simpl; [reflexivity|].
  destruct (fst x <=? fst y); [reflexivity|].
  rewrite IH. apply perm_swap.
Qed.

Lemma sort_perm (l : list (Z * list str)) : Permutation (Sink.sort l) l.
Proof.
  unfold Sink.sort. induction l as [|x l IH]; simpl; [reflexivity|].
  rewrite insert_perm, IH. reflexivity.
Qed.

Lemma keys_rows (rows : list row) :
  Sink.keys 5 (map cells rows) =
  Some (map (fun r => (Sink.priority (row_result r), cells r)) rows).
Proof.
  induction rows as [|r l IH]; [reflexivity|].
  cbn [map Sink.keys]. rewrite IH. reflexivity.
Qed.

(** The rows reach the report reordered, none lost and none added. *)
Lemma sorted_rows (rows : list row) :
  exists sorted,
    Sink.sorted_data comprehensive_header (map cells rows) = Ok sorted /\
    Permutation sorted (map cells rows).
Proof.
  unfold Sink.sorted_data.
  change (Sink.result_idx comprehensive_header) with (Some 5%nat).
  cbv beta iota. rewrite keys_rows. eexists. split; [reflexivity|].
  rewrite sort_perm, map_map. reflexivity.
Qed.

Lemma summary_header (allowed expected muted : list DTCInfo) (t : table) :
  build_dtc_rule_summary_table allowed expected muted = Ok t ->
  Sink.sorted_data (column_header t) (data t) = Ok (data t).
Proof.
  unfold build_dtc_rule_summary_table. intros H.
  bind_ok H. bind_ok H. bind_ok H. injection H as <-. reflexivity.
Qed.

(** With no observed DTC the comprehensive table is emitted empty. *)
Lemma evaluate_dtc_block_empty
  (cfg : list pyval) (allowed expected muted : list DTCInfo) (summary : table)
  (r0 : Sink.report) :
  get_muted_dtcs cfg = Ok muted ->
  build_dtc_rule_summary_table allowed expected muted = Ok summary ->
  evaluate_dtc_block cfg [] allowed expected (Some r0) =
  (Some (((r0 ++ [Sink.Table (name summary) (data summary) (column_header summary)])
            ++ [Sink.Table comprehensive_name [] comprehensive_header])
           ++ [Sink.Step "PASS" "DTC evaluation overall status: PASS"]),
   Ok []).
Proof.
  intros Hm Hs. unfold evaluate_dtc_block, Sink.bind, Sink.lift, Sink.add_table.
  rewrite Hm. cbv beta iota delta [Ok]. rewrite Hs. cbv beta iota delta [Ok].
  rewrite (summary_header _ _ _ _ Hs). reflexivity.
Qed.

(** With observed DTCs the rows of the comprehensive table are emitted. *)
Lemma evaluate_dtc_block_rows
  (cfg : list pyval) (dut : DTCInfo) (dut_dtcs allowed expected muted : list DTCInfo)
  (summary : table) (rows : list row) (r0 : Sink.report) :
  get_muted_dtcs cfg = Ok muted ->
  build_dtc_rule_summary_table allowed expected muted = Ok summary ->
  comprehensive_rows (dut :: dut_dtcs) allowed muted expected = Ok rows ->
  exists sorted status,
    Permutation sorted (map cells rows) /\
    fst (evaluate_dtc_block cfg (dut :: dut_dtcs) allowed expected (Some r0)) =
    Some (((r0 ++ [Sink.Table (name summary) (data summary) (column_header summary)])
             ++ [Sink.Table comprehensive_name sorted comprehensive_header])
            ++ [Sink.Step status (lit "DTC evaluation overall status: " ++ status)]).
Proof.
  intros Hm Hs Hr. destruct (sorted_rows rows) as (sorted & Hsort & Hperm).
  exists sorted. eexists. split; [exact Hperm|].
  unfold evaluate_dtc_block, Sink.bind, Sink.lift, Sink.add_table.
  rewrite Hm. cbv beta iota delta [Ok]. rewrite Hs. cbv beta iota delta [Ok].
  rewrite (summary_header _ _ _ _ Hs). cbv beta iota delta [Ok].
  unfold build_comprehensive_dtc_results_table. rewrite Hr.
  cbv beta iota delta [Ok rbind column_header data name]. rewrite Hsort.
  cbv beta iota delta [Ok Sink.add_step Sink.emit].
  destruct (dtc_objects (dut :: dut_dtcs) []); reflexivity.
Qed.

(** C2 (amended): [build_comprehensive_dtc_results_table], on every input
    on which it returns (an empty observed list included), adds after the
    rows of the observed DTCs exactly one row per expected rule that no
    observed DTC reached, in order, with presence "Not Present", type
    "Expected" and result "fail", whatever the status of the rule.
    [evaluate_dtc_block] emits these rows when the observed list is not
    empty; for an empty observed list it emits an empty table. *)
Theorem missing_expected_rows
  (cfg : list pyval) (dut_dtcs allowed expected muted : list DTCInfo)
  (summary : table) (rows : list row) (r0 : Sink.report) :
  get_muted_dtcs cfg = Ok muted ->
  build_dtc_rule_summary_table allowed expected muted = Ok summary ->
  comprehensive_rows dut_dtcs allowed muted expected = Ok rows ->
  (exists present absent,
      rows = present ++ absent /\
      length present = length dut_dtcs /\
      Forall (fun r => row_presence r = lit "Present") present /\
      Forall2 missing
        (filter (fun ex => negb (expected_seen dut_dtcs allowed muted ex)) expected)
        absent) /\
  (exists emitted status,
      fst (evaluate_dtc_block cfg dut_dtcs allowed expected (Some r0)) =
      Some (((r0 ++ [Sink.Table (name summary) (data summary) (column_header summary)])
               ++ [Sink.Table comprehensive_name emitted comprehensive_header])
              ++ [Sink.Step status (lit "DTC evaluation overall status: " ++ status)]) /\
      match dut_dtcs with
      | [] => emitted = []
      | _ => Permutation emitted (map cells rows)
      end).
Proof.
  intros Hm Hs Hr. split.
  - apply comprehensive_rows_spec in Hr.
    destruct Hr as (present & absent & -> & Hp & Ha).
    exists present, absent. repeat split; try assumption.
    + symmetry. eapply Forall2_length. exact Hp.
    + clear Ha. induction Hp as [|d r l l' Hc Hl IH]; constructor;
        [eapply classified_present; exact Hc | exact IH].
  - destruct dut_dtcs as [|dut rest].
    + exists [], (lit "PASS"). split; [|reflexivity].
      rewrite (evaluate_dtc_block_empty cfg allowed expected muted summary r0 Hm Hs).
      reflexivity.
    + destruct (evaluate_dtc_block_rows cfg dut rest allowed expected muted summary
                  rows r0 Hm Hs Hr) as (sorted & status & Hperm & E).
      exists sorted, status. split; assumption.
Qed.

Lemma missing_expected_rows_witness :
  exists present absent,
    [mkRow "0x5" "0x2f" "Present" "Muted" "0x00005+any" "none";
     mkRow "0x7" "any" "Not Present" "Expected" "0x7+any" "fail"] = present ++ absent /\
    length present = 1%nat /\
    Forall (fun r => row_presence r = lit "Present") present /\
    Forall2 missing [mkDTCInfo "0x7" (VStr "any")] absent.
Proof.
  refine (proj1 (missing_expected_rows [VInt 5] [mkDTCInfo "0x5" (VStr "0x2f")] []
                   [mkDTCInfo "0x7" (VStr "any")] _ _ _ [] eq_refl eq_refl eq_refl)).
Defined.

(** The claim fails on an empty observed list: the expected rule is reached
    by no observed DTC, and the table [evaluate_dtc_block] emits has no row. *)
Lemma empty_observed_counterexample :
  expected_seen [] [] [] (mkDTCInfo "0x101" (VStr "any")) = false /\
  evaluate_dtc_block [] [] [] [mkDTCInfo "0x101" (VStr "any")] (Some []) =
  (Some [Sink.Table "DTC Rule Summary" [[lit "Expected"; lit "0x101"; lit "any"]]
           [lit "Type"; lit "DTC"; lit "Status"];
         Sink.Table comprehensive_name [] comprehensive_header;
         Sink.Step "PASS" "DTC evaluation overall status: PASS"],
   Ok []).
Proof. split; reflexivity. Qed.

(** *** Rules whose code is "any" or a bit pattern *)

Lemma to_int_wildcard (code : str) : wildcard_code code -> _to_int (VStr code) = Ok None.
Proof.
  unfold wildcard_code, _to_int. intros [H|H].
  - rewrite H, str_eqb_refl. reflexivity.
  - rewrite H. destruct (str_eqb _ STATUS_ANY); reflexivity.
Qed.

Lemma wildcard_code_no_match (dut rule : DTCInfo) :
  wildcard_code (DTC rule) -> dtc_matches_code dut rule = false.
Proof.
  intros H. unfold dtc_matches_code. rewrite (to_int_wildcard _ H).
  destruct (_to_int (VStr (DTC dut))) as [e|[n|]]; reflexivity.
Qed.

Lemma bit_char_cases (c : ascii) :
  Py.char_in bit_chars c = true -> c = "0"%char \/ c = "1"%char \/ c = "*"%char.
Proof. each_char c; intros H; try discriminate H; auto. Qed.

(** The digit loop stops at the first star. *)
Lemma scan_digits_star (base : Z) (s : str) :
  2 <= base ->
  Py.chars_subset s bit_chars = true -> Py.char_in s "*" = true ->
  forall acc, exists v r, Py.scan_digits base false acc s = Some (v, "*"%char :: r).
Proof.
  intros Hb. unfold Py.chars_subset, Py.char_in.
  induction s as [|c s IH]; intros Hs Hstar acc; [discriminate Hstar|].
  cbn [forallb] in Hs. apply andb_true_iff in Hs. destruct Hs as [Hc Hs].
  cbn [existsb] in Hstar. cbn [Py.scan_digits].
  destruct (bit_char_cases c Hc) as [-> | [-> | ->]].
  - change (Py.digit_value "0") with (Some 0). change (Ascii.eqb "0" "_") with false.
    cbv iota. destruct (Z.ltb_spec 0 base); [|lia]. apply IH; assumption.
  - change (Py.digit_value "1") with (Some 1). change (Ascii.eqb "1" "_") with false.
    cbv iota. destruct (Z.ltb_spec 1 base); [|lia]. apply IH; assumption.
  - eexists _, _. reflexivity.
Qed.

Lemma parse_int_star (base : Z) (s : str) :
  2 <= base ->
  Py.chars_subset s bit_chars = true -> Py.char_in s "*" = true ->
  Py.parse_int base s = None.
Proof.
  intros Hb Hs Hstar.
  destruct (scan_digits_star base s Hb Hs Hstar 0) as (v & r & Hscan).
  destruct s as [|c s]; [discriminate Hstar|].
  pose proof Hs as Hs'. unfold Py.chars_subset in Hs'. cbn [forallb] in Hs'.
  apply andb_true_iff in Hs'. destruct Hs' as [Hc Hrest].
  assert (Hlead : Py.lstrip_int (c :: s) = c :: s /\
                  Py.split_sign (c :: s) = (false, c :: s)).
  { destruct (bit_char_cases c Hc) as [-> | [-> | ->]]; split; reflexivity. }
  destruct Hlead as [Hl Hsign].
  assert (Hskip : Py.skip_prefix base (c :: s) = c :: s).
  { destruct s as [|m s]; [reflexivity|]. cbn [forallb] in Hrest.
    apply andb_true_iff in Hrest. destruct Hrest as [Hm _].
    unfold Py.skip_prefix.
    destruct (bit_char_cases m Hm) as [-> | [-> | ->]];
      cbn [Ascii.eqb Bool.eqb orb andb]; rewrite ?andb_false_r; reflexivity. }
  unfold Py.parse_int. rewrite Hl, Hsign. unfold Py.parse_unsigned. rewrite Hskip.
  rewrite Hscan. destruct (Py.is_digit base c); reflexivity.
Qed.

(** A bit pattern with a star is no code the formatter accepts. *)
Lemma format_dtc_code_star (code : str) :
  Py.chars_subset (Py.lower (Py.strip code)) bit_chars = true ->
  Py.char_in (Py.lower (Py.strip code)) "*" = true ->
  format_dtc_code (VStr code) = Err (ValueError Py.invalid_literal).
Proof.
  intros Hs Hstar. unfold format_dtc_code.
  rewrite (star_not_any _ Hstar).
  assert (Hx : forall p, (p = "x" \/ p = "b")%char ->
             Py.startswith (Py.lower (Py.strip code)) ["0"%char; p] = false).
  { intros p Hp. destruct (Py.lower (Py.strip code)) as [|c [|m s]]; try reflexivity.
    - cbn [Py.startswith]. apply andb_false_r.
    - unfold Py.chars_subset in Hs. cbn [forallb] in Hs.
      apply andb_true_iff in Hs. destruct Hs as [_ Hs].
      apply andb_true_iff in Hs. destruct Hs as [Hm _].
      cbn [Py.startswith].
      destruct Hp as [-> | ->];
        destruct (bit_char_cases m Hm) as [-> | [-> | ->]];
        cbn [Ascii.eqb Bool.eqb]; rewrite ?andb_false_r; reflexivity. }
  change (lit "0x") with ["0"%char; "x"%char].
  change (lit "0b") with ["0"%char; "b"%char].
  rewrite !Hx by auto.
  unfold Py.int_of_str. rewrite !parse_int_star by (assumption || lia). reflexivity.
Qed.

Lemma summary_lines_error (t : rule_type) (rule : DTCInfo) (e : exn) (rules : list DTCInfo) :
  In rule rules -> format_dtc_code (VStr (DTC rule)) = Err e ->
  forall table_data, exists e', summary_lines t rules table_data = Err e'.
Proof.
  intros Hin He. induction rules as [|r rest IH]; intros table_data; [destruct Hin|].
  cbn [summary_lines].
  destruct (summary_line t r) as [e'|l] eqn:El; [exists e'; reflexivity|].
  cbn [rbind]. destruct Hin as [-> | Hin]; [|apply IH; assumption].
  unfold summary_line in El. rewrite He in El. discriminate El.
Qed.

Lemma summary_table_error (rule : DTCInfo) (e : exn) (allowed expected muted : list DTCInfo) :
  In rule (allowed ++ expected) -> format_dtc_code (VStr (DTC rule)) = Err e ->
  exists e', build_dtc_rule_summary_table allowed expected muted = Err e'.
Proof.
  intros Hin He. unfold build_dtc_rule_summary_table.
  apply in_app_or in Hin. destruct Hin as [Hin|Hin].
  - destruct (summary_lines_error Allowed rule e allowed Hin He []) as [e' ->].
    exists e'. reflexivity.
  - destruct (summary_lines Allowed allowed []) as [e'|d1]; [exists e'; reflexivity|].
    cbn [rbind].
    destruct (summary_lines_error Expected rule e expected Hin He d1) as [e' ->].
    exists e'. reflexivity.
Qed.

Lemma bits_no_prefix (s : str) (p : ascii) :
  (p = "x" \/ p = "b")%char ->
  Py.chars_subset s bit_chars = true ->
  Py.startswith s ["0"%char; p] = false.
Proof.
  intros Hp Hs. destruct s as [|c [|m s]]; try reflexivity.
  - cbn [Py.startswith]. apply andb_false_r.
  - unfold Py.chars_subset in Hs. cbn [forallb] in Hs.
    apply andb_true_iff in Hs. destruct Hs as [_ Hs].
    apply andb_true_iff in Hs. destruct Hs as [Hm _].
    cbn [Py.startswith].
    destruct Hp as [-> | ->];
      destruct (bit_char_cases m Hm) as [-> | [-> | ->]];
      cbn [Ascii.eqb Bool.eqb]; rewrite ?andb_false_r; reflexivity.
Qed.

Lemma bits_not_any (s : str) :
  Py.chars_subset s bit_chars = true -> str_eqb s STATUS_ANY = false.
Proof.
  intros Hs. destruct (str_eqb s STATUS_ANY) eqn:E; [|reflexivity].
  apply str_eqb_eq in E. subst s. discriminate Hs.
Qed.

Lemma bits_decimal (s : str) :
  Py.chars_subset s bit_chars = true -> Py.char_in s "*" = false ->
  Forall (fun c => Py.is_digit 10 c = true) s.
Proof.
  unfold Py.chars_subset, Py.char_in. induction s as [|c s IH]; intros Hs Hstar.
  - constructor.
  - cbn [forallb] in Hs. apply andb_true_iff in Hs. destruct Hs as [Hc Hs].
    cbn [existsb] in Hstar. apply orb_false_iff in Hstar. destruct Hstar as [Hn Hstar].
    constructor; [|apply IH; assumption].
    destruct (bit_char_cases c Hc) as [-> | [-> | ->]];
      [reflexivity | reflexivity | discriminate Hn].
Qed.

Lemma numeral_value_base_nonneg (base : Z) (ds : str) :
  0 <= base -> 0 <= numeral_value base ds.
Proof.
  intros Hb. unfold numeral_value.
  assert (H : forall acc, 0 <= acc ->
                          0 <= fold_left (fun a c => a * base + dv c) ds acc).
  { induction ds as [|c r IH]; intros acc Hacc; [exact Hacc|].
    cbn [fold_left]. apply IH. pose proof (dv_nonneg c). nia. }
  apply H. lia.
Qed.

(** What [format_dtc_code] does with a code that [_to_int] takes for a
    wildcard. *)
Lemma format_dtc_code_wildcard (code : str) :
  wildcard_code code ->
  match format_dtc_code (VStr code) with
  | inl e =>
      e = ValueError Py.invalid_literal /\
      (Py.lower (Py.strip code) = [] \/
       Py.char_in (Py.lower (Py.strip code)) "*" = true)
  | inr out =>
      Py.lower (Py.strip code) <> [] /\
      Py.char_in (Py.lower (Py.strip code)) "*" = false /\
      (out = STATUS_ANY \/
       exists n, 0 <= n /\ Py.int_of_str 10 (Py.lower (Py.strip code)) = Ok n /\
                 out = format_number n)
  end.
Proof.
  intros [Hany | Hbits].
  - unfold format_dtc_code. rewrite Hany. cbn.
    split; [discriminate|]. split; [reflexivity|]. left. reflexivity.
  - destruct (Py.char_in (Py.lower (Py.strip code)) "*") eqn:Hstar.
    { rewrite (format_dtc_code_star code Hbits Hstar).
      split; [reflexivity | right; reflexivity]. }
    unfold format_dtc_code. rewrite (bits_not_any _ Hbits).
    change (lit "0x") with ["0"%char; "x"%char].
    change (lit "0b") with ["0"%char; "b"%char].
    rewrite !bits_no_prefix by auto.
    destruct (Py.lower (Py.strip code)) as [|c r] eqn:Es.
    { cbn. auto. }
    rewrite <- Es in *.
    assert (Hne : Py.lower (Py.strip code) <> []) by (rewrite Es; discriminate).
    destruct (parse_int_digits 10 ltac:(lia) _ ltac:(lia) Hne
                (bits_decimal _ Hbits Hstar)) as [Hp _].
    unfold Py.int_of_str. rewrite Hp. cbn [rbind Ok].
    split; [exact Hne|]. split; [reflexivity|]. right.
    exists (numeral_value 10 (Py.lower (Py.strip code))).
    split; [apply numeral_value_base_nonneg; lia|]. split; reflexivity.
Qed.

Lemma hex_prefix_formats (v : str) :
  Py.startswith (Py.lower (Py.strip v)) "0x" = true ->
  exists out, format_dtc_code (VStr v) = Ok out.
Proof.
  intros H. unfold format_dtc_code. rewrite H.
  destruct (str_eqb (Py.lower (Py.strip v)) STATUS_ANY); eexists; reflexivity.
Qed.

(** C9 (amended): a rule whose code is "any" or a bit pattern matches no
    observed DTC, not even one of code zero, and the comparison raises
    nothing, as for every code that cannot be read.  The code formatter
    raises [ValueError] for such a code exactly when the code, stripped, is
    empty or holds a star, and then [evaluate_dtc_block] raises when the
    rule is among its allowed or expected rules; otherwise the code is
    printed, "any" as "any" and a pattern of zeros and ones as the decimal
    number it spells.  Malformed numeric input is no error in every case: a
    code that starts with "0x" is always printed, "0xZZ" as "0x00"; the
    formatter raises, and then [ValueError], exactly for a code that is not
    "any", has no such prefix and is no numeral; and a rule whose code
    cannot be read matches nothing. *)
Theorem wildcard_code_rules (rule : DTCInfo) :
  wildcard_code (DTC rule) ->
  (forall dut, dtc_matches_code dut rule = false) /\
  (forall rules, find (fun r => dtc_matches_code (mkDTCInfo "0x0" (VInt 0)) r)
                   (rule :: rules) =
                 find (fun r => dtc_matches_code (mkDTCInfo "0x0" (VInt 0)) r) rules) /\
  ((exists e, format_dtc_code (VStr (DTC rule)) = Err e) <->
   (Py.lower (Py.strip (DTC rule)) = [] \/
    Py.char_in (Py.lower (Py.strip (DTC rule))) "*" = true)) /\
  (forall e, format_dtc_code (VStr (DTC rule)) = Err e ->
     e = ValueError Py.invalid_literal /\
     forall cfg dut_dtcs allowed expected sink,
       In rule (allowed ++ expected) ->
       exists e', snd (evaluate_dtc_block cfg dut_dtcs allowed expected sink) = Err e') /\
  (forall out, format_dtc_code (VStr (DTC rule)) = Ok out ->
     out = STATUS_ANY \/
     exists n, 0 <= n /\
               Py.int_of_str 10 (Py.lower (Py.strip (DTC rule))) = Ok n /\
               out = format_number n) /\
  (forall v, Py.startswith (Py.lower (Py.strip v)) "0x" = true ->
             exists out, format_dtc_code (VStr v) = Ok out) /\
  format_dtc_code (VStr "0xZZ") = Ok (lit "0x00") /\
  (forall v,
     (exists e, format_dtc_code (VStr v) = Err e) <->
     format_dtc_code (VStr v) = Err (ValueError Py.invalid_literal)) /\
  (forall v,
     format_dtc_code (VStr v) = Err (ValueError Py.invalid_literal) <->
     str_eqb (Py.lower (Py.strip v)) STATUS_ANY = false /\
     Py.startswith (Py.lower (Py.strip v)) "0x" = false /\
     (if Py.startswith (Py.lower (Py.strip v)) "0b"
      then Py.parse_int 2 (Py.drop_underscores (skipn 2 (Py.lower (Py.strip v)))) = None
      else Py.parse_int 10 (Py.lower (Py.strip v)) = None /\
           Py.parse_int 16 (Py.lower (Py.strip v)) = None)) /\
  (forall dut other e, _to_int (VStr (DTC other)) = Err e ->
                       dtc_matches_code dut other = false).
Proof.
  intros Hw. pose proof (format_dtc_code_wildcard _ Hw) as Hf.
  split; [|split; [|split; [|split; [|split; [|split; [|split; [|split; [|split]]]]]]]].
  - intros dut. apply wildcard_code_no_match. assumption.
  - intros rules. cbn [find]. rewrite wildcard_code_no_match by assumption. reflexivity.
  - destruct (format_dtc_code (VStr (DTC rule))) as [e|out].
    + destruct Hf as [_ Hf]. split; [intros _; exact Hf | intros _; exists e; reflexivity].
    + destruct Hf as (Hne & Hstar & _). split.
      * intros [e He]. discriminate He.
      * intros [H | H]; [contradiction | congruence].
  - intros e He. rewrite He in Hf. destruct Hf as [-> _]. split; [reflexivity|].
    intros cfg dut_dtcs allowed expected sink Hin.
    unfold evaluate_dtc_block, Sink.bind, Sink.lift.
    destruct (get_muted_dtcs cfg) as [e|muted]; [exists e; reflexivity|].
    destruct (summary_table_error rule _ allowed expected muted Hin He) as [e' ->].
    exists e'. reflexivity.
  - intros out Ho. rewrite Ho in Hf. apply Hf.
  - apply hex_prefix_formats.
  - reflexivity.
  - intros v. split; [|intros H; eexists; exact H].
    intros [e He]. rewrite He. f_equal. revert He.
    unfold format_dtc_code, Py.int_of_str.
    destruct (str_eqb _ STATUS_ANY); [discriminate|].
    destruct (Py.startswith _ "0x"); [discriminate|].
    destruct (Py.startswith _ "0b").
    + destruct (Py.parse_int 2 _); [discriminate|]. intros H. injection H as <-. reflexivity.
    + destruct (Py.parse_int 10 _); [discriminate|].
      destruct (Py.parse_int 16 _); [discriminate|]. intros H. injection H as <-. reflexivity.
  - intros v. unfold format_dtc_code, Py.int_of_str.
    destruct (str_eqb _ STATUS_ANY); [split; [discriminate | intros [H _]; discriminate H]|].
    destruct (Py.startswith _ "0x");
      [split; [discriminate | intros (_ & H & _); discriminate H]|].
    destruct (Py.startswith _ "0b").
    + destruct (Py.parse_int 2 _);
        [split; [discriminate | intros (_ & _ & H); discriminate H]|].
      split; auto.
    + destruct (Py.parse_int 10 _);
        [split; [discriminate | intros (_ & _ & H & _); discriminate H]|].
      destruct (Py.parse_int 16 _);
        [split; [discriminate | intros (_ & _ & _ & H); discriminate H]|].
      split; auto.
  - intros dut other e He. unfold dtc_matches_code. rewrite He.
    destruct (_to_int (VStr (DTC dut))) as [e'|[n|]]; reflexivity.
Qed.

Lemma wildcard_code_rules_witness :
  dtc_matches_code (mkDTCInfo "0x0" (VStr "0x2f")) (mkDTCInfo "1*0" (VStr "any")) = false /\
  exists e, format_dtc_code (VStr "1*0") = Err e.
Proof.
  destruct (wildcard_code_rules (mkDTCInfo "1*0" (VStr "any")) (or_intror eq_refl))
    as (H1 & _ & H2 & _).
  split; [apply H1 | apply (proj2 H2); right; reflexivity].
Defined.

(** The claim fails on the code "any", and on the malformed code "0xZZ":
    in both cases the evaluation returns, the rule is passed over for an
    observed DTC, and "0xZZ" is shown as "0x00" in the rule summary. *)
Lemma any_code_counterexample :
  snd (evaluate_dtc_block [] [mkDTCInfo "0x101" (VStr "0x2f")]
         [mkDTCInfo "any" (VStr "any")] [] (Some [])) =
  Ok [mkDTC "0x101" (mkDTCStatus (Some 47)
        [Some 1; Some 1; Some 1; Some 1; Some 0; Some 1; Some 0; Some 0])] /\
  comprehensive_rows [mkDTCInfo "0x101" (VStr "0x2f")]
    [mkDTCInfo "any" (VStr "any")] [] [] =
  Ok [mkRow "0x101" "0x2f" "Present" "Unexpected" empty_str "fail"] /\
  format_dtc_code (VStr "0xZZ") = Ok (lit "0x00") /\
  evaluate_dtc_block [] [mkDTCInfo "0x0" (VStr "0x2f")]
    [DTCInfo_init (VStr "0xZZ") (VStr "any")] [] (Some []) =
  (Some [Sink.Table "DTC Rule Summary" [[lit "Allowed"; lit "0x00"; lit "any"]]
           [lit "Type"; lit "DTC"; lit "Status"];
         Sink.Table comprehensive_name
           [[lit "0x0"; lit "0x2f"; lit "Present"; lit "Unexpected"; empty_str; lit "fail"]]
           comprehensive_header;
         Sink.Step "FAIL" "DTC evaluation overall status: FAIL"],
   Ok [mkDTC "0x0" (mkDTCStatus (Some 47)
         [Some 1; Some 1; Some 1; Some 1; Some 0; Some 1; Some 0; Some 0])]).
Proof. repeat split; reflexivity. Qed.

(** ** The response classifier *)

Module ClassifierFacts.

Import Classifier.

Lemma map_result_ints (bs : list Z) : map_result item_int (map IInt bs) = Ok bs.
Proof.
  induction bs as [|b l IH]; [reflexivity|]. cbn [map map_result item_int].
  cbn [rbind Ok]. rewrite IH. reflexivity.
Qed.

Lemma bytes_text_ok (bs : list Z) :
  bytes_text bs = Ok (Py.lower (join_blank (map hex2X bs))).
Proof. unfold bytes_text, to_hex_str. rewrite map_result_ints. reflexivity. Qed.

Lemma to_hex_str_str (s : str) : exists t, to_hex_str (RStr s) = Ok t.
Proof.
  unfold to_hex_str, token_int, Py.int_of_str.
  destruct (Py.startswith s "0x");
    [destruct (Py.parse_int 16 s) | destruct (Py.parse_int 10 s)];
    eexists; reflexivity.
Qed.

(** A response that was read as bytes and is not [None] can be shown. *)
Lemma to_hex_str_parsed (r : resp) (bs : list Z) :
  response_to_bytes r = Ok bs -> r <> RNone -> exists t, to_hex_str r = Ok t.
Proof.
  destruct r as [|n|s|b|xs]; intros H Hn.
  - congruence.
  - eexists; reflexivity.
  - apply to_hex_str_str.
  - eexists; reflexivity.
  - cbn [response_to_bytes] in H. cbn [to_hex_str]. rewrite H. eexists; reflexivity.
Qed.

Lemma truthy_not_none (r : resp) : truthy r = true -> r <> RNone.
Proof. intros H E. subst r. discriminate H. Qed.

(** A response that counts as absent is read as bytes without error. *)
Lemma falsy_bytes (r : resp) : truthy r = false -> exists bs, response_to_bytes r = Ok bs.
Proof.
  destruct r as [|n|[|c s]|[|b l]|[|x l]]; intros H; try discriminate H;
    eexists; reflexivity.
Qed.

Lemma ln_not_none (e : resp) (arg : str) :
  ln_argument e = Some arg ->
  is_word e "none" = false /\ is_list e = false /\ exists s, e = RStr s.
Proof.
  destruct e as [|n|s|b|xs]; try discriminate. cbn [ln_argument is_word is_list].
  intros H. repeat split; [|exists s; reflexivity].
  destruct (str_eqb s "none") eqn:E; [|reflexivity].
  apply str_eqb_eq in E. subst s. discriminate H.
Qed.

(** A call that returns went through the classification. *)
Lemma returned_verdict (did actual expected : resp) (name : option str)
  (s s' : Sink.sink) (v : DiagResponse) :
  evaluate_diagnostic_expected_response did actual expected name s = (s', Ok v) ->
  exists db ab eb,
    response_to_bytes did = Ok db /\
    response_to_bytes actual = Ok ab /\
    expected_bytes_of expected = Ok eb /\
    classify (hd_error db) actual expected ab eb =
      Ok (responsetype v, dr_result v, reason v).
Proof.
  unfold evaluate_diagnostic_expected_response, Sink.bind, Sink.lift, Sink.ret.
  destruct (response_to_bytes did) as [e|db]; [discriminate|].
  destruct (response_to_bytes actual) as [e|ab]; [discriminate|].
  destruct (expected_bytes_of expected) as [e|eb]; [discriminate|].
  destruct (classify (hd_error db) actual expected ab eb) as [e|[[rt res] rsn]] eqn:Ec;
    [discriminate|].
  intros H. exists db, ab, eb. repeat split. rewrite Ec.
  destruct (Sink.try_except _ _ s) as [s1 [e|u]]; [discriminate|].
  destruct (name_or_did name did); [discriminate|].
  destruct (bytes_text db); [discriminate|].
  destruct (bytes_text ab); [discriminate|].
  destruct (expected_text expected eb); [discriminate|].
  injection H as _ <-. reflexivity.
Qed.

(** With a report in place, a classified response is recorded once and
    returned. *)
Lemma classified_returns (did actual expected : resp) (name : option str)
  (r : Sink.report) (db ab : list Z) (eb : option (list Z))
  (rt res rsn nm et : str) :
  response_to_bytes did = Ok db ->
  response_to_bytes actual = Ok ab ->
  expected_bytes_of expected = Ok eb ->
  classify (hd_error db) actual expected ab eb = Ok (rt, res, rsn) ->
  name_or_did name did = Ok nm ->
  expected_text expected eb = Ok et ->
  exists tx rx,
    evaluate_diagnostic_expected_response did actual expected name (Some r) =
    (Some (r ++ [Sink.Diagnostic nm tx rx et res]),
     Ok (mkDiagResponse nm tx rx et rt res rsn)).
Proof.
  intros Hd Ha He Hc Hn Ht.
  unfold evaluate_diagnostic_expected_response, Sink.bind, Sink.lift, Sink.ret.
  rewrite Hd. cbv beta iota zeta delta [Ok].
  rewrite Ha. cbv beta iota zeta delta [Ok].
  rewrite He. cbv beta iota zeta delta [Ok].
  rewrite Hc. cbv beta iota zeta delta [Ok].
  unfold Sink.try_except, report_group, Sink.bind, Sink.lift,
    Sink.add_diagnostic_tx_rx_group, Sink.emit.
  rewrite Hn, !bytes_text_ok, Ht. cbv beta iota delta [Ok].
  eexists _, _. reflexivity.
Qed.

End ClassifierFacts.

Import ClassifierFacts.




(** X29: when the actual response is false as Python tests it ([None], an
    empty string, list or byte string, or the integer 0) and the expected
    response is not "none", the call raises whatever the report, and
    returns no verdict; when the request and the expected response can be
    shown, the error is the [ValueError] that says a response was expected
    and none received, and the report is left as it was. *)
Theorem missing_response_raises (did actual expected : resp) (name : option str)
  (s : Sink.sink) :
  Classifier.truthy actual = false ->
  Classifier.is_word expected "none" = false ->
  (exists e, snd (evaluate_diagnostic_expected_response did actual expected name s)
             = Err e) /\
  (forall db want,
      Classifier.response_to_bytes did = Ok db ->
      Classifier.to_hex_str expected = Ok want ->
      evaluate_diagnostic_expected_response did actual expected name s =
      (s, Err (ValueError (lit "Expected response " ++ want
                           ++ lit ", but received no response.")))).
Proof.
  intros Ha He.
  assert (Hc : forall m ab eb,
             Classifier.classify m actual expected ab eb =
             do want <- Classifier.to_hex_str expected;
             Err (ValueError (lit "Expected response " ++ want
                              ++ lit ", but received no response."))).
  { intros m ab eb. unfold Classifier.classify. rewrite He, Ha. reflexivity. }
  destruct (falsy_bytes actual Ha) as [ab Hab].
  split.
  - unfold evaluate_diagnostic_expected_response, Sink.bind, Sink.lift.
    destruct (Classifier.response_to_bytes did) as [e|db]; [exists e; reflexivity|].
    rewrite Hab. cbv beta iota zeta delta [Ok].
    destruct (Classifier.expected_bytes_of expected) as [e|eb]; [exists e; reflexivity|].
    rewrite Hc.
    destruct (Classifier.to_hex_str expected) as [e|want];
      eexists; reflexivity.
  - intros db want Hd Hw.
    unfold evaluate_diagnostic_expected_response, Sink.bind, Sink.lift.
    rewrite Hd. cbv beta iota zeta delta [Ok]. rewrite Hab.
    assert (Heb : exists eb, Classifier.expected_bytes_of expected = Ok eb).
    { unfold Classifier.expected_bytes_of.
      destruct expected as [|n|t|b|xs]; try (eexists; reflexivity).
      cbn [Classifier.is_list Classifier.response_to_bytes].
      cbn [Classifier.to_hex_str] in Hw.
      destruct (Classifier.map_result Classifier.item_int xs); [discriminate Hw|].
      eexists; reflexivity. }
    destruct Heb as [eb ->]. cbv beta iota zeta delta [Ok].
    rewrite Hc, Hw. reflexivity.
Qed.

Lemma missing_response_raises_witness :
  exists e,
    snd (evaluate_diagnostic_expected_response (RInt 34) (RList [])
           (RList [IInt 98; IInt 1]) None (Some [])) = Err e.
Proof.
  refine (proj1 (missing_response_raises (RInt 34) (RList [])
                   (RList [IInt 98; IInt 1]) None (Some []) _ _)); reflexivity.
Defined.

(** X30: for an expected response "ln(N)" and an actual response that is
    true as Python tests it (not [None], not empty and not the integer 0),
    a call with a report in place, whose request and response are read as
    bytes, returns a verdict of type "ln"; when the first byte of the
    request is 0x22 the result is "PASS" exactly when the response starts
    with 0x62 and has [N] bytes after the third, and "FAIL" otherwise; when
    it is not 0x22 the result is "FAIL" and the reason says that the check
    applies to 0x22 only, whatever [N]. *)
Theorem length_check (did actual : resp) (e arg : str) (N : Z) (name : option str)
  (r : Sink.report) (db ab : list Z) (nm : str) :
  Classifier.ln_argument (RStr e) = Some arg ->
  Py.int_of_str 10 arg = Ok N ->
  Classifier.truthy actual = true ->
  Classifier.response_to_bytes did = Ok db ->
  Classifier.response_to_bytes actual = Ok ab ->
  Classifier.name_or_did name did = Ok nm ->
  exists v call,
    evaluate_diagnostic_expected_response did actual (RStr e) name (Some r) =
      (Some (r ++ [call]), Ok v) /\
    responsetype v = lit "ln" /\
    (hd_error db = Some 34 ->
     (dr_result v = lit "PASS" <->
      hd_error ab = Some 98 /\ Z.of_nat (length (skipn 3 ab)) = N) /\
     (dr_result v = lit "PASS" \/ dr_result v = lit "FAIL")) /\
    (hd_error db <> Some 34 ->
     dr_result v = lit "FAIL" /\
     reason v = lit "ln(N) length check applies only to DID 0x22").
Proof.
  intros Hln HN Ht Hd Ha Hn.
  destruct (ln_not_none _ _ Hln) as (Hw & Hl & _).
  destruct (to_hex_str_parsed actual ab Ha (truthy_not_none _ Ht)) as [got Hgot].
  destruct (to_hex_str_str e) as [et Het].
  set (is22 := match hd_error db with Some d => d =? 34 | None => false end).
  set (fits := match ab with
               | b0 :: _ => (b0 =? 98) && (Z.of_nat (length (skipn 3 ab)) =? N)
               | [] => false
               end).
  assert (Hc : exists res rsn,
             Classifier.classify (hd_error db) actual (RStr e) ab None =
               Ok (lit "ln", res, rsn) /\
             res = (if is22 && fits then lit "PASS" else lit "FAIL") /\
             (is22 = false ->
              rsn = lit "ln(N) length check applies only to DID 0x22")).
  { unfold Classifier.classify. rewrite Hw, Ht, Hln. cbn [negb].
    unfold Classifier.classify_ln, Classifier.classify_ln_body. rewrite HN.
    cbn [rbind Ok]. fold is22 fits.
    destruct is22; [destruct fits|].
    - eexists _, _. repeat split. discriminate.
    - rewrite Hgot. eexists _, _. repeat split. discriminate.
    - eexists _, _. repeat split. }
  destruct Hc as (res & rsn & Hc & Hres & Hrsn).
  destruct (classified_returns did actual (RStr e) name r db ab None
              (lit "ln") res rsn nm et Hd Ha eq_refl Hc Hn Het) as (tx & rx & E).
  eexists _, _. split; [exact E|]. cbn [responsetype dr_result reason].
  split; [reflexivity|].
  assert (Hfits : fits = true <->
                  hd_error ab = Some 98 /\ Z.of_nat (length (skipn 3 ab)) = N).
  { unfold fits. destruct ab as [|b0 l]; [split; [discriminate | intros [H _]; discriminate H]|].
    cbn [hd_error]. rewrite andb_true_iff, !Z.eqb_eq. split.
    - intros [-> H]. auto.
    - intros [H1 H2]. injection H1 as ->. auto. }
  assert (H22 : is22 = true <-> hd_error db = Some 34).
  { unfold is22. destruct (hd_error db) as [d|]; [|split; discriminate].
    rewrite Z.eqb_eq. split; [intros ->; reflexivity | intros H; injection H; auto]. }
  split.
  - intros Hdid. apply H22 in Hdid. rewrite Hdid in Hres. cbn [andb] in Hres. subst res.
    split.
    + rewrite <- Hfits. destruct fits; split; intros H; try reflexivity; discriminate H.
    + destruct fits; auto.
  - intros Hdid. assert (Hf : is22 = false).
    { destruct is22; [|reflexivity]. exfalso. apply Hdid, H22. reflexivity. }
    rewrite Hf in Hres. cbn [andb] in Hres. auto.
Qed.

Lemma length_check_witness :
  exists v call,
    evaluate_diagnostic_expected_response (RInt 34)
      (RList [IInt 98; IInt 170; IInt 187; IInt 1; IInt 2; IInt 3]) (RStr "ln(3)")
      None (Some []) = (Some ([] ++ [call]), Ok v) /\
    dr_result v = lit "PASS".
Proof.
  destruct (length_check (RInt 34)
              (RList [IInt 98; IInt 170; IInt 187; IInt 1; IInt 2; IInt 3])
              "ln(3)" "3" 3 None [] [34] [98; 170; 187; 1; 2; 3] "0x22"
              eq_refl eq_refl eq_refl eq_refl eq_refl eq_refl)
    as (v & call & E & _ & H & _).
  exists v, call. split; [exact E|].
  apply (proj1 (H eq_refl)). split; reflexivity.
Defined.

(** C5: the test for a missing response reads the response as it was
    given, not its bytes.  The response " " has no byte and is not empty
    for that test: with the expected response "positive" the call returns
    a verdict "FAIL" and records it, where the empty list raises. *)
Theorem blank_response_verdict :
  Classifier.response_to_bytes (RStr " ") = Ok [] /\
  Classifier.truthy (RStr " ") = true /\
  evaluate_diagnostic_expected_response (RInt 34) (RStr " ") (RStr "positive") None
    (Some []) =
  (Some [Sink.Diagnostic "0x22" "0x22" empty_str "positive" "FAIL"],
   Ok (mkDiagResponse "0x22" "0x22" empty_str "positive" "positive" "FAIL"
         (lit "Expected positive response (DID[0] + 0x40 == 0x62), got " ++ lit " "))) /\
  evaluate_diagnostic_expected_response (RInt 34) (RList []) (RStr "positive") None
    (Some []) =
  (Some [], Err (ValueError "Expected response positive, but received no response.")).
Proof. repeat split; reflexivity. Qed.

(** C6: the same test takes the integer 0 for a missing response, though
    its bytes are the one byte 0x00: with the expected response "ln(0)"
    and the request 0x22 the call raises, where the list of the same byte
    gets the verdict "FAIL" of the length check. *)
Theorem zero_response_raises :
  Classifier.response_to_bytes (RInt 0) = Ok [0] /\
  Classifier.truthy (RInt 0) = false /\
  evaluate_diagnostic_expected_response (RInt 34) (RInt 0) (RStr "ln(0)") None
    (Some []) =
  (Some [], Err (ValueError "Expected response ln(0), but received no response.")) /\
  evaluate_diagnostic_expected_response (RInt 34) (RList [IInt 0]) (RStr "ln(0)") None
    (Some []) =
  (Some [Sink.Diagnostic "0x22" "0x22" "0x00" "ln(0)" "FAIL"],
   Ok (mkDiagResponse "0x22" "0x22" "0x00" "ln(0)" "ln" "FAIL"
         "For DID 0x22, expected response[0]==0x62 and len(response[3:])==0, got 0x00")).
Proof. repeat split; reflexivity. Qed.

(** * Further properties of the value codec *)

Lemma Forall_filter_true {A} (f : A -> bool) (l : list A) :
  Forall (fun a => f a = true) (filter f l).
Proof.
  apply Forall_forall. intros a H. apply filter_In in H. tauto.
Qed.

Lemma strip_lower_hex (body : str) :
  body <> [] -> Forall (fun c => hexlow c = true) body ->
  Py.lower (Py.strip (lit "0x" ++ body)) = lit "0x" ++ body.
Proof.
  intros Hne H. destruct (exists_last Hne) as (b' & c & ->).
  assert (Hc : hexlow c = true).
  { apply Forall_app in H. destruct H as [_ H]. exact (Forall_inv H). }
  destruct (hexlow_facts c Hc) as (_ & Hsp & _).
  change (lit "0x" ++ b' ++ [c]) with (("0"%char :: "x"%char :: b') ++ [c]).
  rewrite strip_fixed by (reflexivity || assumption).
  apply lower_fixed. simpl. constructor; [reflexivity|]. constructor; [reflexivity|].
  apply (signed_fixed_lower false). assumption.
Qed.

(** A code that is already in the printed form is printed as it is. *)
Lemma format_dtc_code_hex_fixed (body : str) :
  body <> [] -> Forall (fun c => hexlow c = true) body ->
  format_dtc_code (VStr (lit "0x" ++ body)) = Ok (lit "0x" ++ body).
Proof.
  intros Hne H. unfold format_dtc_code. rewrite strip_lower_hex by assumption.
  change (lit "0x" ++ body) with ("0"%char :: "x"%char :: body).
  replace (str_eqb _ STATUS_ANY) with false
    by (unfold str_eqb; destruct list_eq_dec as [E|E]; [discriminate E | reflexivity]).
  change (Py.startswith ("0"%char :: "x"%char :: body) "0x") with true.
  cbv iota. cbn [skipn].
  rewrite (filter_all (Py.char_in hex_chars)) by assumption.
  destruct body; [congruence | reflexivity].
Qed.

(** What [format_dtc_code] can return. *)
Lemma format_dtc_code_shape (v : pyval) (s : str) :
  format_dtc_code v = Ok s ->
  s = STATUS_ANY \/
  exists neg body,
    s = lit "0x" ++ signed neg body /\ body <> [] /\
    Forall (fun c => hexlow c = true) body.
Proof.
  assert (Hnum : forall n, exists neg body,
             format_number n = lit "0x" ++ signed neg body /\ body <> [] /\
             Forall (fun c => hexlow c = true) body).
  { intros n. unfold format_number.
    destruct (format_x_shape (dtc_width n) n) as (body & E & Hne & Hh & _).
    exists (n <? 0), body. rewrite E. auto. }
  destruct v as [|n|t]; unfold format_dtc_code; cbn [py_int].
  - discriminate.
  - cbn [rbind Ok]. intros H. injection H as <-. right. apply Hnum.
  - destruct (str_eqb (Py.lower (Py.strip t)) STATUS_ANY);
      [intros H; injection H as <-; auto|].
    destruct (Py.startswith (Py.lower (Py.strip t)) "0x").
    + destruct (filter (Py.char_in hex_chars) (skipn 2 (Py.lower (Py.strip t))))
        as [|c r] eqn:E; intros H; injection H as <-; right; exists false.
      * exists ["0"%char; "0"%char]. repeat split; [discriminate|].
        repeat constructor.
      * exists (c :: r). repeat split; [discriminate|].
        rewrite <- E. apply (Forall_filter_true (Py.char_in hex_chars)).
    + intros H. bind_ok H. injection H as <-. right. apply Hnum.
Qed.

(** X1: whatever [format_dtc_code] returns is the word "any" or "0x", an
    optional minus sign and at least one lower-case hexadecimal digit. *)
Theorem format_dtc_code_output (v : pyval) (s : str) :
  format_dtc_code v = Ok s ->
  s = STATUS_ANY \/
  exists neg body,
    s = lit "0x" ++ signed neg body /\ body <> [] /\
    Forall (fun c => hexlow c = true) body.
Proof. apply format_dtc_code_shape. Qed.

Lemma format_dtc_code_output_witness :
  lit "0x1f" = STATUS_ANY \/
  exists neg body,
    lit "0x1f" = lit "0x" ++ signed neg body /\ body <> [] /\
    Forall (fun c => hexlow c = true) body.
Proof. apply (format_dtc_code_output (VStr " 0X_1f_G ") "0x1f"). reflexivity. Defined.

Lemma format_dtc_code_again (v : pyval) (s : str) :
  format_dtc_code v = Ok s ->
  Py.char_in s "-" = false ->
  format_dtc_code (VStr s) = Ok s.
Proof.
  intros H Hm. apply format_dtc_code_shape in H.
  destruct H as [-> | (neg & body & -> & Hne & Hh)]; [reflexivity|].
  destruct neg; [discriminate Hm|].
  apply format_dtc_code_hex_fixed; assumption.
Qed.

(** X2: formatting a formatted code again changes nothing, unless the code
    is negative: the minus sign is then lost. *)
Theorem format_dtc_code_idempotent (v : pyval) (s : str) :
  format_dtc_code v = Ok s ->
  Py.char_in s "-" = false ->
  format_dtc_code (VStr s) = Ok s /\
  format_dtc_code (VStr "0x-0001") = Ok (lit "0x0001").
Proof.
  intros H Hm. split; [|reflexivity].
  apply (format_dtc_code_again v); assumption.
Qed.

Lemma format_dtc_code_idempotent_witness :
  format_dtc_code (VStr "0x00101") = Ok (lit "0x00101").
Proof.
  apply (proj1 (format_dtc_code_idempotent (VInt 257) "0x00101" eq_refl eq_refl)).
Defined.

(** X3: the status formatter loses nothing either: for every integer [n],
    [parse_to_int_or_hex n] succeeds and [_to_int] reads [n] back. *)
Theorem parse_to_int_or_hex_roundtrip (n : Z) :
  exists s, parse_to_int_or_hex (VInt n) = Ok s /\ _to_int (VStr s) = Ok (Some n).
Proof.
  exists (hex2 n). split; [reflexivity|]. unfold hex2.
  destruct (format_x_shape 2 n) as (body & E & Hne & Hh & Hv).
  rewrite E, to_int_hex_numeral by assumption.
  destruct (Z.ltb_spec n 0); do 2 f_equal; lia.
Qed.

Lemma strip_nospace (s : str) :
  Forall (fun c => Py.isspace c = false) s -> Py.strip s = s.
Proof.
  intros H.
  assert (L : forall t, Forall (fun c => Py.isspace c = false) t -> Py.lstrip t = t).
  { intros t Ht. destruct Ht as [|c r Hc Hr]; [reflexivity|]. simpl. rewrite Hc. reflexivity. }
  unfold Py.strip. rewrite (L s H), (L (rev s)) by (apply Forall_rev; exact H).
  apply rev_involutive.
Qed.

Lemma decimal_facts (c : ascii) :
  Py.is_digit 10 c = true ->
  Py.isspace c = false /\ Py.lower_char c = c /\
  Ascii.eqb "a" c = false /\ Ascii.eqb "x" c = false /\ Ascii.eqb "b" c = false.
Proof.
  each_char c; intros H; try discriminate H; repeat split; reflexivity.
Qed.

(** Reading the decimal numeral of [n]: a numeral of zeros and ones passes
    for a bit pattern and gives no number. *)
Lemma to_int_decimal (n : Z) :
  0 <= n ->
  _to_int (VStr (Py.str_of_int n)) =
  if Py.chars_subset (Py.to_base 10 n) bit_chars then Ok None else Ok (Some n).
Proof.
  intros Hn. unfold Py.str_of_int. destruct (Z.ltb_spec n 0); [lia|].
  pose proof (to_base_digits 10 ltac:(lia) n Hn) as Hd.
  pose proof (to_base_nonempty 10 n) as Hne.
  pose proof (to_base_value 10 ltac:(lia) n Hn) as Hv.
  set (ds := Py.to_base 10 n) in *.
  assert (Hstrip : Py.strip ds = ds).
  { apply strip_nospace. revert Hd. apply Forall_impl. intros c Hc.
    apply (decimal_facts c Hc). }
  assert (Hlower : Py.lower ds = ds).
  { apply lower_fixed. revert Hd. apply Forall_impl. intros c Hc.
    apply (decimal_facts c Hc). }
  unfold _to_int. rewrite Hstrip, Hlower.
  destruct (Py.chars_subset ds bit_chars); [destruct (str_eqb ds STATUS_ANY); reflexivity|].
  assert (Hany : str_eqb ds STATUS_ANY = false).
  { destruct (str_eqb ds STATUS_ANY) eqn:E; [|reflexivity].
    apply str_eqb_eq in E. rewrite E in Hd. apply Forall_inv in Hd. discriminate Hd. }
  assert (Hpre : forall p, (p = "x" \/ p = "b")%char ->
                 Py.startswith ds ["0"%char; p] = false).
  { intros p Hp. destruct ds as [|c [|m r]]; try reflexivity.
    - cbn [Py.startswith]. apply andb_false_r.
    - apply Forall_inv_tail, Forall_inv in Hd.
      destruct (decimal_facts m Hd) as (_ & _ & _ & Hx & Hb).
      cbn [Py.startswith]. destruct Hp as [-> | ->];
        rewrite ?Hx, ?Hb, ?andb_false_r; reflexivity. }
  rewrite Hany.
  change (lit "0x") with ["0"%char; "x"%char].
  change (lit "0b") with ["0"%char; "b"%char].
  rewrite !Hpre by auto.
  unfold Py.int_of_str.
  destruct (parse_int_digits 10 ltac:(lia) ds ltac:(lia) Hne Hd) as [-> _].
  rewrite Hv. reflexivity.
Qed.

Lemma lower_str_of_int (n : Z) : 0 <= n -> Py.lower (Py.str_of_int n) = Py.str_of_int n.
Proof.
  intros Hn. unfold Py.str_of_int. destruct (Z.ltb_spec n 0); [lia|].
  apply lower_fixed. pose proof (to_base_digits 10 ltac:(lia) n Hn) as Hd.
  revert Hd. apply Forall_impl. intros c Hc. apply (decimal_facts c Hc).
Qed.

Lemma to_int_format_number (n : Z) :
  Py.lower (format_number n) = format_number n /\
  _to_int (VStr (format_number n)) = Ok (Some n).
Proof.
  unfold format_number.
  destruct (format_x_shape (dtc_width n) n) as (body & E & Hne & Hh & Hv).
  rewrite E. split.
  - apply lower_fixed. simpl. constructor; [reflexivity|]. constructor; [reflexivity|].
    apply signed_fixed_lower. assumption.
  - rewrite to_int_hex_numeral by assumption.
    destruct (Z.ltb_spec n 0); do 2 f_equal; lia.
Qed.

(** X4: an observed DTC built from the integer [n] matches the rule whose
    code is the formatted [n] (as the muted rules are built), unless the
    decimal numeral of [n] consists of zeros and ones only: such a code is
    taken for a bit pattern and matches nothing. *)
Theorem integer_code_match (n : Z) (dut_status rule_status : pyval) :
  0 <= n ->
  dtc_matches_code (DTCInfo_init (VInt n) dut_status)
                   (DTCInfo_init (VStr (format_number n)) rule_status) =
  negb (Py.chars_subset (Py.to_base 10 n) bit_chars).
Proof.
  intros Hn. unfold dtc_matches_code, DTCInfo_init. cbn [DTC py_str].
  rewrite lower_str_of_int, to_int_decimal by assumption.
  destruct (to_int_format_number n) as [-> ->].
  destruct (Py.chars_subset (Py.to_base 10 n) bit_chars); [reflexivity|].
  cbn [negb]. apply Z.eqb_refl.
Qed.

Lemma integer_code_match_witness :
  dtc_matches_code (DTCInfo_init (VInt 10) (VInt 47))
                   (DTCInfo_init (VStr (format_number 10)) (VStr "any")) =
  negb (Py.chars_subset (Py.to_base 10 10) bit_chars).
Proof. apply integer_code_match. lia. Defined.

(** * Further properties of the DTC rule matcher *)

Lemma Forall2_combine_In {A B} (R : A -> B -> Prop) (l : list A) (l' : list B) x y :
  Forall2 R l l' -> In (x, y) (combine l l') -> R x y.
Proof.
  induction 1 as [|a b l l' Hab Hl IH]; intros Hin; [destruct Hin|].
  destruct Hin as [Hin|Hin]; [injection Hin as <- <-; exact Hab | auto].
Qed.


Lemma find_all_false {A} (f : A -> bool) (l : list A) :
  (forall a, f a = false) -> find f l = None.
Proof.
  intros H. induction l as [|a l IH]; [reflexivity|]. simpl. rewrite H. exact IH.
Qed.

Lemma fail_not_pass_none :
  str_eqb "none" "fail" = false /\ str_eqb "pass" "fail" = false /\
  str_eqb "fail" "fail" = true.
Proof. repeat split; reflexivity. Qed.

Lemma classified_fail (allowed muted expected : list DTCInfo) (d : DTCInfo) (r : row) :
  classified allowed muted expected d r ->
  str_eqb (row_result r) "fail" = negb (covered allowed muted expected d).
Proof.
  unfold classified, covered. intros (_ & _ & _ & H).
  destruct (find _ allowed) as [a|].
  { destruct H as (_ & _ & ->). destruct (status_matches _ _); reflexivity. }
  destruct (find _ muted) as [m|].
  { destruct H as (_ & _ & ->). destruct (status_matches _ _); reflexivity. }
  destruct (find _ expected) as [e|].
  { destruct H as (_ & _ & ->). destruct (status_matches _ _); reflexivity. }
  destruct H as (_ & _ & ->). reflexivity.
Qed.

Lemma present_fail (allowed muted expected dut_dtcs : list DTCInfo) (present : list row) :
  Forall2 (classified allowed muted expected) dut_dtcs present ->
  existsb (fun r => str_eqb (row_result r) "fail") present =
  negb (forallb (covered allowed muted expected) dut_dtcs).
Proof.
  induction 1 as [|d r l l' Hc Hl IH]; [reflexivity|].
  cbn [existsb forallb]. rewrite (classified_fail _ _ _ _ _ Hc), IH.
  rewrite negb_andb. reflexivity.
Qed.

Lemma absent_fail (g : DTCInfo -> bool) (expected : list DTCInfo) (absent : list row) :
  Forall2 missing (filter (fun ex => negb (g ex)) expected) absent ->
  existsb (fun r => str_eqb (row_result r) "fail") absent = negb (forallb g expected).
Proof.
  revert absent. induction expected as [|e l IH]; intros absent H.
  - inversion H. reflexivity.
  - cbn [filter forallb] in *. destruct (g e); cbn [negb andb] in *.
    + apply IH. exact H.
    + inversion H as [|e' r l1 l2 Hm Hl]; subst. cbn [existsb].
      destruct Hm as (_ & _ & -> & _). reflexivity.
Qed.

Lemma overall_status_rows (n : str) (h : list str) (e : bool) (rows : list row) :
  overall_status (mkTable n h (map cells rows) e) =
  if existsb (fun r => str_eqb (row_result r) "fail") rows then lit "FAIL" else lit "PASS".
Proof.
  unfold overall_status. cbn [data].
  assert (E : forall l,
             existsb (fun r => str_eqb r "fail")
               (filter (fun c => negb (str_eqb c empty_str)) (map result_cell (map cells l))) =
             existsb (fun r => str_eqb (row_result r) "fail") l).
  { induction l as [|r l IH]; [reflexivity|]. cbn [map filter existsb].
    change (result_cell (cells r)) with (row_result r).
    destruct (str_eqb (row_result r) empty_str) eqn:Er; cbn [negb existsb].
    - apply str_eqb_eq in Er. rewrite Er. exact IH.
    - rewrite IH. reflexivity. }
  rewrite E. reflexivity.
Qed.

(** The verdict of the comprehensive table in terms of the inputs. *)
Lemma overall_status_inputs (dut_dtcs allowed muted expected : list DTCInfo)
  (rows : list row) (n : str) (h : list str) (e : bool) :
  comprehensive_rows dut_dtcs allowed muted expected = Ok rows ->
  overall_status (mkTable n h (map cells rows) e) =
  if forallb (covered allowed muted expected) dut_dtcs &&
     forallb (expected_seen dut_dtcs allowed muted) expected
  then lit "PASS" else lit "FAIL".
Proof.
  intros H. apply comprehensive_rows_spec in H.
  destruct H as (present & absent & -> & Hp & Ha).
  rewrite overall_status_rows, existsb_app.
  rewrite (present_fail _ _ _ _ _ Hp), (absent_fail _ _ _ Ha).
  destruct (forallb _ dut_dtcs), (forallb _ expected); reflexivity.
Qed.

Lemma evaluate_dtc_block_step
  (cfg : list pyval) (dut : DTCInfo) (dut_dtcs allowed expected muted : list DTCInfo)
  (summary : table) (rows : list row) (r0 : Sink.report) :
  get_muted_dtcs cfg = Ok muted ->
  build_dtc_rule_summary_table allowed expected muted = Ok summary ->
  comprehensive_rows (dut :: dut_dtcs) allowed muted expected = Ok rows ->
  exists sorted,
    Sink.sorted_data comprehensive_header (map cells rows) = Ok sorted /\
    evaluate_dtc_block cfg (dut :: dut_dtcs) allowed expected (Some r0) =
    (Some (((r0 ++ [Sink.Table (name summary) (data summary) (column_header summary)])
              ++ [Sink.Table comprehensive_name sorted comprehensive_header])
             ++ [Sink.Step
                   (overall_status
                      (mkTable comprehensive_name comprehensive_header (map cells rows) true))
                   (lit "DTC evaluation overall status: " ++
                    overall_status
                      (mkTable comprehensive_name comprehensive_header (map cells rows) true))]),
     dtc_objects (dut :: dut_dtcs) []).
Proof.
  intros Hm Hs Hr. destruct (sorted_rows rows) as (sorted & Hsort & Hperm).
  exists sorted. split; [exact Hsort|].
  unfold evaluate_dtc_block, Sink.bind, Sink.lift, Sink.add_table.
  rewrite Hm. cbv beta iota delta [Ok]. rewrite Hs. cbv beta iota delta [Ok].
  rewrite (summary_header _ _ _ _ Hs). cbv beta iota delta [Ok].
  unfold build_comprehensive_dtc_results_table. rewrite Hr.
  cbv beta iota delta [Ok rbind column_header data name]. rewrite Hsort.
  cbv beta iota delta [Ok Sink.add_step Sink.emit].
  destruct (dtc_objects (dut :: dut_dtcs) []); reflexivity.
Qed.

(** X5: for a list of observed DTCs that is not empty, the step
    [evaluate_dtc_block] records is "PASS" exactly when every observed DTC
    is covered by the first rule carrying its code and every expected rule
    was reached by an observed DTC; it is "FAIL" otherwise. *)
Theorem dtc_verdict
  (cfg : list pyval) (dut : DTCInfo) (dut_dtcs allowed expected muted : list DTCInfo)
  (summary : table) (rows : list row) (r0 : Sink.report) :
  get_muted_dtcs cfg = Ok muted ->
  build_dtc_rule_summary_table allowed expected muted = Ok summary ->
  comprehensive_rows (dut :: dut_dtcs) allowed muted expected = Ok rows ->
  exists t1 t2 verdict,
    fst (evaluate_dtc_block cfg (dut :: dut_dtcs) allowed expected (Some r0)) =
    Some (((r0 ++ [t1]) ++ [t2])
            ++ [Sink.Step verdict (lit "DTC evaluation overall status: " ++ verdict)]) /\
    verdict =
      (if forallb (covered allowed muted expected) (dut :: dut_dtcs) &&
          forallb (expected_seen (dut :: dut_dtcs) allowed muted) expected
       then lit "PASS" else lit "FAIL").
Proof.
  intros Hm Hs Hr.
  destruct (evaluate_dtc_block_step cfg dut dut_dtcs allowed expected muted summary
              rows r0 Hm Hs Hr) as (sorted & _ & E).
  rewrite E. cbn [fst]. eexists _, _, _. split; [reflexivity|].
  apply overall_status_inputs. exact Hr.
Qed.

Lemma dtc_verdict_witness :
  exists t1 t2 verdict,
    fst (evaluate_dtc_block [VInt 5]
           [mkDTCInfo "0x5" (VStr "0x2f"); mkDTCInfo "0x7" (VStr "0x08")] []
           [mkDTCInfo "0x7" (VStr "0x09")] (Some [])) =
    Some ((([] ++ [t1]) ++ [t2])
            ++ [Sink.Step verdict (lit "DTC evaluation overall status: " ++ verdict)]) /\
    verdict = lit "FAIL".
Proof.
  destruct (dtc_verdict [VInt 5] (mkDTCInfo "0x5" (VStr "0x2f"))
              [mkDTCInfo "0x7" (VStr "0x08")] [] [mkDTCInfo "0x7" (VStr "0x09")]
              _ _ _ [] eq_refl eq_refl eq_refl) as (t1 & t2 & v & E & Hv).
  exists t1, t2, v. split; [exact E | exact Hv].
Defined.





Lemma wildcard_dut_no_match (dut rule : DTCInfo) :
  wildcard_code (DTC dut) -> dtc_matches_code dut rule = false.
Proof.
  intros H. unfold dtc_matches_code. rewrite (to_int_wildcard _ H). reflexivity.
Qed.

Lemma scan_duts_error (rule_sets : list (rule_type * list DTCInfo))
  (expected_dtcs dut_dtcs : list DTCInfo) (d : DTCInfo) (e : exn) :
  In d dut_dtcs -> format_dtc_code (VStr (DTC d)) = Err e ->
  forall table_data expected_found,
    exists e', scan_duts rule_sets expected_dtcs dut_dtcs table_data expected_found
               = Err e'.
Proof.
  intros Hin He. induction dut_dtcs as [|x l IH]; intros table_data expected_found;
    [destruct Hin|].
  cbn [scan_duts].
  destruct (scan_dut rule_sets expected_dtcs x expected_found) as [e'|rf] eqn:Ex;
    [exists e'; reflexivity|].
  cbn [rbind]. destruct Hin as [-> | Hin]; [|apply IH; assumption].
  unfold scan_dut in Ex. rewrite He in Ex. discriminate Ex.
Qed.

(** X7: an observed DTC whose code is "any" or consists of the characters
    0, 1 and * only matches no rule.  When the comprehensive table is built
    its row is "Unexpected" with result "fail", whatever the rules are; the
    table is not built when such a code is empty or holds a star: the code
    formatter raises [ValueError] for it. *)
Theorem wildcard_observed_unexpected
  (dut_dtcs allowed muted expected : list DTCInfo) :
  (forall d rule, wildcard_code (DTC d) -> dtc_matches_code d rule = false) /\
  (forall rows,
     comprehensive_rows dut_dtcs allowed muted expected = Ok rows ->
     exists present absent,
       rows = present ++ absent /\
       length present = length dut_dtcs /\
       forall d r,
         In (d, r) (combine dut_dtcs present) -> wildcard_code (DTC d) ->
         row_presence r = lit "Present" /\
         row_type r = lit "Unexpected" /\
         row_result r = lit "fail") /\
  (forall d,
     In d dut_dtcs -> wildcard_code (DTC d) ->
     Py.lower (Py.strip (DTC d)) = [] \/
     Py.char_in (Py.lower (Py.strip (DTC d))) "*" = true ->
     exists e, comprehensive_rows dut_dtcs allowed muted expected = Err e).
Proof.
  split; [|split].
  - intros d rule Hw. apply wildcard_dut_no_match, Hw.
  - intros rows H. apply comprehensive_rows_spec in H.
    destruct H as (present & absent & -> & Hp & _).
    exists present, absent. split; [reflexivity|]. split.
    + symmetry. eapply Forall2_length. exact Hp.
    + intros d r Hin Hw.
      pose proof (Forall2_combine_In _ _ _ _ _ Hp Hin) as (Hpres & _ & _ & Hc).
      rewrite !(find_all_false (dtc_matches_code d))
        in Hc by (intros x; apply wildcard_dut_no_match; assumption).
      destruct Hc as (Ht & _ & Hres). auto.
  - intros d Hin Hw Hbad.
    pose proof (format_dtc_code_wildcard _ Hw) as Hf.
    destruct (format_dtc_code (VStr (DTC d))) as [e|out] eqn:Ef.
    + destruct (scan_duts_error (rule_sets_of allowed muted expected) expected
                  dut_dtcs d e Hin Ef [] (repeat false (length expected))) as [e' He'].
      exists e'. unfold comprehensive_rows. cbv zeta. rewrite He'. reflexivity.
    + destruct Hf as (Hne & Hstar & _). destruct Hbad; [contradiction | congruence].
Qed.

Lemma wildcard_observed_unexpected_witness :
  (exists present absent,
      [mkRow "0x0000a" "0x2f" "Present" "Unexpected" empty_str "fail"] = present ++ absent /\
      length present = 1%nat) /\
  exists e, comprehensive_rows [mkDTCInfo "1*" (VStr "0x2f")]
              [mkDTCInfo "0xa" (VStr "any")] [] [] = Err e.
Proof.
  split.
  - destruct (proj1 (proj2 (wildcard_observed_unexpected
                              [mkDTCInfo "10" (VStr "0x2f")]
                              [mkDTCInfo "0xa" (VStr "any")] [] [])) _ eq_refl)
      as (present & absent & E & L & _).
    exists present, absent. split; assumption.
  - apply (proj2 (proj2 (wildcard_observed_unexpected
                           [mkDTCInfo "1*" (VStr "0x2f")]
                           [mkDTCInfo "0xa" (VStr "any")] [] []))
             (mkDTCInfo "1*" (VStr "0x2f")) (or_introl eq_refl)
             (or_intror eq_refl) (or_intror eq_refl)).
Defined.

Lemma get_muted_dtcs_any (cfg : list pyval) :
  forall muted, get_muted_dtcs cfg = Ok muted ->
  length muted = length cfg /\
  Forall (fun m => status m = VStr STATUS_ANY) muted.
Proof.
  induction cfg as [|x l IH]; intros muted H.
  - injection H as <-. split; [reflexivity | constructor].
  - cbn [get_muted_dtcs] in H. bind_ok H. bind_ok H. injection H as <-.
    destruct (IH _ E0) as [Hl Hf]. split; [simpl; congruence|].
    constructor; [reflexivity | assumption].
Qed.

(** X8: the muted rules read from the configuration, one per entry, all
    carry the status "any"; the comprehensive table starts with one row
    per observed DTC, in order, and an observed DTC that no allowed rule
    matches and that a muted rule matches gets a "Muted" row with result
    "none", whatever its status. *)
Theorem muted_suppresses
  (cfg : list pyval) (dut_dtcs allowed muted expected : list DTCInfo) (rows : list row) :
  get_muted_dtcs cfg = Ok muted ->
  comprehensive_rows dut_dtcs allowed muted expected = Ok rows ->
  length muted = length cfg /\
  Forall (fun m => status m = VStr STATUS_ANY) muted /\
  exists present absent,
    rows = present ++ absent /\
    Forall2
      (fun d r =>
         existsb (dtc_matches_code d) allowed = false ->
         existsb (dtc_matches_code d) muted = true ->
         row_presence r = lit "Present" /\
         row_type r = STATUS_MUTED /\ row_result r = lit "none")
      dut_dtcs present.
Proof.
  intros Hm H. destruct (get_muted_dtcs_any cfg muted Hm) as [Hl Hany].
  split; [exact Hl|]. split; [exact Hany|].
  apply comprehensive_rows_spec in H.
  destruct H as (present & absent & -> & Hp & _).
  exists present, absent. split; [reflexivity|].
  revert Hp. apply Forall2_impl.
  intros d r (Hpres & _ & _ & Hc) Ha Hmu.
  rewrite find_existsb in Ha, Hmu.
  destruct (find (dtc_matches_code d) allowed); [discriminate Ha|].
  destruct (find (dtc_matches_code d) muted) as [m|] eqn:Em; [|discriminate Hmu].
  destruct Hc as (Ht & _ & Hres). split; [exact Hpres|]. split; [exact Ht|].
  apply find_some in Em. destruct Em as [Hin' _].
  rewrite Forall_forall in Hany. rewrite (Hany m Hin') in Hres.
  exact Hres.
Qed.

Lemma muted_suppresses_witness :
  exists present absent,
    [mkRow "0x5" "0x2f" "Present" "Muted" "0x00005+any" "none"] = present ++ absent /\
    Forall2
      (fun d r =>
         existsb (dtc_matches_code d) [] = false ->
         existsb (dtc_matches_code d) [mkDTCInfo "0x00005" (VStr STATUS_ANY)] = true ->
         row_presence r = lit "Present" /\
         row_type r = STATUS_MUTED /\ row_result r = lit "none")
      [mkDTCInfo "0x5" (VStr "0x2f")] present.
Proof.
  exact (proj2 (proj2 (muted_suppresses [VInt 5] [mkDTCInfo "0x5" (VStr "0x2f")] []
                         [mkDTCInfo "0x00005" (VStr STATUS_ANY)] [] _ eq_refl eq_refl))).
Defined.

(** X9: without an active report [evaluate_dtc_block] raises on every
    input and leaves no report behind. *)
Theorem evaluate_dtc_block_needs_report
  (cfg : list pyval) (dut_dtcs allowed expected : list DTCInfo) :
  exists e, evaluate_dtc_block cfg dut_dtcs allowed expected None = (None, Err e).
Proof.
  unfold evaluate_dtc_block, Sink.bind, Sink.lift.
  destruct (get_muted_dtcs cfg) as [e|muted]; [exists e; reflexivity|].
  destruct (build_dtc_rule_summary_table allowed expected muted) as [e|summary];
    [exists e; reflexivity|].
  exists Sink.no_report. reflexivity.
Qed.

Lemma land_shiftr_bit (n : Z) (i : nat) :
  Z.land (Z.shiftr n (Z.of_nat i)) 1 = Z.b2z (Z.testbit n (Z.of_nat i)).
Proof.
  change 1 with (Z.ones 1) at 1. rewrite Z.land_ones by lia.
  change (2 ^ 1) with 2. rewrite <- Z.bit0_mod, Z.shiftr_spec by lia.
  reflexivity.
Qed.

(** The bit field of a status that was formatted from the number [n]. *)
Lemma DTCStatus_init_hex2 (n : Z) :
  0 <= n ->
  DTCStatus_init (hex2 n) =
  Ok (mkDTCStatus (Some n)
        (map (fun i => Some (Z.b2z (Z.testbit n (Z.of_nat i)))) (seq 0 8))).
Proof.
  intros Hn. unfold DTCStatus_init, hex2.
  destruct (format_x_shape 2 n) as (body & E & Hne & Hh & Hv).
  rewrite E. destruct (Z.ltb_spec n 0); [lia|]. cbn [signed].
  replace (str_eqb (Py.lower (lit "0x" ++ body)) "any") with false.
  2:{ symmetry. unfold str_eqb. destruct list_eq_dec as [C|C]; [discriminate C | reflexivity]. }
  change (Py.startswith (lit "0x" ++ body) "0x") with true. cbv iota.
  unfold Py.int_of_str. rewrite parse_int_0x by assumption. cbn [rbind Ok].
  rewrite Hv, Z.abs_eq by lia. do 2 f_equal.
  apply map_ext. intros i. rewrite land_shiftr_bit. reflexivity.
Qed.

Lemma dtc_objects_spec (dut_dtcs : list DTCInfo) :
  forall acc objs, dtc_objects dut_dtcs acc = Ok objs ->
  exists new, objs = acc ++ new /\ Forall2 describes dut_dtcs new.
Proof.
  induction dut_dtcs as [|d l IH]; intros acc objs H.
  - injection H as <-. exists []. rewrite app_nil_r. split; constructor.
  - cbn [dtc_objects] in H. bind_ok H. bind_ok H. bind_ok H.
    apply IH in H. destruct H as (new & -> & Hnew).
    exists (a1 :: new). rewrite <- app_assoc. split; [reflexivity|].
    constructor; [|assumption].
    unfold DTC_init in E1. bind_ok E1. bind_ok E1. injection E1 as <-.
    split; cbn [dtc dtc_status].
    + intros c Hc Hm. rewrite E in Hc. injection Hc as <-.
      rewrite (format_dtc_code_again _ _ E Hm) in E2. injection E2 as <-. reflexivity.
    + intros n Hs Hn. rewrite Hs in E0. cbn [parse_to_int_or_hex py_int rbind Ok] in E0.
      injection E0 as <-. rewrite DTCStatus_init_hex2 in E3 by assumption.
      injection E3 as <-. split; reflexivity.
Qed.

Lemma evaluate_dtc_block_result
  (cfg : list pyval) (dut_dtcs allowed expected : list DTCInfo)
  (s s' : Sink.sink) (objs : list DTC_obj) :
  evaluate_dtc_block cfg dut_dtcs allowed expected s = (s', Ok objs) ->
  dtc_objects dut_dtcs [] = Ok objs.
Proof.
  unfold evaluate_dtc_block, Sink.bind, Sink.lift, Sink.ret.
  destruct (get_muted_dtcs cfg) as [e|muted]; [discriminate|].
  destruct (build_dtc_rule_summary_table allowed expected muted) as [e|summary];
    [discriminate|].
  destruct (Sink.add_table summary s) as [s1 [e|u]]; [discriminate|].
  destruct dut_dtcs as [|d l].
  - destruct (Sink.add_table _ s1) as [s2 [e|u2]]; [discriminate|].
    destruct (Sink.add_step _ _ s2) as [s3 [e|u3]]; [discriminate|].
    intros H. injection H as _ <-. reflexivity.
  - destruct (build_comprehensive_dtc_results_table _ _ _ _) as [e|t]; [discriminate|].
    destruct (Sink.add_table t s1) as [s2 [e|u2]]; [discriminate|].
    destruct (Sink.add_step _ _ s2) as [s3 [e|u3]]; [discriminate|].
    intros H. injection H as _ H. exact H.
Qed.

(** X10: when [evaluate_dtc_block] returns, it returns one object per
    observed DTC, in order; the object carries the formatted code of the
    DTC (a code without minus sign), and for an observed status given as
    an integer [n >= 0] its value is [n] and its eight flags are the bits
    0 to 7 of [n]. *)
Theorem returned_dtc_objects
  (cfg : list pyval) (dut_dtcs allowed expected : list DTCInfo)
  (s s' : Sink.sink) (objs : list DTC_obj) :
  evaluate_dtc_block cfg dut_dtcs allowed expected s = (s', Ok objs) ->
  Forall2 describes dut_dtcs objs.
Proof.
  intros H. apply evaluate_dtc_block_result in H. apply dtc_objects_spec in H.
  destruct H as (new & -> & H). exact H.
Qed.

Lemma returned_dtc_objects_witness :
  Forall2 describes [mkDTCInfo "257" (VInt 47)]
    [mkDTC "0x00101" (mkDTCStatus (Some 47)
       [Some 1; Some 1; Some 1; Some 1; Some 0; Some 1; Some 0; Some 0])].
Proof.
  apply (returned_dtc_objects [] [mkDTCInfo "257" (VInt 47)] [] [] (Some [])
           (Some [Sink.Table "DTC Rule Summary" [] [lit "Type"; lit "DTC"; lit "Status"];
                  Sink.Table comprehensive_name
                    [[lit "0x00101"; lit "0x2f"; lit "Present"; lit "Unexpected";
                      empty_str; lit "fail"]] comprehensive_header;
                  Sink.Step "FAIL" "DTC evaluation overall status: FAIL"])).
  reflexivity.
Defined.

(** *** The order of the emitted rows *)

Lemma insert_sorted (x : Z * list str) (l : list (Z * list str)) :
  StronglySorted (fun a b => fst a <= fst b) l ->
  StronglySorted (fun a b => fst a <= fst b) (Sink.insert x l).
Proof.
  induction 1 as [|y ys Hs IH Hy]; cbn [Sink.insert].
  - repeat constructor.
  - destruct (Z.leb_spec (fst x) (fst y)) as [Hle|Hgt].
    + constructor; [constructor; assumption|].
      constructor; [assumption|].
      revert Hy. apply Forall_impl. intros z Hz. lia.
    + constructor; [exact IH|].
      apply Forall_forall. intros z Hz.
      apply (Permutation_in _ (insert_perm x ys)) in Hz.
      destruct Hz as [<-|Hz]; [lia|].
      rewrite Forall_forall in Hy. apply Hy. assumption.
Qed.

Lemma sort_sorted (l : list (Z * list str)) :
  StronglySorted (fun a b => fst a <= fst b) (Sink.sort l).
Proof.
  unfold Sink.sort. induction l as [|x l IH]; cbn [fold_right];
    [constructor | apply insert_sorted; assumption].
Qed.

Lemma sorted_cells (l : list (Z * list str)) :
  Forall (fun kc => fst kc = Sink.priority (result_cell (snd kc))) l ->
  StronglySorted (fun a b => fst a <= fst b) l ->
  StronglySorted
    (fun a b => Sink.priority (result_cell a) <= Sink.priority (result_cell b))
    (map snd l).
Proof.
  intros Hk Hs. induction Hs as [|y ys Hs IH Hy]; cbn [map]; [constructor|].
  pose proof (Forall_inv Hk) as Ey. pose proof (Forall_inv_tail Hk) as Hks.
  constructor; [apply IH; assumption|].
  apply Forall_forall. intros c Hc. apply in_map_iff in Hc.
  destruct Hc as (z & <- & Hz).
  rewrite Forall_forall in Hy, Hks. rewrite <- Ey, <- (Hks z Hz). apply Hy. assumption.
Qed.

(** X11: the rows of the comprehensive table reach the report reordered
    by [add_table]: none is lost or added, and the rows with result "fail"
    come first, then those with "pass", then those with "none". *)
Theorem emitted_rows_sorted
  (cfg : list pyval) (dut : DTCInfo) (dut_dtcs allowed expected muted : list DTCInfo)
  (summary : table) (rows : list row) (r0 : Sink.report) :
  get_muted_dtcs cfg = Ok muted ->
  build_dtc_rule_summary_table allowed expected muted = Ok summary ->
  comprehensive_rows (dut :: dut_dtcs) allowed muted expected = Ok rows ->
  exists t1 emitted step,
    fst (evaluate_dtc_block cfg (dut :: dut_dtcs) allowed expected (Some r0)) =
    Some (((r0 ++ [t1]) ++ [Sink.Table comprehensive_name emitted comprehensive_header])
            ++ [step]) /\
    Permutation emitted (map cells rows) /\
    StronglySorted
      (fun a b => Sink.priority (result_cell a) <= Sink.priority (result_cell b))
      emitted /\
    Sink.priority "fail" = 0 /\ Sink.priority "pass" = 1 /\ Sink.priority "none" = 2.
Proof.
  intros Hm Hs Hr.
  destruct (evaluate_dtc_block_step cfg dut dut_dtcs allowed expected muted summary
              rows r0 Hm Hs Hr) as (sorted & Hsort & E).
  rewrite E. cbn [fst]. eexists _, sorted, _. split; [reflexivity|].
  unfold Sink.sorted_data in Hsort.
  change (Sink.result_idx comprehensive_header) with (Some 5%nat) in Hsort.
  cbv beta iota in Hsort. rewrite keys_rows in Hsort. injection Hsort as <-.
  set (ks := map (fun r => (Sink.priority (row_result r), cells r)) rows).
  assert (Hk : Forall (fun kc => fst kc = Sink.priority (result_cell (snd kc))) ks).
  { apply Forall_forall. intros kc Hin. apply in_map_iff in Hin.
    destruct Hin as (r & <- & _). reflexivity. }
  split; [|split; [|repeat split; reflexivity]].
  - rewrite sort_perm. unfold ks. rewrite map_map. reflexivity.
  - apply sorted_cells; [|apply sort_sorted].
    apply Forall_forall. intros kc Hin.
    apply (Permutation_in _ (sort_perm ks)) in Hin.
    rewrite Forall_forall in Hk. apply Hk. assumption.
Qed.

Lemma emitted_rows_sorted_witness :
  exists t1 emitted step,
    fst (evaluate_dtc_block [VInt 5]
           [mkDTCInfo "0x5" (VStr "0x2f"); mkDTCInfo "0x7" (VStr "0x08")] []
           [mkDTCInfo "0x7" (VStr "0x09")] (Some [])) =
    Some ((([] ++ [t1]) ++ [Sink.Table comprehensive_name emitted comprehensive_header])
            ++ [step]) /\
    Permutation emitted
      (map cells
         [mkRow "0x5" "0x2f" "Present" "Muted" "0x00005+any" "none";
          mkRow "0x7" "0x08" "Present" "Expected" "0x7+0x09" "fail"]).
Proof.
  destruct (emitted_rows_sorted [VInt 5] (mkDTCInfo "0x5" (VStr "0x2f"))
              [mkDTCInfo "0x7" (VStr "0x08")] [] [mkDTCInfo "0x7" (VStr "0x09")]
              _ _ _ [] eq_refl eq_refl eq_refl) as (t1 & em & st & E & P & _).
  exists t1, em, st. split; [exact E | exact P].
Defined.

(** * Further properties of the response classifier *)

Module ClassifierMore.

Import Classifier.

Lemma fallback_none (did actual expected : resp) (result reason : str) :
  exists e, report_fallback did actual expected result reason None = (None, Err e).
Proof.
  unfold report_fallback, Sink.bind, Sink.lift.
  destruct (to_hex_str did) as [e|d]; [exists e; reflexivity|].
  destruct (to_hex_str expected) as [e|x]; [exists e; reflexivity|].
  destruct (to_hex_str actual) as [e|a]; [exists e; reflexivity|].
  exists Sink.no_report. reflexivity.
Qed.

Lemma group_none (did expected : resp) (name : option str) (db ab : list Z)
  (eb : option (list Z)) (result : str) :
  exists e, report_group did expected name db ab eb result None = (None, Err e).
Proof.
  unfold report_group, Sink.bind, Sink.lift.
  destruct (name_or_did name did) as [e|n]; [exists e; reflexivity|].
  rewrite !bytes_text_ok. cbv beta iota delta [Ok].
  destruct (expected_text expected eb) as [e|x]; [exists e; reflexivity|].
  exists Sink.no_report. reflexivity.
Qed.

(** A call that returns had a report, and added one record to it that
    repeats the fields of the verdict. *)
Lemma returned_record (did actual expected : resp) (name : option str)
  (s s' : Sink.sink) (v : DiagResponse) :
  evaluate_diagnostic_expected_response did actual expected name s = (s', Ok v) ->
  exists r,
    s = Some r /\
    s' = Some (r ++ [Sink.Diagnostic (dr_name v) (request_did v) (response_did v)
                       (expected_did v) (dr_result v)]).
Proof.
  unfold evaluate_diagnostic_expected_response, Sink.bind, Sink.lift, Sink.ret.
  destruct (response_to_bytes did) as [e|db]; [discriminate|].
  destruct (response_to_bytes actual) as [e|ab]; [discriminate|].
  destruct (expected_bytes_of expected) as [e|eb]; [discriminate|].
  destruct (classify (hd_error db) actual expected ab eb) as [e|[[rt res] rsn]];
    [discriminate|].
  destruct s as [r|].
  - unfold Sink.try_except, report_group, Sink.bind, Sink.lift,
      Sink.add_diagnostic_tx_rx_group, Sink.emit.
    destruct (name_or_did name did) as [e|n].
    { destruct (report_fallback _ _ _ _ _ (Some r)) as [s1 [e1|u]]; discriminate. }
    rewrite !bytes_text_ok. cbv beta iota delta [Ok].
    destruct (expected_text expected eb) as [e|x].
    { destruct (report_fallback _ _ _ _ _ (Some r)) as [s1 [e1|u]]; discriminate. }
    intros H. injection H as <- <-. exists r. split; reflexivity.
  - unfold Sink.try_except.
    destruct (group_none did expected name db ab eb res) as [e ->].
    destruct (fallback_none did actual expected res rsn) as [e' ->].
    discriminate.
Qed.

(** The outcomes of the classification. *)
Lemma classify_outcomes (m : option Z) (actual expected : resp) (ab : list Z)
  (eb : option (list Z)) (rt res rsn : str) :
  classify m actual expected ab eb = Ok (rt, res, rsn) ->
  (is_word expected "none" = true /\ rt = lit "none" /\ res = lit "NONE") \/
  (is_word expected "none" = false /\
   In rt [lit "ln"; lit "explicit"; lit "positive"; lit "negative"; lit "unknown"] /\
   (res = lit "PASS" \/ res = lit "FAIL")).
Proof.
  unfold classify. intros H.
  destruct (is_word expected "none").
  { left. destruct (truthy actual); [bind_ok H|]; injection H as <- <- _; auto. }
  right. split; [reflexivity|].
  destruct (truthy actual); cbn [negb] in H; [|bind_ok H; discriminate H].
  destruct (ln_argument expected) as [arg|].
  { unfold classify_ln, classify_ln_body in H.
    destruct (Py.int_of_str 10 arg) as [e|N]; cbn [rbind] in H.
    { destruct e; try discriminate H. injection H as <- <- _. simpl. auto 12. }
    destruct (match m with Some d => d =? 34 | None => false end).
    2:{ injection H as <- <- _. simpl. auto 12. }
    destruct (match ab with [] => false | _ => _ end).
    { injection H as <- <- _. simpl. auto 12. }
    destruct (to_hex_str actual) as [e|got]; cbn [rbind] in H.
    { destruct e; try discriminate H. injection H as <- <- _. simpl. auto 12. }
    injection H as <- <- _. simpl. auto 12. }
  destruct expected as [|n|t|b|xs];
    try (cbn [is_word] in H; injection H as <- <- _; simpl; auto 12).
  - cbn [is_word] in H.
    destruct (str_eqb t "positive").
    { destruct (match ab with [] => false | _ => _ end);
        [|bind_ok H]; injection H as <- <- _; simpl; auto 12. }
    destruct (str_eqb t "negative").
    { destruct (match ab with [] => false | _ => _ end);
        [|bind_ok H]; injection H as <- <- _; simpl; auto 12. }
    injection H as <- <- _. simpl. auto 12.
  - destruct (match eb with Some _ => _ | None => false end).
    + injection H as <- <- _. simpl. auto 12.
    + bind_ok H. bind_ok H. injection H as <- <- _. simpl. auto 12.
Qed.

End ClassifierMore.

Import ClassifierMore.



(** X13: for the expected response "positive" the verdict is "PASS"
    exactly when the first byte of the actual response is the first byte
    of the request plus 0x40; for "negative", exactly when it is 0x7F. *)
Theorem positive_negative (did actual : resp) (name : option str)
  (r : Sink.report) (db ab : list Z) (nm : str) :
  Classifier.truthy actual = true ->
  Classifier.response_to_bytes did = Ok db ->
  Classifier.response_to_bytes actual = Ok ab ->
  Classifier.name_or_did name did = Ok nm ->
  (exists v call,
      evaluate_diagnostic_expected_response did actual (RStr "positive") name (Some r) =
        (Some (r ++ [call]), Ok v) /\
      responsetype v = lit "positive" /\
      (dr_result v = lit "PASS" <->
       exists d, hd_error db = Some d /\ hd_error ab = Some (d + 64)) /\
      (dr_result v = lit "PASS" \/ dr_result v = lit "FAIL")) /\
  (exists v call,
      evaluate_diagnostic_expected_response did actual (RStr "negative") name (Some r) =
        (Some (r ++ [call]), Ok v) /\
      responsetype v = lit "negative" /\
      (dr_result v = lit "PASS" <-> hd_error ab = Some 127) /\
      (dr_result v = lit "PASS" \/ dr_result v = lit "FAIL")).
Proof.
  intros Ht Hd Ha Hn.
  destruct (to_hex_str_parsed actual ab Ha (truthy_not_none _ Ht)) as [got Hgot].
  split.
  - set (hit := match ab, option_map (fun d => d + 64) (hd_error db) with
                | b0 :: _, Some e => b0 =? e
                | _, _ => false
                end).
    assert (Hc : exists rsn,
               Classifier.classify (hd_error db) actual (RStr "positive") ab None =
                 Ok (lit "positive", if hit then lit "PASS" else lit "FAIL", rsn)).
    { unfold Classifier.classify.
      change (Classifier.is_word (RStr "positive") "none") with false.
      change (Classifier.ln_argument (RStr "positive")) with (@None str).
      change (Classifier.is_word (RStr "positive") "positive") with true.
      rewrite Ht. cbn [negb]. cbv iota. fold hit.
      destruct hit; [|rewrite Hgot]; eexists; reflexivity. }
    destruct Hc as (rsn & Hc).
    destruct (to_hex_str_str "positive") as [et Het].
    destruct (classified_returns did actual (RStr "positive") name r db ab None
                _ _ rsn nm et Hd Ha eq_refl Hc Hn Het) as (tx & rx & E).
    eexists _, _. split; [exact E|]. cbn [responsetype dr_result].
    split; [reflexivity|].
    assert (Hhit : hit = true <->
                   exists d, hd_error db = Some d /\ hd_error ab = Some (d + 64)).
    { unfold hit. destruct ab as [|b0 l], (hd_error db) as [d|]; cbn [option_map hd_error];
        try (split; [discriminate | intros (x & H1 & H2); discriminate]).
      rewrite Z.eqb_eq. split.
      - intros ->. exists d. auto.
      - intros (x & H1 & H2). injection H1 as <-. injection H2 as ->. reflexivity. }
    rewrite <- Hhit. destruct hit; split; auto; split; auto; discriminate.
  - set (hit := match ab with b0 :: _ => b0 =? 127 | [] => false end).
    assert (Hc : exists rsn,
               Classifier.classify (hd_error db) actual (RStr "negative") ab None =
                 Ok (lit "negative", if hit then lit "PASS" else lit "FAIL", rsn)).
    { unfold Classifier.classify.
      change (Classifier.is_word (RStr "negative") "none") with false.
      change (Classifier.ln_argument (RStr "negative")) with (@None str).
      change (Classifier.is_word (RStr "negative") "positive") with false.
      change (Classifier.is_word (RStr "negative") "negative") with true.
      rewrite Ht. cbn [negb]. cbv iota. fold hit.
      destruct hit; [|rewrite Hgot]; eexists; reflexivity. }
    destruct Hc as (rsn & Hc).
    destruct (to_hex_str_str "negative") as [et Het].
    destruct (classified_returns did actual (RStr "negative") name r db ab None
                _ _ rsn nm et Hd Ha eq_refl Hc Hn Het) as (tx & rx & E).
    eexists _, _. split; [exact E|]. cbn [responsetype dr_result].
    split; [reflexivity|].
    assert (Hhit : hit = true <-> hd_error ab = Some 127).
    { unfold hit. destruct ab as [|b0 l]; cbn [hd_error]; [split; discriminate|].
      rewrite Z.eqb_eq. split; [intros ->; reflexivity | intros H; injection H; auto]. }
    rewrite <- Hhit. destruct hit; split; auto; split; auto; discriminate.
Qed.

Lemma positive_negative_witness :
  exists v call,
    evaluate_diagnostic_expected_response (RInt 16) (RList [IInt 127; IInt 16; IInt 49])
      (RStr "positive") None (Some []) = (Some ([] ++ [call]), Ok v) /\
    (dr_result v = lit "PASS" \/ dr_result v = lit "FAIL").
Proof.
  destruct (proj1 (positive_negative (RInt 16) (RList [IInt 127; IInt 16; IInt 49]) None []
              [16] [127; 16; 49] "0x10" eq_refl eq_refl eq_refl eq_refl))
    as (v & call & E & _ & _ & H).
  exists v, call. split; assumption.
Defined.



(** X15: every verdict the classifier returns has the result "NONE" with
    type "none" when the expected response is the word "none", and
    otherwise one of the results "PASS" and "FAIL" with one of the types
    "ln", "explicit", "positive", "negative" and "unknown". *)
Theorem verdict_values (did actual expected : resp) (name : option str)
  (s s' : Sink.sink) (v : DiagResponse) :
  evaluate_diagnostic_expected_response did actual expected name s = (s', Ok v) ->
  (Classifier.is_word expected "none" = true /\
   responsetype v = lit "none" /\ dr_result v = lit "NONE") \/
  (Classifier.is_word expected "none" = false /\
   In (responsetype v)
      [lit "ln"; lit "explicit"; lit "positive"; lit "negative"; lit "unknown"] /\
   (dr_result v = lit "PASS" \/ dr_result v = lit "FAIL")).
Proof.
  intros H. apply returned_verdict in H.
  destruct H as (db & ab & eb & _ & _ & _ & H).
  apply classify_outcomes in H. exact H.
Qed.

Lemma verdict_values_witness :
  In (lit "ln")
     [lit "ln"; lit "explicit"; lit "positive"; lit "negative"; lit "unknown"].
Proof.
  destruct (verdict_values (RInt 34) (RList [IInt 98]) (RStr "ln(0)") None (Some [])
              (Some [Sink.Diagnostic "0x22" "0x22" "0x62" "ln(0)" "PASS"])
              (mkDiagResponse "0x22" "0x22" "0x62" "ln(0)" "ln" "PASS" empty_str)
              eq_refl) as [(H & _) | (_ & H & _)]; [discriminate H | exact H].
Defined.

(** X16: a call that returns found a report in place and added exactly one
    record to it, which repeats the name, the request, the response, the
    expected response and the result of the verdict. *)
Theorem one_record (did actual expected : resp) (name : option str)
  (s s' : Sink.sink) (v : DiagResponse) :
  evaluate_diagnostic_expected_response did actual expected name s = (s', Ok v) ->
  exists r,
    s = Some r /\
    s' = Some (r ++ [Sink.Diagnostic (dr_name v) (request_did v) (response_did v)
                       (expected_did v) (dr_result v)]).
Proof. apply returned_record. Qed.

Lemma one_record_witness :
  exists r,
    Some [] = Some r /\
    Some [Sink.Diagnostic "0x22" "0x22" "0x62" "ln(0)" "PASS"] =
    Some (r ++ [Sink.Diagnostic "0x22" "0x22" "0x62" "ln(0)" "PASS"]).
Proof.
  apply (one_record (RInt 34) (RList [IInt 98]) (RStr "ln(0)") None (Some [])
           (Some [Sink.Diagnostic "0x22" "0x22" "0x62" "ln(0)" "PASS"])
           (mkDiagResponse "0x22" "0x22" "0x62" "ln(0)" "ln" "PASS" empty_str)).
  reflexivity.
Defined.

(** X17: without an active report the classifier raises on every input:
    the table it falls back on needs the report as well. *)
Theorem classifier_needs_report (did actual expected : resp) (name : option str) :
  exists e,
    snd (evaluate_diagnostic_expected_response did actual expected name None) = Err e.
Proof.
  destruct (evaluate_diagnostic_expected_response did actual expected name None)
    as [s' [e|v]] eqn:E.
  - exists e. reflexivity.
  - apply returned_record in E. destruct E as (r & C & _). discriminate C.
Qed.

(** *** The text of a byte sequence *)

Lemma lower_upper_hex (c : ascii) :
  hexlow c = true ->
  Py.lower_char (Classifier.upper_hex c) = c /\ Ascii.eqb c "," = false.
Proof. each_char c; intros H; try discriminate H; split; reflexivity. Qed.

Lemma lower_app (a b : str) : Py.lower (a ++ b) = Py.lower a ++ Py.lower b.
Proof. apply map_app. Qed.

Lemma lower_join (parts : list str) :
  Py.lower (Classifier.join_blank parts) = Classifier.join_blank (map Py.lower parts).
Proof.
  induction parts as [|p [|q rest] IH]; [reflexivity | reflexivity |].
  change (Classifier.join_blank (p :: q :: rest))
    with (p ++ " "%char :: Classifier.join_blank (q :: rest)).
  rewrite lower_app. change (Py.lower (" "%char :: ?x)) with (" "%char :: Py.lower x).
  unfold Py.lower at 2. cbn [map]. fold (Py.lower (Classifier.join_blank (q :: rest))).
  rewrite IH. reflexivity.
Qed.

Lemma hex2_shape (n : Z) :
  0 <= n ->
  exists body, hex2 n = lit "0x" ++ body /\ body <> [] /\
               Forall (fun c => hexlow c = true) body /\ numeral_value 16 body = n.
Proof.
  intros Hn. unfold hex2. destruct (format_x_shape 2 n) as (body & E & Hne & Hh & Hv).
  exists body. rewrite E. destruct (Z.ltb_spec n 0); [lia|].
  repeat split; try assumption. lia.
Qed.

Lemma lower_hex2X (n : Z) : 0 <= n -> Py.lower (Classifier.hex2X n) = hex2 n.
Proof.
  intros Hn. unfold Classifier.hex2X, Classifier.format_X. unfold hex2.
  destruct (format_x_shape 2 n) as (body & E & Hne & Hh & Hv).
  rewrite E. destruct (Z.ltb_spec n 0); [lia|]. cbn [signed].
  rewrite lower_app. f_equal. unfold Py.lower. rewrite map_map.
  clear E Hne Hv. induction Hh as [|c l Hc Hl IH]; [reflexivity|].
  cbn [map]. rewrite IH. destruct (lower_upper_hex c Hc) as [-> _]. reflexivity.
Qed.

Lemma split_from_word (t : str) :
  Forall (fun c => Py.isspace c = false) t ->
  forall cur rest,
    Classifier.split_from cur (t ++ rest) = Classifier.split_from (rev t ++ cur) rest.
Proof.
  induction 1 as [|c t Hc Ht IH]; intros cur rest; [reflexivity|].
  cbn [app Classifier.split_from]. rewrite Hc, IH. cbn [rev]. rewrite <- app_assoc.
  reflexivity.
Qed.

Lemma split_join (parts : list str) :
  Forall word parts -> Classifier.split (Classifier.join_blank parts) = parts.
Proof.
  unfold Classifier.split.
  induction parts as [|p [|q rest] IH]; intros H; [reflexivity | |].
  - apply Forall_inv in H. destruct H as [Hne Hsp].
    cbn [Classifier.join_blank]. rewrite <- (app_nil_r p) at 1.
    rewrite split_from_word by assumption. rewrite app_nil_r.
    cbn [Classifier.split_from].
    destruct (rev p) as [|c l] eqn:E.
    + apply (f_equal (@rev ascii)) in E. rewrite rev_involutive in E. contradiction.
    + rewrite <- E, rev_involutive. reflexivity.
  - pose proof (Forall_inv H) as [Hne Hsp]. apply Forall_inv_tail in H.
    change (Classifier.join_blank (p :: q :: rest))
      with (p ++ " "%char :: Classifier.join_blank (q :: rest)).
    rewrite split_from_word by assumption. rewrite app_nil_r.
    cbn [Classifier.split_from]. change (Py.isspace " ") with true. cbv iota.
    destruct (rev p) as [|c l] eqn:E.
    + apply (f_equal (@rev ascii)) in E. rewrite rev_involutive in E. contradiction.
    + rewrite <- E, rev_involutive, (IH H). reflexivity.
Qed.

Lemma hex2_word (n : Z) :
  0 <= n ->
  word (hex2 n) /\ Forall (fun c => Ascii.eqb c "," = false) (hex2 n) /\
  Classifier.token_int (hex2 n) = Ok n.
Proof.
  intros Hn. destruct (hex2_shape n Hn) as (body & -> & Hne & Hh & Hv).
  split; [split; [discriminate|]|split].
  - simpl. constructor; [reflexivity|]. constructor; [reflexivity|].
    revert Hh. apply Forall_impl. intros c Hc. apply (hexlow_facts c Hc).
  - simpl. constructor; [reflexivity|]. constructor; [reflexivity|].
    revert Hh. apply Forall_impl. intros c Hc. apply (lower_upper_hex c Hc).
  - unfold Classifier.token_int.
    change (Py.startswith (lit "0x" ++ body) "0x") with true. cbv iota.
    unfold Py.int_of_str. rewrite parse_int_0x, Hv by assumption. reflexivity.
Qed.

(** X18: the text the classifier writes for a sequence of bytes (numbers
    that are not negative), such as the request and the response of a
    verdict, reads back as that sequence. *)
Theorem hex_text_roundtrip (bs : list Z) :
  Forall (fun b => 0 <= b) bs ->
  exists t,
    Classifier.to_hex_str (RBytes bs) = Ok t /\
    Classifier.bytes_text bs = Ok t /\
    Classifier.response_to_bytes (RStr t) = Ok bs.
Proof.
  intros H. exists (Classifier.join_blank (map hex2 bs)).
  assert (E : Py.lower (Classifier.join_blank (map Classifier.hex2X bs)) =
              Classifier.join_blank (map hex2 bs)).
  { rewrite lower_join, map_map. f_equal. apply map_ext_in. intros b Hb.
    apply lower_hex2X. rewrite Forall_forall in H. auto. }
  split; [cbn [Classifier.to_hex_str]; rewrite E; reflexivity|].
  split; [rewrite bytes_text_ok, E; reflexivity|].
  cbn [Classifier.response_to_bytes].
  assert (Hcomma : Classifier.commas_to_blanks (Classifier.join_blank (map hex2 bs)) =
                   Classifier.join_blank (map hex2 bs)).
  { unfold Classifier.commas_to_blanks. rewrite <- (map_id (Classifier.join_blank _)) at 2.
    apply map_ext_in. intros c Hc.
    assert (Hj : forall parts,
               Forall (fun p => Forall (fun c => Ascii.eqb c "," = false) p) parts ->
               Forall (fun c => Ascii.eqb c "," = false) (Classifier.join_blank parts)).
    { induction parts as [|p [|q rest] IHp]; intros Hp; [constructor | |].
      - exact (Forall_inv Hp).
      - change (Classifier.join_blank (p :: q :: rest))
          with (p ++ " "%char :: Classifier.join_blank (q :: rest)).
        apply Forall_app. split; [exact (Forall_inv Hp)|].
        constructor; [reflexivity|]. apply IHp. exact (Forall_inv_tail Hp). }
    assert (Hall : Forall (fun c => Ascii.eqb c "," = false)
                     (Classifier.join_blank (map hex2 bs))).
    { apply Hj. apply Forall_forall. intros p Hp. apply in_map_iff in Hp.
      destruct Hp as (b & <- & Hb). rewrite Forall_forall in H.
      apply (hex2_word b (H b Hb)). }
    rewrite Forall_forall in Hall. rewrite (Hall c Hc). reflexivity. }
  rewrite Hcomma, split_join.
  - clear E Hcomma. induction H as [|b l Hb Hl IH]; [reflexivity|].
    cbn [map Classifier.map_result]. destruct (hex2_word b Hb) as (_ & _ & ->).
    cbn [rbind Ok]. rewrite IH. reflexivity.
  - apply Forall_forall. intros p Hp. apply in_map_iff in Hp.
    destruct Hp as (b & <- & Hb). rewrite Forall_forall in H. apply (hex2_word b (H b Hb)).
Qed.

Lemma hex_text_roundtrip_witness :
  exists t,
    Classifier.to_hex_str (RBytes [98; 170; 1]) = Ok t /\
    Classifier.bytes_text [98; 170; 1] = Ok t /\
    Classifier.response_to_bytes (RStr t) = Ok [98; 170; 1].
Proof. apply hex_text_roundtrip. repeat constructor; lia. Defined.

(** * Properties of the report statuses *)

Module ReportFacts.

Import Report.

Lemma entry_induct (P : entry -> Prop) :
  (forall c s, P (Entry c s None)) ->
  (forall c s l, Forall P l -> P (Entry c s (Some l))) ->
  forall e, P e.
Proof.
  intros Hn Hs.
  refine (fix IH (e : entry) : P e :=
            match e with
            | Entry c s None => Hn c s
            | Entry c s (Some l) =>
                Hs c s l
                  ((fix go (l : list entry) : Forall P l :=
                      match l with
                      | [] => Forall_nil P
                      | x :: r => Forall_cons x (IH x) (go r)
                      end) l)
            end).
Qed.

Lemma collect_app (l l' : list entry) :
  collect_statuses (l ++ l') = collect_statuses l ++ collect_statuses l'.
Proof. apply flat_map_app. Qed.

Lemma has_app (a b : list field) (w : str) : has (a ++ b) w = has a w || has b w.
Proof. apply existsb_app. Qed.

Lemma case_status_rank (lines : list entry) :
  get_case_status lines =
  (if has (collect_statuses lines) "ERROR" then lit "ERROR"
   else if has (collect_statuses lines) "FAIL" then lit "FAIL"
   else if has (collect_statuses lines) "PASS" then lit "PASS"
   else lit "NONE").
Proof. reflexivity. Qed.

Lemma case_status_append (l l' : list entry) :
  get_case_status (l ++ l') = worst (get_case_status l) (get_case_status l').
Proof.
  rewrite !case_status_rank, collect_app, !has_app.
  destruct (has (collect_statuses l) "ERROR"), (has (collect_statuses l) "FAIL"),
    (has (collect_statuses l) "PASS"), (has (collect_statuses l') "ERROR"),
    (has (collect_statuses l') "FAIL"), (has (collect_statuses l') "PASS");
    reflexivity.
Qed.

Lemma priority_cases (f : field) :
  (priority f = 0 /\ f <> FStr "ERROR" /\ f <> FStr "FAIL" /\ f <> FStr "PASS")
  \/ (priority f = 1 /\ f = FStr "PASS")
  \/ (priority f = 2 /\ f = FStr "FAIL")
  \/ (priority f = 3 /\ f = FStr "ERROR").
Proof.
  destruct f as [| |s];
    try (left; split; [reflexivity|]; split; [|split]; discriminate).
  unfold priority, field_is.
  destruct (str_eqb s "ERROR") eqn:E3.
  { apply str_eqb_eq in E3. subst. auto 6. }
  destruct (str_eqb s "FAIL") eqn:E2.
  { apply str_eqb_eq in E2. subst. auto 6. }
  destruct (str_eqb s "PASS") eqn:E1.
  { apply str_eqb_eq in E1. subst. auto 6. }
  left. split; [reflexivity|].
  repeat split; intros H; injection H as ->; discriminate.
Qed.

Lemma group_loop_cons (x : entry) (rest : list entry) (g : field) :
  group_loop visit (x :: rest) g =
  (fst (group_loop visit rest
          (if priority (fst (visit x)) >? priority g then fst (visit x) else g)),
   snd (visit x) ::
   snd (group_loop visit rest
          (if priority (fst (visit x)) >? priority g then fst (visit x) else g))).
Proof.
  cbn [group_loop]. destruct (visit x) as [sx x']. cbn [fst snd].
  destruct (group_loop visit rest _) as [final rest']. reflexivity.
Qed.

Lemma visit_group (c s : field) (l : list entry) :
  field_is c "GROUP" = true ->
  visit (Entry c s (Some l)) =
  (fst (group_loop visit l (FStr "NONE")),
   Entry c (fst (group_loop visit l (FStr "NONE")))
     (Some (snd (group_loop visit l (FStr "NONE"))))).
Proof.
  intros H. cbn [visit]. rewrite H.
  destruct (group_loop visit l (FStr "NONE")) as [s' l']. reflexivity.
Qed.

Lemma visit_leaf (c s : field) (ch : option (list entry)) :
  field_is c "GROUP" = false ->
  visit (Entry c s ch) = (status_or_none s, Entry c s ch).
Proof. intros H. cbn [visit]. rewrite H. reflexivity. Qed.

Lemma visit_childless (c s : field) :
  field_is c "GROUP" = true ->
  visit (Entry c s None) = (FStr "NONE", Entry c (FStr "NONE") None).
Proof. intros H. cbn [visit]. rewrite H. reflexivity. Qed.

Lemma group_not_leaf (c : field) :
  field_is c "GROUP" = true ->
  field_is c "STEP" || field_is c "TABLE" || field_is c "CHART" = false.
Proof.
  destruct c as [| |n]; try discriminate. cbn [field_is]. intros H.
  apply str_eqb_eq in H. subst n. reflexivity.
Qed.

(** What the loop returns is the start value or something of a higher
    priority. *)
Lemma group_loop_value (l : list entry) (g : field) :
  fst (group_loop visit l g) = g
  \/ priority g < priority (fst (group_loop visit l g)).
Proof.
  revert g. induction l as [|x rest IH]; intros g.
  - left. reflexivity.
  - rewrite group_loop_cons. cbn [fst].
    destruct (priority (fst (visit x)) >? priority g) eqn:E.
    + apply Z.gtb_lt in E.
      destruct (IH (fst (visit x))) as [-> | H]; right; lia.
    + apply IH.
Qed.

Lemma group_loop_bound (l : list entry) :
  Forall bounded l ->
  forall g,
    priority g <= priority (fst (group_loop visit l g))
    /\ forall f, In f (collect_statuses (snd (group_loop visit l g))) ->
                 priority f <= priority (fst (group_loop visit l g)).
Proof.
  induction 1 as [|x rest Hx _ IH]; intros g.
  - split; [cbn; lia | intros f []].
  - rewrite group_loop_cons. cbn [fst snd].
    set (g1 := if priority (fst (visit x)) >? priority g then fst (visit x) else g).
    destruct (IH g1) as [H1 H2].
    assert (Hg : priority g <= priority g1 /\ priority (fst (visit x)) <= priority g1).
    { unfold g1. destruct (priority (fst (visit x)) >? priority g) eqn:E.
      - apply Z.gtb_lt in E. lia.
      - rewrite Z.gtb_ltb in E. apply Z.ltb_ge in E. lia. }
    split; [lia|].
    intros f Hf. unfold collect_statuses in Hf. cbn [flat_map] in Hf.
    apply in_app_or in Hf. destruct Hf as [Hf | Hf].
    + specialize (Hx f Hf). lia.
    + apply H2, Hf.
Qed.

Lemma visit_bounded (e : entry) : bounded e.
Proof.
  induction e as [c s | c s l IH] using entry_induct; unfold bounded.
  - destruct (field_is c "GROUP") eqn:Ec.
    + rewrite visit_childless by exact Ec. cbn [fst snd collect_entry].
      rewrite Ec, (group_not_leaf c Ec). cbn. intros f [].
    + rewrite visit_leaf by exact Ec. cbn [fst snd collect_entry].
      rewrite Ec. cbn [andb].
      destruct (field_is c "STEP" || field_is c "TABLE" || field_is c "CHART").
      * intros f [<- | []]. lia.
      * intros f [].
  - destruct (field_is c "GROUP") eqn:Ec.
    + rewrite visit_group by exact Ec. cbn [fst snd collect_entry].
      rewrite Ec, (group_not_leaf c Ec). cbn [andb].
      destruct (group_loop_bound l IH (FStr "NONE")) as [_ H].
      destruct (counts (fst (group_loop visit l (FStr "NONE")))).
      * intros f [<- | Hf]; [lia | apply H, Hf].
      * intros f [].
    + rewrite visit_leaf by exact Ec. cbn [fst snd collect_entry].
      rewrite Ec. cbn [andb].
      destruct (field_is c "STEP" || field_is c "TABLE" || field_is c "CHART").
      * intros f [<- | []]. lia.
      * intros f [].
Qed.

Lemma group_status_values (children : list entry) :
  In (fst (get_group_status children))
     [FStr "NONE"; FStr "PASS"; FStr "FAIL"; FStr "ERROR"].
Proof.
  unfold get_group_status.
  destruct (group_loop_value children (FStr "NONE")) as [-> | H].
  - left. reflexivity.
  - change (priority (FStr "NONE")) with 0 in H.
    destruct (priority_cases (fst (group_loop visit children (FStr "NONE"))))
      as [[E _] | [[_ ->] | [[_ ->] | [_ ->]]]]; cbn; auto; lia.
Qed.

Lemma has_bound (l : list field) (g : field) (w : str) :
  (forall f, In f l -> priority f <= priority g) ->
  has l w = true -> priority (FStr w) <= priority g.
Proof.
  intros H Hw. apply existsb_exists in Hw. destruct Hw as [f [Hin Hf]].
  destruct f as [| |n]; try discriminate. cbn [field_is] in Hf.
  apply str_eqb_eq in Hf. subst n. apply H, Hin.
Qed.

End ReportFacts.

Import ReportFacts.

(** X19: when a group is closed its status becomes the one
    [get_group_status] computes from its children: this is one of NONE,
    PASS, FAIL and ERROR, and [get_case_status] reads exactly this status
    from a report that consists of the closed group: no status below the
    group outranks the one stored in it. *)
Theorem closed_group_status (children : list Report.entry) :
  exists w : str,
    fst (Report.get_group_status children) = Report.FStr w
    /\ In w [lit "NONE"; lit "PASS"; lit "FAIL"; lit "ERROR"]
    /\ Report.get_case_status
         [Report.Entry (Report.FStr "GROUP")
            (fst (Report.get_group_status children))
            (Some (snd (Report.get_group_status children)))] = w.
Proof.
  pose proof (group_status_values children) as Hv.
  assert (Hb : forall f, In f (Report.collect_statuses
                                 (snd (Report.get_group_status children))) ->
                         Report.priority f
                         <= Report.priority (fst (Report.get_group_status children))).
  { apply group_loop_bound. apply Forall_forall. intros x _. apply visit_bounded. }
  rewrite case_status_rank.
  unfold Report.collect_statuses at 1 2 3. cbn [flat_map Report.collect_entry].
  rewrite app_nil_r.
  fold (Report.collect_statuses (snd (Report.get_group_status children))).
  set (S := fst (Report.get_group_status children)) in *.
  set (L := Report.collect_statuses (snd (Report.get_group_status children))) in *.
  pose proof (has_bound L S "ERROR" Hb) as HE.
  pose proof (has_bound L S "FAIL" Hb) as HF.
  clearbody S L.
  destruct Hv as [<- | [<- | [<- | [<- | []]]]].
  - exists (lit "NONE"). repeat split; cbn; auto.
  - exists (lit "PASS"). split; [reflexivity|]. split; [cbn; auto|].
    change (Report.field_is (Report.FStr "GROUP") "GROUP"
            && Report.counts (Report.FStr "PASS")) with true.
    cbv beta iota. unfold Report.has. cbn [existsb Report.field_is].
    fold (Report.has L "ERROR"). fold (Report.has L "FAIL").
    change (str_eqb "PASS" "ERROR") with false.
    change (str_eqb "PASS" "FAIL") with false.
    change (str_eqb "PASS" "PASS") with true. cbn [orb].
    destruct (Report.has L "ERROR"); [specialize (HE eq_refl); cbn in HE; lia|].
    destruct (Report.has L "FAIL"); [specialize (HF eq_refl); cbn in HF; lia|].
    reflexivity.
  - exists (lit "FAIL"). split; [reflexivity|]. split; [cbn; auto|].
    change (Report.field_is (Report.FStr "GROUP") "GROUP"
            && Report.counts (Report.FStr "FAIL")) with true.
    cbv beta iota. unfold Report.has. cbn [existsb Report.field_is].
    fold (Report.has L "ERROR").
    change (str_eqb "FAIL" "ERROR") with false.
    change (str_eqb "FAIL" "FAIL") with true. cbn [orb].
    destruct (Report.has L "ERROR"); [specialize (HE eq_refl); cbn in HE; lia|].
    reflexivity.
  - exists (lit "ERROR"). split; [reflexivity|]. split; [cbn; auto|].
    reflexivity.
Qed.

(** X20: the status of a case is the worst of the statuses of its lines
    read one at a time, in the order ERROR, FAIL, PASS, NONE; a report
    without lines has the status NONE. *)
Theorem case_status_worst_line (lines : list Report.entry) :
  Report.get_case_status lines =
  fold_right worst (lit "NONE") (map (fun e => Report.get_case_status [e]) lines).
Proof.
  induction lines as [|e l IH]; [reflexivity|].
  change (e :: l) with ([e] ++ l).
  rewrite case_status_append, IH. reflexivity.
Qed.

(** X21: a group whose stored status is "NONE", [None] or missing, as the
    status of a group is while the group is open, adds nothing to the
    status of the case, whatever its children are: a failed step inside it
    is not seen. *)
Theorem open_group_hidden (lines : list Report.entry) (status : Report.field)
  (children : option (list Report.entry)) :
  Report.counts status = false ->
  Report.get_case_status
    (lines ++ [Report.Entry (Report.FStr "GROUP") status children]) =
  Report.get_case_status lines.
Proof.
  intros H. rewrite !case_status_rank, collect_app.
  unfold Report.collect_statuses at 2 4 6.
  cbn [flat_map Report.collect_entry]. rewrite H.
  change (Report.field_is (Report.FStr "GROUP") "GROUP" && false) with false.
  change (Report.field_is (Report.FStr "GROUP") "STEP"
          || Report.field_is (Report.FStr "GROUP") "TABLE"
          || Report.field_is (Report.FStr "GROUP") "CHART") with false.
  cbv iota. cbn [app]. rewrite app_nil_r. reflexivity.
Qed.

Lemma open_group_hidden_witness :
  Report.get_case_status
    ([Report.step_entry (Report.FStr "PASS")] ++
     [Report.Entry (Report.FStr "GROUP") (Report.FStr "NONE")
        (Some [Report.step_entry (Report.FStr "FAIL")])]) =
  Report.get_case_status [Report.step_entry (Report.FStr "PASS")].
Proof.
  apply (open_group_hidden [Report.step_entry (Report.FStr "PASS")]
           (Report.FStr "NONE") (Some [Report.step_entry (Report.FStr "FAIL")])).
  reflexivity.
Defined.

(** X22: when the classifier returns with no group open, the group it adds
    to the report counts with its verdict: the status of the case becomes
    the worse of the status before the call and the verdict, so a verdict
    FAIL makes a passing case fail, and the verdict NONE of an expectation
    "none" changes nothing. *)
Theorem verdict_case_status (did actual expected : resp) (name : option str)
  (r r' : Sink.report) (v : DiagResponse) :
  evaluate_diagnostic_expected_response did actual expected name (Some r)
  = (Some r', Ok v) ->
  Report.get_case_status (Report.lines_of r') =
  worst (Report.get_case_status (Report.lines_of r)) (dr_result v).
Proof.
  intros H.
  destruct (returned_record _ _ _ _ _ _ _ H) as (r0 & E0 & E1).
  injection E0 as <-. injection E1 as ->.
  apply returned_verdict in H. destruct H as (db & ab & eb & _ & _ & _ & H).
  apply classify_outcomes in H.
  unfold Report.lines_of. rewrite map_app. cbn [map Report.entry_of].
  rewrite case_status_append. f_equal.
  destruct H as [(_ & _ & ->) | (_ & _ & [-> | ->])]; reflexivity.
Qed.

Lemma verdict_case_status_witness :
  Report.get_case_status
    (Report.lines_of [Sink.Diagnostic "0x22" "0x22" "0x62" "ln(0)" "PASS"]) =
  worst (Report.get_case_status (Report.lines_of [])) (lit "PASS").
Proof.
  apply (verdict_case_status (RInt 34) (RList [IInt 98]) (RStr "ln(0)") None []
           [Sink.Diagnostic "0x22" "0x22" "0x62" "ln(0)" "PASS"]
           (mkDiagResponse "0x22" "0x22" "0x62" "ln(0)" "ln" "PASS" empty_str)).
  reflexivity.
Defined.

(** * Properties of the suite statuses *)

Module SuiteFacts.

Import Suite.

Lemma count_pos (w : str) (l : list test_case) :
  (0 <? count w l)%nat = existsb (fun t => str_eqb (status_upper empty_str t) w) l.
Proof.
  unfold count. induction l as [|t l IH]; [reflexivity|].
  cbn [filter existsb]. destruct (str_eqb (status_upper empty_str t) w); [reflexivity|].
  exact IH.
Qed.

Lemma count_all (w : str) (l : list test_case) :
  (count w l =? length l)%nat = forallb (fun t => str_eqb (status_upper empty_str t) w) l.
Proof.
  unfold count.
  assert (Hle : forall l', (length (filter (fun t => str_eqb (status_upper empty_str t) w) l')
                            <= length l')%nat).
  { intros l'. apply filter_length_le. }
  induction l as [|t l IH]; [reflexivity|].
  cbn [filter forallb]. destruct (str_eqb (status_upper empty_str t) w); cbn [andb length].
  - exact IH.
  - apply Nat.eqb_neq. specialize (Hle l). lia.
Qed.

Lemma count_none (w : str) (l : list test_case) :
  existsb (fun t => str_eqb (status_upper empty_str t) w) l = false -> count w l = 0%nat.
Proof.
  intros H. rewrite <- count_pos in H. apply Nat.ltb_ge in H. lia.
Qed.

(** A missing status counts neither as ERROR nor as FAIL, whatever the
    default. *)
Lemma default_irrelevant (w : str) (t : test_case) :
  w = lit "ERROR" \/ w = lit "FAIL" ->
  str_eqb (status_upper empty_str t) w = str_eqb (status_upper "NONE" t) w.
Proof.
  unfold status_upper. destruct (tc_status t) as [s|]; [reflexivity|].
  intros [-> | ->]; reflexivity.
Qed.

Lemma exists_default (w : str) (l : list test_case) :
  w = lit "ERROR" \/ w = lit "FAIL" ->
  existsb (fun t => str_eqb (status_upper empty_str t) w) l =
  existsb (fun s => str_eqb s w) (map (status_upper "NONE") l).
Proof.
  intros H. induction l as [|t l IH]; [reflexivity|].
  cbn [existsb map]. rewrite IH, (default_irrelevant w t H). reflexivity.
Qed.

Lemma all_none_filter (l : list str) :
  forallb (fun s => str_eqb s "NONE") l = true ->
  filter (fun s => negb (str_eqb s "NONE")) l = [].
Proof.
  induction l as [|s l IH]; [reflexivity|].
  cbn [forallb filter]. intros H. apply andb_true_iff in H. destruct H as [Hs Hl].
  rewrite Hs. cbn [negb]. apply IH, Hl.
Qed.

Lemma pass_or_none (l : list str) :
  forallb (fun s => str_eqb s "PASS") (filter (fun s => negb (str_eqb s "NONE")) l) =
  forallb (fun s => str_eqb s "PASS" || str_eqb s "NONE") l.
Proof.
  induction l as [|s l IH]; [reflexivity|].
  cbn [filter forallb]. destruct (str_eqb s "NONE") eqn:En; cbn [negb].
  - rewrite orb_true_r. exact IH.
  - cbn [forallb]. rewrite IH, orb_false_r. reflexivity.
Qed.

End SuiteFacts.

Import SuiteFacts.

(** X23: [get_overall_report_status] never answers "NONE": when every
    status is NONE, and when no test has completed, the test before it
    already answers "PASS".  The answer is "PASS" exactly when there is no
    status other than PASS and NONE, and one of ERROR, FAIL, PASS and
    PARTIAL in every case. *)
Theorem overall_report_status_values (completed_tests : list test_case) :
  In (Suite.get_overall_report_status completed_tests)
     [lit "ERROR"; lit "FAIL"; lit "PASS"; lit "PARTIAL"]
  /\ (Suite.get_overall_report_status completed_tests = lit "PASS" <->
      Forall (fun t => Suite.status_upper "NONE" t = lit "PASS"
                       \/ Suite.status_upper "NONE" t = lit "NONE")
             completed_tests).
Proof.
  unfold Suite.get_overall_report_status.
  set (statuses := map (Suite.status_upper "NONE") completed_tests).
  assert (HF : forallb (fun s => str_eqb s "PASS" || str_eqb s "NONE") statuses = true
               <-> Forall (fun t => Suite.status_upper "NONE" t = lit "PASS"
                                    \/ Suite.status_upper "NONE" t = lit "NONE")
                          completed_tests).
  { unfold statuses. rewrite forallb_forall, Forall_forall. split.
    - intros H t Ht. specialize (H _ (in_map _ _ _ Ht)).
      apply orb_true_iff in H. rewrite !str_eqb_eq in H. exact H.
    - intros H s Hs. apply in_map_iff in Hs. destruct Hs as (t & <- & Ht).
      apply orb_true_iff. rewrite !str_eqb_eq. apply H, Ht. }
  assert (HX : forall w, w = lit "ERROR" \/ w = lit "FAIL" ->
               existsb (fun s => str_eqb s w) statuses = true ->
               forallb (fun s => str_eqb s "PASS" || str_eqb s "NONE") statuses = false).
  { intros w Hw H. apply existsb_exists in H. destruct H as (s & Hs & E).
    apply str_eqb_eq in E. subst s.
    destruct (forallb _ statuses) eqn:Ef; [|reflexivity].
    rewrite forallb_forall in Ef. specialize (Ef _ Hs).
    destruct Hw as [-> | ->]; discriminate Ef. }
  destruct (existsb (fun s => str_eqb s "ERROR") statuses) eqn:E3.
  { split; [cbn; auto|]. rewrite <- HF, (HX "ERROR") by auto.
    split; discriminate. }
  destruct (existsb (fun s => str_eqb s "FAIL") statuses) eqn:E2.
  { split; [cbn; auto|]. rewrite <- HF, (HX "FAIL") by auto.
    split; discriminate. }
  rewrite pass_or_none, <- HF.
  destruct (forallb (fun s => str_eqb s "PASS" || str_eqb s "NONE") statuses) eqn:E1.
  { split; [cbn; auto|]. split; reflexivity. }
  destruct (forallb (fun s => str_eqb s "NONE") statuses) eqn:E0.
  { exfalso. rewrite <- pass_or_none, (all_none_filter _ E0) in E1. discriminate E1. }
  split; [cbn; auto|]. split; discriminate.
Qed.

(** X24: the entry "overall" of [fill_stats] is decided by which statuses
    occur: ERROR if one is ERROR, else FAIL if one is FAIL, else PASS if
    one is PASS, whatever the others are, so that the test
    [pass_count == runnable] never decides; else NONE when all are NONE,
    as for no test at all, and PARTIAL otherwise. *)
Theorem fill_stats_overall_cases (test_cases : list test_case) :
  Suite.fill_stats_overall test_cases =
  let occurs w :=
    existsb (fun t => str_eqb (Suite.status_upper empty_str t) w) test_cases in
  if occurs (lit "ERROR") then lit "ERROR"
  else if occurs (lit "FAIL") then lit "FAIL"
  else if occurs (lit "PASS") then lit "PASS"
  else if forallb (fun t => str_eqb (Suite.status_upper empty_str t) "NONE") test_cases
       then lit "NONE"
  else lit "PARTIAL".
Proof.
  unfold Suite.fill_stats_overall. cbv zeta.
  rewrite !count_pos, count_all.
  destruct (existsb _ test_cases) eqn:E3; [reflexivity|].
  destruct (existsb (fun t => str_eqb (Suite.status_upper empty_str t) "FAIL") test_cases)
    eqn:E2; [reflexivity|].
  rewrite (count_none _ _ E3), (count_none _ _ E2), !Nat.add_0_r, Nat.eqb_refl.
  rewrite andb_true_r. reflexivity.
Qed.

(** X25: the two suite statuses agree on ERROR and on FAIL, a missing
    status counting for neither, and differ on a suite whose statuses are
    all NONE: "NONE" for [fill_stats], "PASS" for
    [get_overall_report_status]. *)
Theorem suite_statuses_compared (test_cases : list test_case) :
  (Suite.fill_stats_overall test_cases = lit "ERROR" <->
   Suite.get_overall_report_status test_cases = lit "ERROR")
  /\ (Suite.fill_stats_overall test_cases = lit "FAIL" <->
      Suite.get_overall_report_status test_cases = lit "FAIL")
  /\ (Forall (fun t => Suite.status_upper empty_str t = lit "NONE") test_cases ->
      Suite.fill_stats_overall test_cases = lit "NONE"
      /\ Suite.get_overall_report_status test_cases = lit "PASS").
Proof.
  assert (EF : Suite.fill_stats_overall test_cases =
               if existsb (fun s => str_eqb s "ERROR")
                    (map (Suite.status_upper "NONE") test_cases) then lit "ERROR"
               else if existsb (fun s => str_eqb s "FAIL")
                         (map (Suite.status_upper "NONE") test_cases) then lit "FAIL"
               else if existsb (fun t => str_eqb (Suite.status_upper empty_str t) "PASS")
                         test_cases then lit "PASS"
               else if forallb (fun t => str_eqb (Suite.status_upper empty_str t) "NONE")
                         test_cases then lit "NONE"
               else lit "PARTIAL").
  { unfold Suite.fill_stats_overall. cbv zeta. rewrite !count_pos, count_all.
    rewrite <- !exists_default by auto.
    destruct (existsb _ test_cases) eqn:E3; [reflexivity|].
    destruct (existsb (fun t => str_eqb (Suite.status_upper empty_str t) "FAIL") test_cases)
      eqn:E2; [reflexivity|].
    rewrite (count_none _ _ E3), (count_none _ _ E2), !Nat.add_0_r, Nat.eqb_refl.
    rewrite andb_true_r. reflexivity. }
  rewrite EF. clear EF. unfold Suite.get_overall_report_status.
  destruct (existsb (fun s => str_eqb s "ERROR") _) eqn:E3.
  { split; [split; reflexivity|]. split; [split; discriminate|].
    intros H. exfalso. apply existsb_exists in E3. destruct E3 as (s & Hs & E).
    apply in_map_iff in Hs. destruct Hs as (t & <- & Ht).
    rewrite Forall_forall in H. specialize (H t Ht).
    rewrite <- default_irrelevant in E by auto. rewrite H in E. discriminate E. }
  destruct (existsb (fun s => str_eqb s "FAIL") _) eqn:E2.
  { split; [split; discriminate|]. split; [split; reflexivity|].
    intros H. exfalso. apply existsb_exists in E2. destruct E2 as (s & Hs & E).
    apply in_map_iff in Hs. destruct Hs as (t & <- & Ht).
    rewrite Forall_forall in H. specialize (H t Ht).
    rewrite <- default_irrelevant in E by auto. rewrite H in E. discriminate E. }
  split.
  { repeat match goal with |- context [if ?b then _ else _] => destruct b end;
      split; discriminate. }
  split.
  { repeat match goal with |- context [if ?b then _ else _] => destruct b end;
      split; discriminate. }
  intros H.
  assert (H1 : existsb (fun t => str_eqb (Suite.status_upper empty_str t) "PASS")
                 test_cases = false).
  { destruct (existsb _ test_cases) eqn:E; [|reflexivity].
    apply existsb_exists in E. destruct E as (t & Ht & E).
    rewrite Forall_forall in H. rewrite (H t Ht) in E. discriminate E. }
  assert (H0 : forallb (fun t => str_eqb (Suite.status_upper empty_str t) "NONE")
                 test_cases = true).
  { apply forallb_forall. intros t Ht. rewrite Forall_forall in H.
    rewrite (H t Ht). reflexivity. }
  rewrite H1, H0. split; [reflexivity|].
  rewrite pass_or_none.
  replace (forallb _ (map (Suite.status_upper "NONE") test_cases)) with true; [reflexivity|].
  symmetry. apply forallb_forall. intros s Hs. apply in_map_iff in Hs.
  destruct Hs as (t & <- & Ht). rewrite Forall_forall in H. specialize (H t Ht).
  apply orb_true_iff. right. apply str_eqb_eq.
  unfold Suite.status_upper in *. destruct (tc_status t) as [s|]; [exact H|discriminate H].
Qed.

Lemma suite_statuses_compared_witness :
  Suite.fill_stats_overall [mkTestCase (Some (lit "t")) (Some (lit "none"))] = lit "NONE"
  /\ Suite.get_overall_report_status [mkTestCase (Some (lit "t")) (Some (lit "none"))]
     = lit "PASS".
Proof.
  apply (suite_statuses_compared [mkTestCase (Some (lit "t")) (Some (lit "none"))]).
  repeat constructor.
Defined.

Lemma prep_not_deinit (t : test_case) :
  Suite.is_prep t = true -> Suite.is_deinit t = false.
Proof.
  unfold Suite.is_prep, Suite.is_deinit. intros H.
  apply str_eqb_eq in H. rewrite H. reflexivity.
Qed.

Lemma filter_filter_const {A : Type} (f g : A -> bool) (b : bool) (l : list A) :
  (forall x, g x = true -> f x = b) ->
  filter f (filter g l) = if b then filter g l else [].
Proof.
  intros H. induction l as [|x l IH]; [destruct b; reflexivity|].
  cbn [filter]. destruct (g x) eqn:Eg; [|exact IH].
  cbn [filter]. rewrite (H x Eg), IH. destruct b; reflexivity.
Qed.

Lemma filter_subseq {A : Type} (f : A -> bool) (l : list A) : subseq (filter f l) l.
Proof.
  induction l as [|x l IH]; [constructor|].
  cbn [filter]. destruct (f x); constructor; exact IH.
Qed.

(** X26: [reorder_cases] loses and adds no test: its result is a
    permutation of the tests, with those named "testpreparation", in any
    letter case, first and those named "testdeinitialization" last, each
    of the three parts in the order the tests came in; reordering again
    changes nothing. *)
Theorem reorder_cases_spec (test_cases : list test_case) :
  Permutation (Suite.reorder_cases test_cases) test_cases
  /\ (exists prep main deinit,
        Suite.reorder_cases test_cases = prep ++ main ++ deinit
        /\ Forall (fun t => Suite.name_lower t = lit "testpreparation") prep
        /\ Forall (fun t => Suite.name_lower t <> lit "testpreparation"
                            /\ Suite.name_lower t <> lit "testdeinitialization") main
        /\ Forall (fun t => Suite.name_lower t = lit "testdeinitialization") deinit
        /\ subseq prep test_cases /\ subseq main test_cases
        /\ subseq deinit test_cases)
  /\ Suite.reorder_cases (Suite.reorder_cases test_cases) = Suite.reorder_cases test_cases.
Proof.
  split; [|split].
  - unfold Suite.reorder_cases.
    induction test_cases as [|t l IH]; [constructor|].
    cbn [filter]. destruct (Suite.is_prep t) eqn:Ep.
    + rewrite (prep_not_deinit t Ep). cbn [orb negb app].
      apply perm_skip, IH.
    + destruct (Suite.is_deinit t) eqn:Ed; cbn [orb negb].
      * rewrite app_assoc. rewrite app_assoc in IH.
        apply Permutation_sym, Permutation_cons_app, Permutation_sym, IH.
      * apply Permutation_sym, Permutation_cons_app, Permutation_sym, IH.
  - unfold Suite.reorder_cases. eexists _, _, _. split; [reflexivity|].
    repeat split; try apply filter_subseq;
      apply Forall_forall; intros t Ht; apply filter_In in Ht;
      destruct Ht as [_ Ht].
    + apply str_eqb_eq, Ht.
    + apply negb_true_iff, orb_false_iff in Ht. destruct Ht as [Hp Hd].
      split; intros E; apply str_eqb_eq in E.
      * unfold Suite.is_prep in Hp. congruence.
      * unfold Suite.is_deinit in Hd. congruence.
    + apply str_eqb_eq, Ht.
  - unfold Suite.reorder_cases. rewrite !filter_app.
    set (m := fun t => negb (Suite.is_prep t || Suite.is_deinit t)).
    rewrite (filter_filter_const Suite.is_prep Suite.is_prep true) by auto.
    rewrite (filter_filter_const Suite.is_prep m false).
    2:{ unfold m. intros x Hx. apply negb_true_iff, orb_false_iff in Hx. apply Hx. }
    rewrite (filter_filter_const Suite.is_prep Suite.is_deinit false).
    2:{ intros x Hx. destruct (Suite.is_prep x) eqn:E; [|reflexivity].
        rewrite (prep_not_deinit x E) in Hx. discriminate Hx. }
    rewrite (filter_filter_const Suite.is_deinit Suite.is_prep false)
      by (apply prep_not_deinit).
    rewrite (filter_filter_const Suite.is_deinit m false).
    2:{ unfold m. intros x Hx. apply negb_true_iff, orb_false_iff in Hx. apply Hx. }
    rewrite (filter_filter_const Suite.is_deinit Suite.is_deinit true) by auto.
    rewrite (filter_filter_const m Suite.is_prep false).
    2:{ unfold m. intros x Hx. rewrite Hx. reflexivity. }
    rewrite (filter_filter_const m m true) by auto.
    rewrite (filter_filter_const m Suite.is_deinit false).
    2:{ unfold m. intros x Hx. rewrite Hx, orb_true_r. reflexivity. }
    cbn [app]. rewrite !app_nil_r. reflexivity.
Qed.

(** * Properties of the table statuses *)

Module TableFacts.

Import Report.

Lemma scan_cells_spec (l : list str) (has_pass : bool) :
  scan_cells l has_pass =
  if existsb is_fail l then lit "FAIL"
  else if has_pass || existsb is_pass l then lit "PASS"
  else lit "NONE".
Proof.
  revert has_pass. induction l as [|c l IH]; intros has_pass.
  - cbn. rewrite orb_false_r. reflexivity.
  - cbn [scan_cells existsb]. cbv zeta. fold (is_fail c). fold (is_pass c).
    destruct (is_fail c); [reflexivity|]. cbn [orb].
    rewrite IH, orb_assoc. reflexivity.
Qed.

Lemma existsb_perm {A : Type} (f : A -> bool) (l l' : list A) :
  Permutation l l' -> existsb f l = existsb f l'.
Proof.
  induction 1 as [|x l l' _ IH|x y l|l l' l'' _ IH1 _ IH2]; cbn [existsb].
  - reflexivity.
  - rewrite IH. reflexivity.
  - destruct (f x), (f y); reflexivity.
  - congruence.
Qed.

Lemma result_cells_perm (idx : nat) (d d' : list (list str)) :
  Permutation d d' -> Permutation (result_cells idx d) (result_cells idx d').
Proof.
  induction 1 as [|x l l' _ IH|x y l|l l' l'' _ IH1 _ IH2]; cbn [result_cells].
  - constructor.
  - destruct (nth_error x idx); [apply perm_skip|]; exact IH.
  - destruct (nth_error x idx), (nth_error y idx);
      try reflexivity. apply perm_swap.
  - etransitivity; eassumption.
Qed.

Lemma concat_perm (d d' : list (list str)) :
  Permutation d d' -> Permutation (concat d) (concat d').
Proof.
  induction 1 as [|x l l' _ IH|x y l|l l' l'' _ IH1 _ IH2]; cbn [concat].
  - constructor.
  - apply Permutation_app_head, IH.
  - rewrite !app_assoc. apply Permutation_app_tail, Permutation_app_comm.
  - etransitivity; eassumption.
Qed.

Lemma table_status_cells (h : list str) (d : list (list str)) :
  table_status h d =
  if existsb is_fail (cells_read h d) then lit "FAIL"
  else if existsb is_pass (cells_read h d) then lit "PASS"
  else lit "NONE".
Proof.
  unfold table_status, cells_read.
  destruct (Sink.result_idx h); apply scan_cells_spec.
Qed.

Lemma cells_read_perm (h : list str) (d d' : list (list str)) :
  Permutation d d' -> Permutation (cells_read h d) (cells_read h d').
Proof.
  intros H. unfold cells_read. destruct (Sink.result_idx h).
  - apply result_cells_perm, H.
  - apply concat_perm, H.
Qed.

Lemma table_status_perm (h : list str) (d d' : list (list str)) :
  Permutation d d' -> table_status h d = table_status h d'.
Proof.
  intros H. rewrite !table_status_cells.
  rewrite (existsb_perm is_fail _ _ (cells_read_perm h d d' H)).
  rewrite (existsb_perm is_pass _ _ (cells_read_perm h d d' H)).
  reflexivity.
Qed.

Lemma keys_some (idx : nat) (d : list (list str)) (ks : list (Z * list str)) :
  Sink.keys idx d = Some ks ->
  map snd ks = d /\ Forall (fun r => (idx < length r)%nat) d.
Proof.
  revert ks. induction d as [|r d IH]; intros ks H.
  - injection H as <-. split; constructor.
  - cbn [Sink.keys] in H. destruct (nth_error r idx) as [c|] eqn:En; [|discriminate H].
    destruct (Sink.keys idx d) as [ks'|]; [|discriminate H].
    injection H as <-. destruct (IH ks' eq_refl) as [E F].
    cbn [map snd]. rewrite E. split; [reflexivity|].
    constructor; [|exact F]. apply nth_error_Some. congruence.
Qed.

Lemma keys_none (idx : nat) (d : list (list str)) :
  Sink.keys idx d = None -> exists r, In r d /\ (length r <= idx)%nat.
Proof.
  induction d as [|r d IH]; [discriminate|].
  cbn [Sink.keys]. destruct (nth_error r idx) as [c|] eqn:En.
  - destruct (Sink.keys idx d) as [ks'|]; [discriminate|].
    intros _. destruct (IH eq_refl) as (r' & Hin & Hl).
    exists r'. split; [right; exact Hin | exact Hl].
  - intros _. exists r. split; [left; reflexivity|].
    apply nth_error_None, En.
Qed.

Lemma sorted_data_perm (h : list str) (d sorted : list (list str)) :
  Sink.sorted_data h d = Ok sorted -> Permutation sorted d.
Proof.
  unfold Sink.sorted_data. destruct (Sink.result_idx h) as [idx|].
  - destruct (Sink.keys idx d) as [ks|] eqn:Ek; [|discriminate].
    intros H. injection H as <-. destruct (keys_some idx d ks Ek) as [E _].
    rewrite <- E. apply Permutation_map, sort_perm.
  - intros H. injection H as <-. reflexivity.
Qed.

End TableFacts.

Import TableFacts.

(** X27: [get_table_status] on a table of strings.  It raises exactly when
    a header reads "result" and a row is too short to have a cell in that
    column: the sort raises [IndexError], so the later test of the row's
    length never fails.  Otherwise it leaves the rows permuted, and the
    status does not depend on their order: FAIL if a cell it reads is
    "fail" in any letter case and with any white space around it, else
    PASS if one is "pass", else NONE, as for a table without rows. *)
Theorem get_table_status_spec (column_header : list str) (data : list (list str)) :
  match Report.get_table_status column_header data with
  | inl e =>
      e = Sink.index_error /\
      exists idx r, Sink.result_idx column_header = Some idx /\
                    In r data /\ (length r <= idx)%nat
  | inr (st, data') =>
      Permutation data' data
      /\ (forall idx, Sink.result_idx column_header = Some idx ->
                      Forall (fun r => (idx < length r)%nat) data)
      /\ st = (if existsb is_fail (cells_read column_header data) then lit "FAIL"
               else if existsb is_pass (cells_read column_header data) then lit "PASS"
               else lit "NONE")
  end.
Proof.
  unfold Report.get_table_status.
  destruct (Sink.sorted_data column_header data) as [e|sorted] eqn:Es; cbn [rbind].
  - unfold Sink.sorted_data in Es.
    destruct (Sink.result_idx column_header) as [idx|]; [|discriminate Es].
    destruct (Sink.keys idx data) as [ks|] eqn:Ek; [discriminate Es|].
    injection Es as <-. split; [reflexivity|].
    destruct (keys_none idx data Ek) as (r & Hin & Hl). exists idx, r. auto.
  - change (Ok (Report.table_status column_header sorted, sorted))
      with (@inr exn _ (Report.table_status column_header sorted, sorted)).
    cbv iota beta. pose proof (sorted_data_perm _ _ _ Es) as Hp.
    split; [exact Hp|]. split.
    + intros idx Hi. unfold Sink.sorted_data in Es. rewrite Hi in Es.
      destruct (Sink.keys idx data) as [ks|] eqn:Ek; [|discriminate Es].
      apply (keys_some idx data ks Ek).
    + rewrite (table_status_perm _ _ _ Hp). apply table_status_cells.
Qed.

(** * The DTC block in the status of the case *)

Module BlockFacts.

Lemma lstrip_snoc (l : str) (c : ascii) :
  Py.isspace c = false -> exists t, Py.lstrip (l ++ [c]) = t ++ [c].
Proof.
  intros Hc. induction l as [|x l IH].
  - exists []. cbn. rewrite Hc. reflexivity.
  - cbn [app Py.lstrip]. destruct (Py.isspace x); [exact IH|].
    exists (x :: l). reflexivity.
Qed.

Lemma strip_head (c : ascii) (s : str) :
  Py.isspace c = false -> exists t, Py.strip (c :: s) = c :: t.
Proof.
  intros Hc. unfold Py.strip. cbn [Py.lstrip]. rewrite Hc. cbn [rev].
  destruct (lstrip_snoc (rev s) c Hc) as (t & ->).
  exists (rev t). rewrite rev_app_distr. reflexivity.
Qed.

(** A cell that starts with one of 0, 1 and * reads as neither verdict. *)
Lemma bit_head_neutral (c : ascii) (s : str) :
  Py.char_in bit_chars c = true ->
  is_fail (c :: s) = false /\ is_pass (c :: s) = false.
Proof.
  intros Hc.
  assert (Hsp : Py.isspace c = false /\ Sink.upper_char c = [c]
                /\ c <> "F"%char /\ c <> "P"%char).
  { unfold Py.char_in, bit_chars in Hc. cbn [lit String.list_ascii_of_string existsb] in Hc.
    repeat (apply orb_true_iff in Hc; destruct Hc as [Hc|Hc]);
      try discriminate Hc; apply Ascii.eqb_eq in Hc; subst c;
      (split; [reflexivity|]; split; [reflexivity|]; split; discriminate). }
  destruct Hsp as (Hsp & Hu & HF & HP).
  destruct (strip_head c s Hsp) as (t & E).
  unfold is_fail, is_pass. rewrite E. unfold Sink.upper. cbn [flat_map]. rewrite Hu.
  cbn [app]. split.
  - destruct (str_eqb _ "FAIL") eqn:Eq; [|reflexivity].
    apply str_eqb_eq in Eq. apply (f_equal (@hd ascii c)) in Eq. cbn in Eq. congruence.
  - destruct (str_eqb _ "PASS") eqn:Eq; [|reflexivity].
    apply str_eqb_eq in Eq. apply (f_equal (@hd ascii c)) in Eq. cbn in Eq. congruence.
Qed.

Lemma parse_to_int_or_hex_head (v : pyval) (s : str) :
  parse_to_int_or_hex v = Ok s ->
  s = STATUS_ANY \/ (exists t, s = "0"%char :: t) \/ Py.chars_subset s bit_chars = true.
Proof.
  assert (Hhex : forall n, exists t, hex2 n = "0"%char :: t).
  { intros n. eexists. reflexivity. }
  unfold parse_to_int_or_hex. destruct v as [|n|v].
  - intros H. bind_ok H. injection H as <-. right. left. apply Hhex.
  - intros H. bind_ok H. injection H as <-. right. left. apply Hhex.
  - destruct (str_eqb (Py.lower v) STATUS_ANY).
    { intros H. injection H as <-. left. reflexivity. }
    destruct (Py.startswith (Py.lower v) "0x").
    { intros H. injection H as <-. right. left. eexists. reflexivity. }
    destruct (Py.startswith (Py.lower v) "0b").
    { intros H. bind_ok H. injection H as <-. right. left. apply Hhex. }
    destruct (Py.chars_subset v bit_chars) eqn:Eb.
    { intros H. injection H as <-. right. right. exact Eb. }
    intros H. bind_ok H. injection H as <-. right. left. apply Hhex.
Qed.

Lemma format_dtc_code_head (v : pyval) (s : str) :
  format_dtc_code v = Ok s -> s = STATUS_ANY \/ exists t, s = "0"%char :: t.
Proof.
  intros H. apply format_dtc_code_shape in H.
  destruct H as [-> | (neg & body & -> & _)]; [left; reflexivity|].
  right. eexists. reflexivity.
Qed.

Lemma neutral_cell (s : str) :
  s = STATUS_ANY \/ (exists t, s = "0"%char :: t) \/ Py.chars_subset s bit_chars = true ->
  is_fail s = false /\ is_pass s = false.
Proof.
  intros [-> | [(t & ->) | H]].
  - split; reflexivity.
  - apply bit_head_neutral. reflexivity.
  - destruct s as [|c s]; [split; reflexivity|].
    apply bit_head_neutral. cbn [Py.chars_subset forallb] in H.
    apply andb_true_iff in H. apply H.
Qed.

Lemma summary_line_neutral (t : rule_type) (rule : DTCInfo) (l : list str) :
  summary_line t rule = Ok l ->
  existsb is_fail l = false /\ existsb is_pass l = false.
Proof.
  unfold summary_line. intros H. bind_ok H. bind_ok H. injection H as <-.
  apply format_dtc_code_head in E.
  apply parse_to_int_or_hex_head in E0.
  destruct (neutral_cell a) as [F1 P1]; [tauto|].
  destruct (neutral_cell a0 E0) as [F2 P2].
  cbn [existsb]. rewrite F1, P1, F2, P2.
  destruct t; split; reflexivity.
Qed.

Lemma summary_lines_neutral (t : rule_type) (rules : list DTCInfo)
  (acc d : list (list str)) :
  summary_lines t rules acc = Ok d ->
  existsb is_fail (concat acc) = false /\ existsb is_pass (concat acc) = false ->
  existsb is_fail (concat d) = false /\ existsb is_pass (concat d) = false.
Proof.
  revert acc. induction rules as [|rule rest IH]; intros acc H Hacc.
  - injection H as <-. exact Hacc.
  - cbn [summary_lines] in H. bind_ok H. apply (IH _ H).
    destruct (summary_line_neutral _ _ _ E) as [F P].
    rewrite concat_app, !existsb_app. cbn [concat]. rewrite app_nil_r.
    destruct Hacc as [-> ->]. rewrite F, P. split; reflexivity.
Qed.

Lemma summary_status (allowed expected muted : list DTCInfo) (t : table) :
  build_dtc_rule_summary_table allowed expected muted = Ok t ->
  Report.table_status (column_header t) (data t) = lit "NONE".
Proof.
  unfold build_dtc_rule_summary_table. intros H.
  bind_ok H. bind_ok H. bind_ok H. injection H as <-. cbn [column_header data].
  rewrite table_status_cells.
  replace (cells_read _ a1) with (concat a1) by reflexivity.
  apply summary_lines_neutral in E; [|split; reflexivity].
  apply summary_lines_neutral in E0; [|exact E].
  apply summary_lines_neutral in E1; [|exact E0].
  destruct E1 as [-> ->]. reflexivity.
Qed.

Lemma result_cells_rows (rows : list row) :
  cells_read comprehensive_header (map cells rows) = map row_result rows.
Proof.
  unfold cells_read.
  change (Sink.result_idx comprehensive_header) with (Some 5%nat). cbv iota.
  induction rows as [|r l IH]; [reflexivity|].
  cbn [map Report.result_cells]. cbn [cells nth_error]. rewrite IH. reflexivity.
Qed.

Lemma classified_result (allowed muted expected : list DTCInfo) (d : DTCInfo) (r : row) :
  classified allowed muted expected d r ->
  row_result r = lit "none" \/ row_result r = lit "pass" \/ row_result r = lit "fail".
Proof.
  unfold classified. intros (_ & _ & _ & H).
  destruct (find _ allowed) as [a|].
  { destruct H as (_ & _ & ->). destruct (status_matches _ _); auto. }
  destruct (find _ muted) as [m|].
  { destruct H as (_ & _ & ->). destruct (status_matches _ _); auto. }
  destruct (find _ expected) as [e|].
  { destruct H as (_ & _ & ->). destruct (status_matches _ _); auto. }
  destruct H as (_ & _ & ->). auto.
Qed.

Lemma rows_results (dut_dtcs allowed muted expected : list DTCInfo) (rows : list row) :
  comprehensive_rows dut_dtcs allowed muted expected = Ok rows ->
  Forall (fun r => row_result r = lit "none" \/ row_result r = lit "pass"
                   \/ row_result r = lit "fail") rows.
Proof.
  intros H. apply comprehensive_rows_spec in H.
  destruct H as (present & absent & -> & Hp & Ha).
  apply Forall_app. split.
  - clear Ha. induction Hp as [|d r l l' Hc _ IH]; constructor; [|exact IH].
    exact (classified_result _ _ _ _ _ Hc).
  - clear Hp. induction Ha as [|e r l l' Hm _ IH]; constructor; [|exact IH].
    destruct Hm as (_ & _ & -> & _). auto.
Qed.

Lemma rows_status (rows : list row) :
  Forall (fun r => row_result r = lit "none" \/ row_result r = lit "pass"
                   \/ row_result r = lit "fail") rows ->
  existsb is_fail (map row_result rows) =
  existsb (fun r => str_eqb (row_result r) "fail") rows.
Proof.
  induction 1 as [|r l Hr _ IH]; [reflexivity|].
  cbn [map existsb]. rewrite IH.
  destruct Hr as [-> | [-> | ->]]; reflexivity.
Qed.

End BlockFacts.

Import BlockFacts.

(** X28: in a report with no group open, [evaluate_dtc_block] on at least
    one observed DTC makes the status of the case the worse of the status
    before the call and its verdict.  Of the three lines it adds, the rule
    summary always has the status NONE, whatever the rules are; the
    comprehensive table is FAIL exactly when the verdict is; the step
    carries the verdict. *)
Theorem dtc_block_case_status
  (cfg : list pyval) (dut : DTCInfo) (dut_dtcs allowed expected muted : list DTCInfo)
  (summary : table) (rows : list row) (r0 : Sink.report) :
  get_muted_dtcs cfg = Ok muted ->
  build_dtc_rule_summary_table allowed expected muted = Ok summary ->
  comprehensive_rows (dut :: dut_dtcs) allowed muted expected = Ok rows ->
  exists r' st verdict,
    fst (evaluate_dtc_block cfg (dut :: dut_dtcs) allowed expected (Some r0)) = Some r'
    /\ Report.lines_of r' =
       Report.lines_of r0 ++
       [Report.table_entry "NONE"; Report.table_entry st;
        Report.step_entry (Report.FStr verdict)]
    /\ verdict =
       (if forallb (covered allowed muted expected) (dut :: dut_dtcs) &&
           forallb (expected_seen (dut :: dut_dtcs) allowed muted) expected
        then lit "PASS" else lit "FAIL")
    /\ (st = lit "FAIL" <-> verdict = lit "FAIL")
    /\ Report.get_case_status (Report.lines_of r') =
       worst (Report.get_case_status (Report.lines_of r0)) verdict.
Proof.
  intros Hm Hs Hr.
  destruct (evaluate_dtc_block_step cfg dut dut_dtcs allowed expected muted summary
              rows r0 Hm Hs Hr) as (sorted & Hsort & E).
  rewrite E. cbn [fst].
  set (verdict := overall_status
                    (mkTable comprehensive_name comprehensive_header (map cells rows) true)).
  exists (((r0 ++ [Sink.Table (name summary) (data summary) (column_header summary)])
             ++ [Sink.Table comprehensive_name sorted comprehensive_header])
            ++ [Sink.Step verdict (lit "DTC evaluation overall status: " ++ verdict)]),
    (Report.table_status comprehensive_header sorted), verdict.
  split; [reflexivity|].
  assert (Hl : Report.lines_of
                 (((r0 ++ [Sink.Table (name summary) (data summary) (column_header summary)])
                     ++ [Sink.Table comprehensive_name sorted comprehensive_header])
                    ++ [Sink.Step verdict
                          (lit "DTC evaluation overall status: " ++ verdict)]) =
               Report.lines_of r0 ++
               [Report.table_entry "NONE";
                Report.table_entry (Report.table_status comprehensive_header sorted);
                Report.step_entry (Report.FStr verdict)]).
  { unfold Report.lines_of. rewrite !map_app, <- !app_assoc.
    cbn [map Report.entry_of app]. rewrite (summary_status _ _ _ _ Hs). reflexivity. }
  split; [exact Hl|].
  assert (Hv : verdict =
               if existsb (fun r => str_eqb (row_result r) "fail") rows
               then lit "FAIL" else lit "PASS").
  { apply overall_status_rows. }
  assert (Hst : Report.table_status comprehensive_header sorted =
                if existsb (fun r => str_eqb (row_result r) "fail") rows then lit "FAIL"
                else if existsb is_pass (map row_result rows) then lit "PASS"
                else lit "NONE").
  { rewrite (table_status_perm _ _ _ (sorted_data_perm _ _ _ Hsort)).
    rewrite table_status_cells, result_cells_rows.
    rewrite (rows_status rows (rows_results _ _ _ _ _ Hr)). reflexivity. }
  split; [apply overall_status_inputs, Hr|].
  rewrite Hl, case_status_append, Hst, Hv.
  destruct (existsb (fun r => str_eqb (row_result r) "fail") rows).
  { split; [split; reflexivity | reflexivity]. }
  destruct (existsb is_pass (map row_result rows));
    (split; [split; discriminate | reflexivity]).
Qed.

Lemma dtc_block_case_status_witness :
  exists r',
    fst (evaluate_dtc_block [VInt 5]
           [mkDTCInfo "0x5" (VStr "0x2f"); mkDTCInfo "0x7" (VStr "0x08")] []
           [mkDTCInfo "0x7" (VStr "0x09")] (Some [Sink.Step "PASS" "ready"])) = Some r'
    /\ Report.get_case_status (Report.lines_of r') = lit "FAIL".
Proof.
  destruct (dtc_block_case_status [VInt 5] (mkDTCInfo "0x5" (VStr "0x2f"))
              [mkDTCInfo "0x7" (VStr "0x08")] [] [mkDTCInfo "0x7" (VStr "0x09")]
              _ _ _ [Sink.Step "PASS" "ready"] eq_refl eq_refl eq_refl)
    as (r' & st & v & E & _ & Hv & _ & Hc).
  exists r'. split; [exact E|]. rewrite Hc, Hv. reflexivity.
Defined.
